(** * VS Code LLM Server: protocol adapters and streaming state machines

    A shallow embedding of the request converters, the non-streaming
    formatters and the SSE streaming handlers of the OpenAI and Anthropic
    front ends, and of the backend adapter [VsCodeLmHandler.createMessage],
    together with the properties the specification states about them.

    Conventions.
    - JavaScript strings are [string]; token counts and timestamps are [Z];
      block and tool-call indices are [nat] (counters that start at 0 and are
      only incremented).
    - An [AsyncGenerator] that is consumed by one [for await] loop is the
      finite list of the values it yields plus the way it ends (it returns, or
      it throws an [Error] with a message).
    - The Express response object is the list of SSE frames written so far and
      a flag that records [res.end()]; writes are assumed to succeed.
    - [uuidv4()] and [Date.now()] are inputs of the handlers. *)

From Stdlib Require Import String Ascii List ZArith Lia Bool Arith DecimalString Sorted.
Import ListNotations.
Set Warnings "-register-all".
Local Open Scope list_scope.
Local Open Scope string_scope.
Local Open Scope nat_scope.

(** ** JavaScript platform pieces *)

Module JS.

Definition quote : ascii := ascii_of_nat 34.
Definition backslash : ascii := ascii_of_nat 92.
Definition nl : string := String (ascii_of_nat 10) EmptyString.

(** Truthiness of a string: the empty string is the only falsy one. *)
Definition truthy (s : string) : bool :=
  match s with EmptyString => false | String _ _ => true end.

(** [Array.prototype.join] on an array of strings. *)
Fixpoint join (sep : string) (l : list string) : string :=
  match l with
  | [] => ""
  | [x] => x
  | x :: rest => x ++ sep ++ join sep rest
  end.

(** An [Error] value is represented by its [message]. *)
Inductive Res (A : Type) : Type :=
| Ok (a : A)
| Throw (message : string).
Arguments Ok {A} a.
Arguments Throw {A} message.

Definition number_toString (n : Z) : string :=
  NilZero.string_of_int (Z.to_int n).

End JS.

(** ** JSON values, [JSON.stringify] and [JSON.parse]

    Numbers are restricted to integers; an object is the list of its own
    properties in enumeration order.  [stringify] prints an integer with all
    its digits.  [parse] reads integer number literals only and throws one
    fixed message; the converters take the decoder as a parameter
    [JSON_parse], and [parse] is the decoder of the sample inputs. *)

Module JSON.
Import JS.

Inductive json : Type :=
| JNull
| JBool (b : bool)
| JNum (n : Z)
| JStr (s : string)
| JArr (items : list json)
| JObj (props : list (string * json)).

Definition hex_digit (n : nat) : ascii :=
  if n <? 10 then ascii_of_nat (48 + n) else ascii_of_nat (87 + n).

(** Escaping of one character inside a JSON string literal. *)
Definition escape_char (c : ascii) : string :=
  let n := nat_of_ascii c in
  if n =? 34 then String backslash (String quote "")
  else if n =? 92 then String backslash (String backslash "")
  else if n =? 8 then "\b"
  else if n =? 9 then "\t"
  else if n =? 10 then "\n"
  else if n =? 12 then "\f"
  else if n =? 13 then "\r"
  else if n <? 32 then
    "\u00" ++ String (hex_digit (n / 16)) (String (hex_digit (n mod 16)) "")
  else String c "".

Fixpoint escape (s : string) : string :=
  match s with
  | EmptyString => ""
  | String c r => escape_char c ++ escape r
  end.

Definition quoted (s : string) : string :=
  String quote (escape s ++ String quote "").

Fixpoint stringify (j : json) : string :=
  match j with
  | JNull => "null"
  | JBool true => "true"
  | JBool false => "false"
  | JNum n => number_toString n
  | JStr s => quoted s
  | JArr items =>
      "[" ++ join "," (map stringify items) ++ "]"
  | JObj props =>
      "{" ++ join "," (map (fun kv => quoted (fst kv) ++ ":" ++ stringify (snd kv)) props) ++ "}"
  end.

(** A value of unknown runtime type is a [json] value ([undefined] and
    [null] are both [JNull]): its [typeof] and its truthiness. *)
Definition typeof (j : json) : string :=
  match j with
  | JNull => "object"
  | JBool _ => "boolean"
  | JNum _ => "number"
  | JStr _ => "string"
  | JArr _ => "object"
  | JObj _ => "object"
  end.

Definition truthy_value (j : json) : bool :=
  match j with
  | JNull => false
  | JBool b => b
  | JNum n => negb (Z.eqb n 0)
  | JStr s => truthy s
  | JArr _ => true
  | JObj _ => true
  end.

(** *** Parsing *)

Definition is_ws (c : ascii) : bool :=
  let n := nat_of_ascii c in
  (n =? 32) || (n =? 9) || (n =? 10) || (n =? 13).

Fixpoint skip_ws (s : string) : string :=
  match s with
  | String c r => if is_ws c then skip_ws r else s
  | EmptyString => s
  end.

Definition digit_val (c : ascii) : option nat :=
  let n := nat_of_ascii c in
  if (48 <=? n) && (n <=? 57) then Some (n - 48) else None.

Definition hex_val (c : ascii) : option nat :=
  let n := nat_of_ascii c in
  if (48 <=? n) && (n <=? 57) then Some (n - 48)
  else if (97 <=? n) && (n <=? 102) then Some (n - 87)
  else if (65 <=? n) && (n <=? 70) then Some (n - 55)
  else None.

(** UTF-8 bytes of a code unit of the basic multilingual plane. *)
Definition utf8 (n : nat) : string :=
  if n <? 128 then String (ascii_of_nat n) ""
  else if n <? 2048 then
    String (ascii_of_nat (192 + n / 64)) (String (ascii_of_nat (128 + n mod 64)) "")
  else
    String (ascii_of_nat (224 + n / 4096))
      (String (ascii_of_nat (128 + (n / 64) mod 64))
         (String (ascii_of_nat (128 + n mod 64)) "")).

Definition unescape (c : ascii) : option string :=
  let n := nat_of_ascii c in
  if n =? 34 then Some (String quote "")
  else if n =? 92 then Some (String backslash "")
  else if n =? 47 then Some "/"
  else if n =? 98 then Some (String (ascii_of_nat 8) "")
  else if n =? 102 then Some (String (ascii_of_nat 12) "")
  else if n =? 110 then Some (String (ascii_of_nat 10) "")
  else if n =? 114 then Some (String (ascii_of_nat 13) "")
  else if n =? 116 then Some (String (ascii_of_nat 9) "")
  else None.

(** The characters of a string literal after its opening quote; returns
    the decoded string and the input after the closing quote. *)
Fixpoint parse_chars (s : string) : option (string * string) :=
  match s with
  | EmptyString => None
  | String c r =>
      let n := nat_of_ascii c in
      if n =? 34 then Some ("", r)
      else if n <? 32 then None
      else if n =? 92 then
        match r with
        | String e r1 =>
            if nat_of_ascii e =? 117 then
              match r1 with
              | String h1 (String h2 (String h3 (String h4 r2))) =>
                  match hex_val h1, hex_val h2, hex_val h3, hex_val h4 with
                  | Some a, Some b, Some c', Some d =>
                      match parse_chars r2 with
                      | Some (t, rest) =>
                          Some (utf8 (((a * 16 + b) * 16 + c') * 16 + d) ++ t, rest)
                      | None => None
                      end
                  | _, _, _, _ => None
                  end
              | _ => None
              end
            else
              match unescape e with
              | Some u =>
                  match parse_chars r1 with
                  | Some (t, rest) => Some (u ++ t, rest)
                  | None => None
                  end
              | None => None
              end
        | EmptyString => None
        end
      else
        match parse_chars r with
        | Some (t, rest) => Some (String c t, rest)
        | None => None
        end
  end.

Fixpoint parse_digits (acc : Z) (s : string) : Z * string :=
  match s with
  | String c r =>
      match digit_val c with
      | Some d => parse_digits (acc * 10 + Z.of_nat d) r
      | None => (acc, s)
      end
  | EmptyString => (acc, s)
  end.

(** An integer literal without sign: a lone [0], or a non-zero digit
    followed by digits. *)
Definition parse_nat_lit (s : string) : option (Z * string) :=
  match s with
  | String c r =>
      match digit_val c with
      | Some 0 => Some (0%Z, r)
      | Some d => Some (parse_digits (Z.of_nat d) r)
      | None => None
      end
  | EmptyString => None
  end.

(** The literal must not continue as a fraction or exponent. *)
Definition ends_number (s : string) : bool :=
  match s with
  | String c _ =>
      let n := nat_of_ascii c in
      negb ((n =? 46) || (n =? 101) || (n =? 69) || ((48 <=? n) && (n <=? 57)))
  | EmptyString => true
  end.

(** [obj[k] = v] on the list of properties: an existing key keeps its
    place and takes the new value. *)
Fixpoint set_prop (k : string) (v : json) (props : list (string * json)) :=
  match props with
  | [] => [(k, v)]
  | (k', v') :: rest =>
      if String.eqb k k' then (k, v) :: rest else (k', v') :: set_prop k v rest
  end.

(** [strip_prefix p s] is the rest of [s] after its prefix [p]. *)
Fixpoint strip_prefix (p s : string) : option string :=
  match p with
  | EmptyString => Some s
  | String a p' =>
      match s with
      | String b s' => if Ascii.eqb a b then strip_prefix p' s' else None
      | EmptyString => None
      end
  end.

Fixpoint parse_value (fuel : nat) (s : string) : option (json * string) :=
  match fuel with
  | O => None
  | S fuel' =>
      match skip_ws s with
      | EmptyString => None
      | String c r =>
          let n := nat_of_ascii c in
          if n =? 123 then
            match skip_ws r with
            | String c1 r1 =>
                if nat_of_ascii c1 =? 125 then Some (JObj [], r1)
                else parse_members fuel' [] (skip_ws r)
            | EmptyString => None
            end
          else if n =? 91 then
            match skip_ws r with
            | String c1 r1 =>
                if nat_of_ascii c1 =? 93 then Some (JArr [], r1)
                else parse_elements fuel' [] (skip_ws r)
            | EmptyString => None
            end
          else if n =? 34 then
            match parse_chars r with
            | Some (t, rest) => Some (JStr t, rest)
            | None => None
            end
          else if n =? 45 then
            match parse_nat_lit r with
            | Some (z, rest) => if ends_number rest then Some (JNum (- z), rest) else None
            | None => None
            end
          else
            match strip_prefix "true" (String c r), strip_prefix "false" (String c r),
                  strip_prefix "null" (String c r) with
            | Some rest, _, _ => Some (JBool true, rest)
            | _, Some rest, _ => Some (JBool false, rest)
            | _, _, Some rest => Some (JNull, rest)
            | None, None, None =>
                match parse_nat_lit (String c r) with
                | Some (z, rest) => if ends_number rest then Some (JNum z, rest) else None
                | None => None
                end
            end
      end
  end
with parse_elements (fuel : nat) (acc : list json) (s : string) : option (json * string) :=
  match fuel with
  | O => None
  | S fuel' =>
      match parse_value fuel' s with
      | Some (v, rest) =>
          match skip_ws rest with
          | String c r =>
              if nat_of_ascii c =? 44 then parse_elements fuel' (acc ++ [v]) r
              else if nat_of_ascii c =? 93 then Some (JArr (acc ++ [v]), r)
              else None
          | EmptyString => None
          end
      | None => None
      end
  end
with parse_members (fuel : nat) (acc : list (string * json)) (s : string) : option (json * string) :=
  match fuel with
  | O => None
  | S fuel' =>
      match skip_ws s with
      | String q r =>
          if nat_of_ascii q =? 34 then
            match parse_chars r with
            | Some (k, rest) =>
                match skip_ws rest with
                | String c r1 =>
                    if nat_of_ascii c =? 58 then
                      match parse_value fuel' r1 with
                      | Some (v, rest1) =>
                          match skip_ws rest1 with
                          | String c2 r2 =>
                              if nat_of_ascii c2 =? 44 then parse_members fuel' (set_prop k v acc) r2
                              else if nat_of_ascii c2 =? 125 then Some (JObj (set_prop k v acc), r2)
                              else None
                          | EmptyString => None
                          end
                      | None => None
                      end
                    else None
                | EmptyString => None
                end
            | None => None
            end
          else None
      | EmptyString => None
      end
  end.

(** [JSON.parse]: the whole text must be one value; anything else throws a
    [SyntaxError]. *)
Definition parse (s : string) : Res json :=
  match parse_value (2 * String.length s + 2) s with
  | Some (v, rest) =>
      match skip_ws rest with
      | EmptyString => Ok v
      | String _ _ => Throw "SyntaxError: Unexpected non-whitespace character after JSON"
      end
  | None => Throw "SyntaxError: Unexpected token in JSON"
  end.

End JSON.

Import JS JSON.
Local Open Scope list_scope.

(** ** The logger and the effects of the request code

    [logger.warn] and [logger.error] calls are recorded in order with the
    identifying fields of their context; [logger.debug] and [logger.info]
    calls are not recorded.  A computation of type [M A] runs on the log
    written so far and either returns a value or throws. *)

Module Logger.

Inductive LogLevel := warn_level | error_level.

Record LogEntry := {
  level : LogLevel;
  message : string;
  context : list (string * string)
}.

Definition Log := list LogEntry.

Definition M (A : Type) : Type := Log -> Res A * Log.

Definition ret {A} (a : A) : M A := fun log => (Ok a, log).

Definition bind {A B} (c : M A) (k : A -> M B) : M B :=
  fun log =>
    match c log with
    | (Ok a, log') => k a log'
    | (Throw e, log') => (Throw e, log')
    end.

Definition throw {A} (e : string) : M A := fun log => (Throw e, log).

(** [try { body } catch (error) { handler(error) }] *)
Definition try_catch {A} (body : M A) (handler : string -> M A) : M A :=
  fun log =>
    match body log with
    | (Ok a, log') => (Ok a, log')
    | (Throw e, log') => handler e log'
    end.

Definition lift {A} (r : Res A) : M A := fun log => (r, log).

Definition warn (msg : string) (ctx : list (string * string)) : M unit :=
  fun log => (Ok tt, log ++ [{| level := warn_level; message := msg; context := ctx |}]).

Definition error (msg : string) (ctx : list (string * string)) : M unit :=
  fun log => (Ok tt, log ++ [{| level := error_level; message := msg; context := ctx |}]).

Definition when (b : bool) (c : M unit) : M unit := if b then c else ret tt.

End Logger.

Import Logger.

Notation "x <- c ;; k" := (bind c (fun x => k))
  (at level 61, c at next level, right associativity).
Notation "c ;;; k" := (bind c (fun _ => k))
  (at level 61, right associativity).

(** ** The host API: chat messages and their parts (namespace [vscode]) *)

Module VsCode.

Inductive LanguageModelChatMessageRole := User | Assistant.

Record LanguageModelTextPart := { value : string }.

Inductive Part :=
| TextPart (p : LanguageModelTextPart)
| ToolResultPart (callId : string) (content : list LanguageModelTextPart)
| ToolCallPart (callId : string) (name : string) (input : json).

Record LanguageModelChatMessage := {
  role : LanguageModelChatMessageRole;
  content : list Part
}.

(** [new LanguageModelChatMessage(role, content)] with an array of parts. *)
Definition newMessage (r : LanguageModelChatMessageRole) (parts : list Part) :=
  {| role := r; content := parts |}.

(** [new LanguageModelChatMessage(role, content)] with a string: the host
    stores it as one text part. *)
Definition newTextMessage (r : LanguageModelChatMessageRole) (text : string) :=
  {| role := r; content := [TextPart {| value := text |}] |}.

End VsCode.

(** ** Shared types (models/types.ts) *)

Module Types.

(** [StreamChunk = TextChunk | ToolCallChunk | UsageChunk] *)
Inductive StreamChunk :=
| TextChunk (text : string)
| ToolCallChunk (id : string) (name : string) (arguments : json)
| UsageChunk (inputTokens : Z) (outputTokens : Z).

(** One consumption of the generator returned by [createMessage]. *)
Record Run := {
  chunks : list StreamChunk;
  failure : option string
}.

Definition completed (evs : list StreamChunk) : Run :=
  {| chunks := evs; failure := None |}.

Definition failed (evs : list StreamChunk) (e : string) : Run :=
  {| chunks := evs; failure := Some e |}.

(** What the front ends use of a [VsCodeLmHandler]: the run of the
    generator that [createMessage] returns.  What the generator itself logs
    is not part of the run. *)
Record Backend := {
  createMessage : list VsCode.LanguageModelChatMessage -> Run
}.

(** A backend that replays one recorded run. *)
Definition replay (r : Run) : Backend := {| createMessage := fun _ => r |}.

End Types.

(** ** SSE utilities (utils/streaming.ts) *)

Module Streaming.

(** The [data:] line carries a JSON-encoded payload or a literal text. *)
Inductive Data (P : Type) :=
| Json (payload : P)
| Raw (text : string).
Arguments Json {P} payload.
Arguments Raw {P} text.

Record Frame (P : Type) := {
  event : option string;
  data : Data P
}.
Arguments event {P} f.
Arguments data {P} f.

Record Response (P : Type) := {
  headers : list (string * string);
  written : list (Frame P);
  ended : bool
}.
Arguments headers {P} r.
Arguments written {P} r.
Arguments ended {P} r.

Definition newResponse (P : Type) : Response P :=
  {| headers := []; written := []; ended := false |}.

Definition initSSE {P} (res : Response P) : Response P :=
  {| headers := headers res ++
       [("Content-Type", "text/event-stream"); ("Cache-Control", "no-cache");
        ("Connection", "keep-alive"); ("X-Accel-Buffering", "no")];
     written := written res;
     ended := ended res |}.

(** One frame: the [event:] line only for a non-empty event name. *)
Definition sendSSE {P} (res : Response P) (d : Data P) (ev : option string) : Response P :=
  let e := match ev with
           | Some name => if truthy name then Some name else None
           | None => None
           end in
  {| headers := headers res;
     written := written res ++ [{| event := e; data := d |}];
     ended := ended res |}.

Definition sendOpenAIChunk {P} (res : Response P) (d : P) : Response P :=
  sendSSE res (Json d) None.

Definition sendOpenAIDone {P} (res : Response P) : Response P :=
  sendSSE res (Raw "[DONE]") None.

Definition sendAnthropicEvent {P} (res : Response P) (ev : string) (d : P) : Response P :=
  sendSSE res (Json d) (Some ev).

Definition closeSSE {P} (res : Response P) : Response P :=
  {| headers := headers res; written := written res; ended := true |}.

End Streaming.

(** ** The backend adapter (handlers/vsCodeLmHandler.ts)

    The adapter's own logger calls are left out. *)

Module VsCodeLmHandler.
Import VsCode Types.

(** What the model's response stream yields: a text part, a tool-call part,
    or something else.  The fields are runtime values, since the adapter
    checks their types itself. *)
Inductive ResponsePart :=
| ResponseTextPart (value : json)
| ResponseToolCallPart (callId : json) (name : json) (input : json)
| ResponseOtherPart.

(** What the host can throw. *)
Inductive Thrown :=
| CancellationError
| ErrorObject (message : string)
| OtherThrown (text : string).

Record ChatResponse := {
  stream : list ResponsePart;
  streamThrows : option Thrown
}.

(** The part of [vscode.LanguageModelChat] the adapter calls. *)
Record LanguageModelChat := {
  clientCountTokens : string -> Res Z;
  sendRequest : list LanguageModelChatMessage -> Thrown + ChatResponse
}.

(** The text of a chat message as [countTokens] extracts it. *)
Definition messageText (m : LanguageModelChatMessage) : string :=
  String.concat ""
    (map (fun part => match part with
                      | TextPart p => value p
                      | _ => ""
                      end) (content m)).

(** The guard on the client's answer: a call that throws and a count below
    zero both give 0.  The client's count is an integer here. *)
Definition checkedCount (r : Res Z) : Z :=
  match r with
  | Ok tokenCount => if (tokenCount <? 0)%Z then 0%Z else tokenCount
  | Throw _ => 0%Z
  end.

(** [countTokens] while a request is running (client and cancellation
    token both present). *)
Definition countTokens (client : LanguageModelChat) (text : string + LanguageModelChatMessage) : Z :=
  match text with
  | inl s => if truthy s then checkedCount (clientCountTokens client s) else 0%Z
  | inr m => checkedCount (clientCountTokens client (messageText m))
  end.

Definition calculateTotalInputTokens (client : LanguageModelChat)
    (messages : list LanguageModelChatMessage) : Z :=
  fold_left (fun sum tokens => (sum + tokens)%Z)
    (map (fun msg => countTokens client (inr msg)) messages) 0%Z.

(** [!x || typeof x !== 'string'] is false exactly for a non-empty string. *)
Definition validString (j : json) : option string :=
  if truthy_value j && String.eqb (typeof j) "string" then
    match j with JStr s => Some s | _ => None end
  else None.

Definition validInput (j : json) : bool :=
  truthy_value j && String.eqb (typeof j) "object".

Record LoopState := {
  accumulatedText : string;
  yielded : list StreamChunk
}.

(** One iteration of the loop over [response.stream]. *)
Definition onPart (st : LoopState) (chunk : ResponsePart) : LoopState :=
  match chunk with
  | ResponseTextPart v =>
      if String.eqb (typeof v) "string" then
        match v with
        | JStr text =>
            {| accumulatedText := (accumulatedText st ++ text)%string;
               yielded := yielded st ++ [TextChunk text] |}
        | _ => st
        end
      else st
  | ResponseToolCallPart callId name input =>
      match validString name with
      | None => st
      | Some name' =>
          match validString callId with
          | None => st
          | Some callId' =>
              if validInput input then
                let toolCallText :=
                  stringify (JObj [("type", JStr "tool_call"); ("name", JStr name');
                                   ("arguments", input); ("callId", JStr callId')]) in
                {| accumulatedText := (accumulatedText st ++ toolCallText)%string;
                   yielded := yielded st ++ [TextChunk toolCallText] |}
              else st
          end
      end
  | ResponseOtherPart => st
  end.

(** The error the generator throws from its [catch] block. *)
Definition rethrown (e : Thrown) : string :=
  match e with
  | CancellationError => "Request cancelled by user"
  | ErrorObject m => m
  | OtherThrown t => ("VS Code LM response stream error: " ++ t)%string
  end.

Definition createMessage (client : LanguageModelChat)
    (messages : list LanguageModelChatMessage) : Run :=
  let totalInputTokens := calculateTotalInputTokens client messages in
  match sendRequest client messages with
  | inl e => failed [] (rethrown e)
  | inr response =>
      let st := fold_left onPart (stream response)
                  {| accumulatedText := ""; yielded := [] |} in
      match streamThrows response with
      | Some e => failed (yielded st) (rethrown e)
      | None =>
          let totalOutputTokens := countTokens client (inl (accumulatedText st)) in
          completed (yielded st ++ [UsageChunk totalInputTokens totalOutputTokens])
      end
  end.

Definition backend (client : LanguageModelChat) : Backend :=
  {| Types.createMessage := createMessage client |}.

End VsCodeLmHandler.

(** ** OpenAI wire types (models/openaiTypes.ts) *)

Module OpenAITypes.

Record ImageUrl := { url : string; detail : option string }.

Record ContentPart := {
  part_type : string;
  part_text : option string;
  image_url : option ImageUrl
}.

(** [MessageContent = string | ContentPart[]]; [NoContent] is any other
    runtime value ([null], [undefined]). *)
Inductive MessageContent :=
| StringContent (s : string)
| PartsContent (parts : list ContentPart)
| NoContent.

(** [function.arguments] is declared a string; the converter also accepts a
    value that is already decoded. *)
Inductive Arguments :=
| ArgumentsText (s : string)
| ArgumentsValue (v : json).

Record FunctionCall := { fn_name : string; fn_arguments : Arguments }.

Record ToolCall := {
  tc_id : string;
  tc_type : string;
  tc_function : FunctionCall
}.

Record ChatMessage := {
  msg_role : string;
  msg_content : MessageContent;
  tool_calls : option (list ToolCall);
  tool_call_id : option string
}.

Record ChatCompletionRequest := {
  messages : list ChatMessage;
  model : string;
  frequency_penalty : option Z;   (* only its presence is used *)
  presence_penalty : option Z     (* only its presence is used *)
}.

Record ChatCompletionChoice := {
  choice_index : nat;
  choice_message : ChatMessage;
  finish_reason : option string
}.

Record Usage := {
  prompt_tokens : Z;
  completion_tokens : Z;
  total_tokens : Z
}.

Record ChatCompletionResponse := {
  resp_id : string;
  resp_object : string;
  resp_created : Z;
  resp_model : string;
  choices : list ChatCompletionChoice;
  usage : Usage
}.

Record ToolCallDelta := {
  tcd_index : nat;
  tcd_id : string;
  tcd_type : string;
  tcd_function : FunctionCall
}.

Record ChatCompletionDelta := {
  delta_role : option string;
  delta_content : option string;
  delta_tool_calls : option (list ToolCallDelta)
}.

Record ChatCompletionChunkChoice := {
  cc_index : nat;
  delta : ChatCompletionDelta;
  cc_finish_reason : option string
}.

Record ChatCompletionChunk := {
  chunk_id : string;
  chunk_object : string;
  chunk_created : Z;
  chunk_model : string;
  chunk_choices : list ChatCompletionChunkChoice
}.

(** What [sendOpenAIChunk] is given: a chunk, or the error object of
    [handleSSEError]. *)
Inductive Payload :=
| ChunkPayload (c : ChatCompletionChunk)
| ErrorPayload (message : string) (type : string).

(** The JSON form of a content part, for [JSON.stringify(message.content)]. *)
Definition ImageUrl_json (u : ImageUrl) : json :=
  JObj (("url", JStr (url u)) ::
        match detail u with Some d => [("detail", JStr d)] | None => [] end).

Definition ContentPart_json (p : ContentPart) : json :=
  JObj (("type", JStr (part_type p)) ::
        match part_text p with Some t => [("text", JStr t)] | None => [] end ++
        match image_url p with Some u => [("image_url", ImageUrl_json u)] | None => [] end).

End OpenAITypes.

(** ** The OpenAI front end (handlers/openaiHandler.ts, the version with
    tool calls) *)

Module OpenAIHandler.
Import VsCode Types Streaming OpenAITypes.

Definition handleSSEError (res : Response Payload) (message : string) : Response Payload :=
  closeSSE (sendOpenAIChunk res (ErrorPayload message "server_error")).

(** The switch on [message.role]. *)
Definition mapRole (r : string) : LanguageModelChatMessageRole :=
  if String.eqb r "system" then Assistant
  else if String.eqb r "assistant" then Assistant
  else User.

Definition truthy_opt (o : option string) : bool :=
  match o with Some s => truthy s | None => false end.

Definition truthy_content (c : MessageContent) : bool :=
  match c with
  | StringContent s => truthy s
  | PartsContent _ => true
  | NoContent => false
  end.

(** The text of a non-tool message. *)
Definition textContentOf (c : MessageContent) : string :=
  match c with
  | StringContent s => s
  | PartsContent parts =>
      join nl
        (map (fun part => match part_text part with Some t => t | None => "" end)
           (filter (fun part => String.eqb (part_type part) "text" && truthy_opt (part_text part))
              parts))
  | NoContent => ""
  end.

(** The content parts a message has before its tool calls are looked at. *)
Definition initialParts (message : ChatMessage) : list Part :=
  if String.eqb (msg_role message) "tool" && truthy_opt (tool_call_id message)
     && truthy_content (msg_content message)
  then
    let toolResult :=
      match msg_content message with
      | StringContent s => s
      | PartsContent parts => stringify (JArr (map ContentPart_json parts))
      | NoContent => ""
      end in
    [ToolResultPart (match tool_call_id message with Some i => i | None => "" end)
       [{| value := toolResult |}]]
  else
    let textContent := textContentOf (msg_content message) in
    if truthy textContent then [TextPart {| value := textContent |}] else [].

Section WithJSON.

(** [JSON.parse] of the platform. *)
Variable JSON_parse : string -> Res json.

(** The [try] block of one tool call: decode, then push. *)
Definition pushToolCall (contentParts : list Part) (toolCall : ToolCall) : M (list Part) :=
  args <- match fn_arguments (tc_function toolCall) with
          | ArgumentsText s => lift (JSON_parse s)
          | ArgumentsValue v => ret v
          end ;;
  ret (contentParts ++ [ToolCallPart (tc_id toolCall) (fn_name (tc_function toolCall)) args]).

(** The loop over [message.tool_calls]. *)
Fixpoint convertToolCalls (toolCalls : list ToolCall) (contentParts : list Part)
  : M (list Part) :=
  match toolCalls with
  | [] => ret contentParts
  | toolCall :: rest =>
      contentParts' <-
        try_catch (pushToolCall contentParts toolCall)
          (fun e =>
             warn "Failed to parse tool call arguments"
               [("toolCallId", tc_id toolCall); ("error", e)] ;;;
             ret contentParts) ;;
      convertToolCalls rest contentParts'
  end.

(** The body of the loop over the messages, up to the final test. *)
Definition contentPartsOf (message : ChatMessage) : M (list Part) :=
  match tool_calls message with
  | Some (tc :: tcs) => convertToolCalls (tc :: tcs) (initialParts message)
  | _ => ret (initialParts message)
  end.

Fixpoint convertLoop (msgs : list ChatMessage) (vsCodeMessages : list LanguageModelChatMessage)
  : M (list LanguageModelChatMessage) :=
  match msgs with
  | [] => ret vsCodeMessages
  | message :: rest =>
      contentParts <- contentPartsOf message ;;
      convertLoop rest
        (if 0 <? length contentParts
         then vsCodeMessages ++ [newMessage (mapRole (msg_role message)) contentParts]
         else vsCodeMessages)
  end.

Definition convertToVsCodeLmMessages (msgs : list ChatMessage)
  : M (list LanguageModelChatMessage) :=
  convertLoop msgs [].

(** *** Non-streaming *)

Record Collected := {
  accumulatedText : string;
  toolCalls : list ToolCall;
  inputTokens : Z;
  outputTokens : Z
}.

Definition collect (st : Collected) (chunk : StreamChunk) : Collected :=
  match chunk with
  | TextChunk text =>
      {| accumulatedText := (accumulatedText st ++ text)%string;
         toolCalls := toolCalls st;
         inputTokens := inputTokens st;
         outputTokens := outputTokens st |}
  | ToolCallChunk id name arguments =>
      {| accumulatedText := accumulatedText st;
         toolCalls := toolCalls st ++
           [{| tc_id := id; tc_type := "function";
               tc_function := {| fn_name := name;
                                 fn_arguments := ArgumentsText (stringify arguments) |} |}];
         inputTokens := inputTokens st;
         outputTokens := outputTokens st |}
  | UsageChunk i o =>
      {| accumulatedText := accumulatedText st;
         toolCalls := toolCalls st;
         inputTokens := i;
         outputTokens := o |}
  end.

(** [accumulatedText || null] *)
Definition textOrNull (s : string) : MessageContent :=
  if truthy s then StringContent s else NoContent.

Definition buildResponse (uuid : string) (now : Z) (mdl : string) (st : Collected)
  : ChatCompletionResponse :=
  let responseMessage :=
    {| msg_role := "assistant";
       msg_content := textOrNull (accumulatedText st);
       tool_calls := if 0 <? length (toolCalls st) then Some (toolCalls st) else None;
       tool_call_id := None |} in
  {| resp_id := ("chatcmpl-" ++ uuid)%string;
     resp_object := "chat.completion";
     resp_created := (now / 1000)%Z;
     resp_model := mdl;
     choices :=
       [{| choice_index := 0;
           choice_message := responseMessage;
           finish_reason :=
             Some (if 0 <? length (toolCalls st) then "tool_calls" else "stop") |}];
     usage := {| prompt_tokens := inputTokens st;
                 completion_tokens := outputTokens st;
                 total_tokens := (inputTokens st + outputTokens st)%Z |} |}.

Definition isSome {A} (o : option A) : bool :=
  match o with Some _ => true | None => false end.

Definition handleChatCompletion (request : ChatCompletionRequest) (handler : Backend)
    (requestId uuid : string) (now : Z) : M ChatCompletionResponse :=
  when (isSome (frequency_penalty request))
    (warn "frequency_penalty is not supported by VS Code LM" [("requestId", requestId)]) ;;;
  when (isSome (presence_penalty request))
    (warn "presence_penalty is not supported by VS Code LM" [("requestId", requestId)]) ;;;
  vsCodeMessages <- convertToVsCodeLmMessages (messages request) ;;
  try_catch
    (let run := createMessage handler vsCodeMessages in
     let st := fold_left collect (chunks run)
                 {| accumulatedText := ""; toolCalls := [];
                    inputTokens := 0; outputTokens := 0 |} in
     match failure run with
     | Some e => throw e
     | None => ret (buildResponse uuid now (model request) st)
     end)
    (fun e =>
       error "OpenAI chat completion error" [("requestId", requestId); ("error", e)] ;;;
       throw e).

(** *** Streaming *)

Record StreamState := {
  res : Response Payload;
  isFirstChunk : bool;
  hasToolCalls : bool;
  toolCallIndex : nat
}.

Definition mkChunk (completionId : string) (created : Z) (mdl : string)
    (d : ChatCompletionDelta) (fr : option string) : Payload :=
  ChunkPayload
    {| chunk_id := completionId;
       chunk_object := "chat.completion.chunk";
       chunk_created := created;
       chunk_model := mdl;
       chunk_choices := [{| cc_index := 0; delta := d; cc_finish_reason := fr |}] |}.

(** One iteration of the loop over the backend's chunks. *)
Definition onChunk (completionId : string) (created : Z) (mdl : string)
    (st : StreamState) (chunk : StreamChunk) : StreamState :=
  match chunk with
  | TextChunk text =>
      let streamChunk :=
        mkChunk completionId created mdl
          (if isFirstChunk st
           then {| delta_role := Some "assistant"; delta_content := Some text;
                   delta_tool_calls := None |}
           else {| delta_role := None; delta_content := Some text;
                   delta_tool_calls := None |})
          None in
      {| res := sendOpenAIChunk (res st) streamChunk;
         isFirstChunk := false;
         hasToolCalls := hasToolCalls st;
         toolCallIndex := toolCallIndex st |}
  | ToolCallChunk id name arguments =>
      let res1 :=
        if isFirstChunk st then
          sendOpenAIChunk (res st)
            (mkChunk completionId created mdl
               {| delta_role := Some "assistant"; delta_content := None;
                  delta_tool_calls := None |} None)
        else res st in
      let toolCallChunk :=
        mkChunk completionId created mdl
          {| delta_role := None; delta_content := None;
             delta_tool_calls :=
               Some [{| tcd_index := toolCallIndex st;
                        tcd_id := id;
                        tcd_type := "function";
                        tcd_function :=
                          {| fn_name := name;
                             fn_arguments := ArgumentsText (stringify arguments) |} |}] |}
          None in
      {| res := sendOpenAIChunk res1 toolCallChunk;
         isFirstChunk := false;
         hasToolCalls := true;
         toolCallIndex := S (toolCallIndex st) |}
  | UsageChunk _ _ =>
      let finalChunk :=
        mkChunk completionId created mdl
          {| delta_role := None; delta_content := None; delta_tool_calls := None |}
          (Some (if hasToolCalls st then "tool_calls" else "stop")) in
      {| res := sendOpenAIChunk (res st) finalChunk;
         isFirstChunk := isFirstChunk st;
         hasToolCalls := hasToolCalls st;
         toolCallIndex := toolCallIndex st |}
  end.

Definition handleStreamingChatCompletion (request : ChatCompletionRequest)
    (handler : Backend) (requestId uuid : string) (now : Z) (res0 : Response Payload)
  : M (Response Payload) :=
  let res1 := initSSE res0 in
  vsCodeMessages <- convertToVsCodeLmMessages (messages request) ;;
  let completionId := ("chatcmpl-" ++ uuid)%string in
  let created := (now / 1000)%Z in
  let run := createMessage handler vsCodeMessages in
  let st := fold_left (onChunk completionId created (model request)) (chunks run)
              {| res := res1; isFirstChunk := true; hasToolCalls := false;
                 toolCallIndex := 0 |} in
  match failure run with
  | None => ret (closeSSE (sendOpenAIDone (res st)))
  | Some e =>
      error "OpenAI streaming chat completion error"
        [("requestId", requestId); ("error", e)] ;;;
      ret (handleSSEError (res st) e)
  end.

End WithJSON.

End OpenAIHandler.

(** ** Anthropic wire types (models/anthropicTypes.ts) *)

Module AnthropicTypes.

Record ImageSource := {
  source_type : string;
  media_type : string;
  source_data : string
}.

(** [ContentBlock = TextBlock | ImageBlock | ToolUseBlock | ToolResultBlock];
    the content of a tool result is a string or an array of blocks. *)
Inductive ContentBlock :=
| TextBlock (text : string)
| ImageBlock (source : ImageSource)
| ToolUseBlock (id : string) (name : string) (input : json)
| ToolResultBlock (tool_use_id : string) (content : ToolResultContent)
    (is_error : option bool)
with ToolResultContent :=
| ResultString (s : string)
| ResultBlocks (blocks : list ContentBlock).

Inductive MessageContent :=
| StringContent (s : string)
| BlocksContent (blocks : list ContentBlock).

Record AnthropicMessage := {
  msg_role : string;
  msg_content : MessageContent
}.

Record SystemBlock := { sys_type : string; sys_text : string }.

Inductive SystemPrompt :=
| SystemString (s : string)
| SystemBlocks (blocks : list SystemBlock).

Record MessagesRequest := {
  model : string;
  messages : list AnthropicMessage;
  system : option SystemPrompt
}.

Record Usage := { input_tokens : Z; output_tokens : Z }.

Record MessagesResponse := {
  resp_id : string;
  resp_type : string;
  resp_role : string;
  resp_content : list ContentBlock;
  resp_model : string;
  stop_reason : option string;
  usage : Usage
}.

(** The object a [content_block_start] event carries. *)
Inductive StartedBlock :=
| StartText (text : string)
| StartToolUse (id : string) (name : string) (input : json).

Inductive BlockDelta :=
| TextDelta (text : string)
| InputJsonDelta (partial_json : string).

(** The data objects of the stream events, by their [type] field. *)
Inductive StreamEvent :=
| MessageStart (id : string) (mdl : string) (u : Usage)
| ContentBlockStart (index : nat) (content_block : StartedBlock)
| ContentBlockDelta (index : nat) (d : BlockDelta)
| ContentBlockStop (index : nat)
| MessageDelta (stop : option string) (out_tokens : Z)
| MessageStop
| ErrorEvent (error_type : string) (message : string).

End AnthropicTypes.

(** ** The Anthropic front end (handlers/anthropicHandler.ts, the version
    with tool use) *)

Module AnthropicHandler.
Import VsCode Types Streaming AnthropicTypes.

Definition handleSSEError (res : Response StreamEvent) (message : string)
  : Response StreamEvent :=
  closeSSE (sendAnthropicEvent res "error" (ErrorEvent "api_error" message)).

Definition extractSystemPrompt (sys : option SystemPrompt) : string :=
  match sys with
  | None => ""
  | Some (SystemString s) => s
  | Some (SystemBlocks blocks) => join nl (map sys_text blocks)
  end.

Definition isTextBlock (b : ContentBlock) : bool :=
  match b with TextBlock _ => true | _ => false end.

Definition extractMessageContent (c : MessageContent) : string :=
  match c with
  | StringContent s => s
  | BlocksContent blocks =>
      join nl
        (map (fun block => match block with TextBlock t => t | _ => "" end)
           (filter isTextBlock blocks))
  end.

Definition mapRole (r : string) : LanguageModelChatMessageRole :=
  if String.eqb r "assistant" then Assistant else User.

(** The string a [tool_result] block is flattened to. *)
Definition resultContent (c : ToolResultContent) : string :=
  match c with
  | ResultString s => s
  | ResultBlocks blocks =>
      join nl (map (fun c => match c with TextBlock t => t | _ => "" end) blocks)
  end.

(** One iteration of the loop over the blocks of a message. *)
Definition pushBlock (contentParts : list Part) (block : ContentBlock) : list Part :=
  match block with
  | TextBlock text => contentParts ++ [TextPart {| value := text |}]
  | ToolUseBlock id name input => contentParts ++ [ToolCallPart id name input]
  | ToolResultBlock tool_use_id content _ =>
      contentParts ++ [ToolResultPart tool_use_id [{| value := resultContent content |}]]
  | ImageBlock _ => contentParts
  end.

Definition contentPartsOf (message : AnthropicMessage) : list Part :=
  match msg_content message with
  | StringContent s => [TextPart {| value := s |}]
  | BlocksContent blocks => fold_left pushBlock blocks []
  end.

(** One iteration of the loop over the messages. *)
Definition pushMessage (vsCodeMessages : list LanguageModelChatMessage)
    (message : AnthropicMessage) : list LanguageModelChatMessage :=
  let contentParts := contentPartsOf message in
  if 0 <? length contentParts
  then vsCodeMessages ++ [newMessage (mapRole (msg_role message)) contentParts]
  else vsCodeMessages.

Definition convertToVsCodeLmMessages (msgs : list AnthropicMessage)
    (sys : option SystemPrompt) : list LanguageModelChatMessage :=
  let systemPrompt := extractSystemPrompt sys in
  fold_left pushMessage msgs
    (if truthy systemPrompt then [newTextMessage Assistant systemPrompt] else []).

(** *** Non-streaming *)

Record Collected := {
  accumulatedText : string;
  contentBlocks : list ContentBlock;
  inputTokens : Z;
  outputTokens : Z
}.

Definition collect (st : Collected) (chunk : StreamChunk) : Collected :=
  match chunk with
  | TextChunk text =>
      {| accumulatedText := (accumulatedText st ++ text)%string;
         contentBlocks := contentBlocks st;
         inputTokens := inputTokens st;
         outputTokens := outputTokens st |}
  | ToolCallChunk id name arguments =>
      {| accumulatedText := accumulatedText st;
         contentBlocks := contentBlocks st ++ [ToolUseBlock id name arguments];
         inputTokens := inputTokens st;
         outputTokens := outputTokens st |}
  | UsageChunk i o =>
      {| accumulatedText := accumulatedText st;
         contentBlocks := contentBlocks st;
         inputTokens := i;
         outputTokens := o |}
  end.

(** [`msg_${uuidv4().replace(/-/g, '')}`] *)
Fixpoint removeDashes (s : string) : string :=
  match s with
  | EmptyString => EmptyString
  | String c r => if Ascii.eqb c "-"%char then removeDashes r else String c (removeDashes r)
  end.

Definition messageIdOf (uuid : string) : string := ("msg_" ++ removeDashes uuid)%string.

Definition buildResponse (uuid : string) (mdl : string) (st : Collected) : MessagesResponse :=
  let responseContent :=
    (if truthy (accumulatedText st) then [TextBlock (accumulatedText st)] else [])
    ++ contentBlocks st in
  let stopReason := if 0 <? length (contentBlocks st) then "tool_use" else "end_turn" in
  {| resp_id := messageIdOf uuid;
     resp_type := "message";
     resp_role := "assistant";
     resp_content := responseContent;
     resp_model := mdl;
     stop_reason := Some stopReason;
     usage := {| input_tokens := inputTokens st; output_tokens := outputTokens st |} |}.

Definition handleMessages (request : MessagesRequest) (handler : Backend)
    (requestId uuid : string) : M MessagesResponse :=
  let vsCodeMessages := convertToVsCodeLmMessages (messages request) (system request) in
  try_catch
    (let run := createMessage handler vsCodeMessages in
     let st := fold_left collect (chunks run)
                 {| accumulatedText := ""; contentBlocks := [];
                    inputTokens := 0; outputTokens := 0 |} in
     match failure run with
     | Some e => throw e
     | None => ret (buildResponse uuid (model request) st)
     end)
    (fun e =>
       error "Anthropic messages request error" [("requestId", requestId); ("error", e)] ;;;
       throw e).

(** *** Streaming *)

Record StreamState := {
  res : Response StreamEvent;
  inputTokens' : Z;
  outputTokens' : Z;
  contentBlockIndex : nat;
  currentBlockIsOpen : bool;
  hasToolUse : bool
}.

(** One iteration of the loop over the backend's chunks. *)
Definition onChunk (st : StreamState) (chunk : StreamChunk) : StreamState :=
  match chunk with
  | TextChunk text =>
      let res1 :=
        if negb (currentBlockIsOpen st)
        then sendAnthropicEvent (res st) "content_block_start"
               (ContentBlockStart (contentBlockIndex st) (StartText ""))
        else res st in
      {| res := sendAnthropicEvent res1 "content_block_delta"
                  (ContentBlockDelta (contentBlockIndex st) (TextDelta text));
         inputTokens' := inputTokens' st;
         outputTokens' := outputTokens' st;
         contentBlockIndex := contentBlockIndex st;
         currentBlockIsOpen := true;
         hasToolUse := hasToolUse st |}
  | ToolCallChunk id name arguments =>
      let '(res1, index1) :=
        if currentBlockIsOpen st
        then (sendAnthropicEvent (res st) "content_block_stop"
                (ContentBlockStop (contentBlockIndex st)),
              S (contentBlockIndex st))
        else (res st, contentBlockIndex st) in
      let res2 := sendAnthropicEvent res1 "content_block_start"
                    (ContentBlockStart index1 (StartToolUse id name (JObj []))) in
      let res3 := sendAnthropicEvent res2 "content_block_delta"
                    (ContentBlockDelta index1 (InputJsonDelta (stringify arguments))) in
      let res4 := sendAnthropicEvent res3 "content_block_stop" (ContentBlockStop index1) in
      {| res := res4;
         inputTokens' := inputTokens' st;
         outputTokens' := outputTokens' st;
         contentBlockIndex := S index1;
         currentBlockIsOpen := false;
         hasToolUse := true |}
  | UsageChunk i o =>
      {| res := res st;
         inputTokens' := i;
         outputTokens' := o;
         contentBlockIndex := contentBlockIndex st;
         currentBlockIsOpen := currentBlockIsOpen st;
         hasToolUse := hasToolUse st |}
  end.

(** What follows the loop when the generator returned normally. *)
Definition finish (st : StreamState) : Response StreamEvent :=
  let res1 :=
    if currentBlockIsOpen st
    then sendAnthropicEvent (res st) "content_block_stop"
           (ContentBlockStop (contentBlockIndex st))
    else res st in
  let res2 := sendAnthropicEvent res1 "message_delta"
                (MessageDelta (Some (if hasToolUse st then "tool_use" else "end_turn"))
                   (outputTokens' st)) in
  let res3 := sendAnthropicEvent res2 "message_stop" MessageStop in
  closeSSE res3.

Definition handleStreamingMessages (request : MessagesRequest) (handler : Backend)
    (requestId uuid : string) (res0 : Response StreamEvent) : M (Response StreamEvent) :=
  let res1 := initSSE res0 in
  let vsCodeMessages := convertToVsCodeLmMessages (messages request) (system request) in
  let messageId := messageIdOf uuid in
  let res2 := sendAnthropicEvent res1 "message_start"
                (MessageStart messageId (model request)
                   {| input_tokens := 0; output_tokens := 0 |}) in
  let run := createMessage handler vsCodeMessages in
  let st := fold_left onChunk (chunks run)
              {| res := res2; inputTokens' := 0; outputTokens' := 0;
                 contentBlockIndex := 0; currentBlockIsOpen := false;
                 hasToolUse := false |} in
  match failure run with
  | None => ret (finish st)
  | Some e =>
      error "Anthropic streaming messages request error"
        [("requestId", requestId); ("error", e)] ;;;
      ret (handleSSEError (res st) e)
  end.

End AnthropicHandler.

(** ** The text-only versions of the two front ends

    The repository also holds the versions of handlers/openaiHandler.ts and
    handlers/anthropicHandler.ts that predate tool calling: they convert text
    only and ignore [tool_call] chunks. *)

Module TextOnlyOpenAIHandler.
Import VsCode Types Streaming OpenAITypes.

Definition convertContent (c : MessageContent) : string :=
  OpenAIHandler.textContentOf c.

Definition pushMessage (vsCodeMessages : list LanguageModelChatMessage)
    (message : ChatMessage) : list LanguageModelChatMessage :=
  let content := convertContent (msg_content message) in
  if truthy content
  then vsCodeMessages ++ [newTextMessage (OpenAIHandler.mapRole (msg_role message)) content]
  else vsCodeMessages.

Definition convertToVsCodeLmMessages (msgs : list ChatMessage)
  : list LanguageModelChatMessage :=
  fold_left pushMessage msgs [].

Record Collected := {
  accumulatedText : string;
  inputTokens : Z;
  outputTokens : Z
}.

Definition collect (st : Collected) (chunk : StreamChunk) : Collected :=
  match chunk with
  | TextChunk text =>
      {| accumulatedText := (accumulatedText st ++ text)%string;
         inputTokens := inputTokens st;
         outputTokens := outputTokens st |}
  | UsageChunk i o =>
      {| accumulatedText := accumulatedText st; inputTokens := i; outputTokens := o |}
  | ToolCallChunk _ _ _ => st
  end.

Definition buildResponse (uuid : string) (now : Z) (mdl : string) (st : Collected)
  : ChatCompletionResponse :=
  {| resp_id := ("chatcmpl-" ++ uuid)%string;
     resp_object := "chat.completion";
     resp_created := (now / 1000)%Z;
     resp_model := mdl;
     choices :=
       [{| choice_index := 0;
           choice_message :=
             {| msg_role := "assistant";
                msg_content := StringContent (accumulatedText st);
                tool_calls := None;
                tool_call_id := None |};
           finish_reason := Some "stop" |}];
     usage := {| prompt_tokens := inputTokens st;
                 completion_tokens := outputTokens st;
                 total_tokens := (inputTokens st + outputTokens st)%Z |} |}.

Definition handleChatCompletion (request : ChatCompletionRequest) (handler : Backend)
    (requestId uuid : string) (now : Z) : M ChatCompletionResponse :=
  when (OpenAIHandler.isSome (frequency_penalty request))
    (warn "frequency_penalty is not supported by VS Code LM" [("requestId", requestId)]) ;;;
  when (OpenAIHandler.isSome (presence_penalty request))
    (warn "presence_penalty is not supported by VS Code LM" [("requestId", requestId)]) ;;;
  let vsCodeMessages := convertToVsCodeLmMessages (messages request) in
  try_catch
    (let run := createMessage handler vsCodeMessages in
     let st := fold_left collect (chunks run)
                 {| accumulatedText := ""; inputTokens := 0; outputTokens := 0 |} in
     match failure run with
     | Some e => throw e
     | None => ret (buildResponse uuid now (model request) st)
     end)
    (fun e =>
       error "OpenAI chat completion error" [("requestId", requestId); ("error", e)] ;;;
       throw e).

End TextOnlyOpenAIHandler.

Module TextOnlyAnthropicHandler.
Import VsCode Types Streaming AnthropicTypes.

Definition pushMessage (vsCodeMessages : list LanguageModelChatMessage)
    (message : AnthropicMessage) : list LanguageModelChatMessage :=
  let content := AnthropicHandler.extractMessageContent (msg_content message) in
  if truthy content
  then vsCodeMessages ++ [newTextMessage (AnthropicHandler.mapRole (msg_role message)) content]
  else vsCodeMessages.

Definition convertToVsCodeLmMessages (msgs : list AnthropicMessage)
    (sys : option SystemPrompt) : list LanguageModelChatMessage :=
  let systemPrompt := AnthropicHandler.extractSystemPrompt sys in
  fold_left pushMessage msgs
    (if truthy systemPrompt then [newTextMessage Assistant systemPrompt] else []).

Record Collected := {
  accumulatedText : string;
  inputTokens : Z;
  outputTokens : Z
}.

Definition collect (st : Collected) (chunk : StreamChunk) : Collected :=
  match chunk with
  | TextChunk text =>
      {| accumulatedText := (accumulatedText st ++ text)%string;
         inputTokens := inputTokens st;
         outputTokens := outputTokens st |}
  | UsageChunk i o =>
      {| accumulatedText := accumulatedText st; inputTokens := i; outputTokens := o |}
  | ToolCallChunk _ _ _ => st
  end.

Definition buildResponse (uuid : string) (mdl : string) (st : Collected) : MessagesResponse :=
  {| resp_id := AnthropicHandler.messageIdOf uuid;
     resp_type := "message";
     resp_role := "assistant";
     resp_content := [TextBlock (accumulatedText st)];
     resp_model := mdl;
     stop_reason := Some "end_turn";
     usage := {| input_tokens := inputTokens st; output_tokens := outputTokens st |} |}.

Definition handleMessages (request : MessagesRequest) (handler : Backend)
    (requestId uuid : string) : M MessagesResponse :=
  let vsCodeMessages := convertToVsCodeLmMessages (messages request) (system request) in
  try_catch
    (let run := createMessage handler vsCodeMessages in
     let st := fold_left collect (chunks run)
                 {| accumulatedText := ""; inputTokens := 0; outputTokens := 0 |} in
     match failure run with
     | Some e => throw e
     | None => ret (buildResponse uuid (model request) st)
     end)
    (fun e =>
       error "Anthropic messages request error" [("requestId", requestId); ("error", e)] ;;;
       throw e).

Record StreamState := {
  res : Response StreamEvent;
  outputTokens' : Z
}.

Definition onChunk (st : StreamState) (chunk : StreamChunk) : StreamState :=
  match chunk with
  | TextChunk text =>
      {| res := sendAnthropicEvent (res st) "content_block_delta"
                  (ContentBlockDelta 0 (TextDelta text));
         outputTokens' := outputTokens' st |}
  | UsageChunk _ o => {| res := res st; outputTokens' := o |}
  | ToolCallChunk _ _ _ => st
  end.

Definition handleStreamingMessages (request : MessagesRequest) (handler : Backend)
    (requestId uuid : string) (res0 : Response StreamEvent) : M (Response StreamEvent) :=
  let res1 := initSSE res0 in
  let vsCodeMessages := convertToVsCodeLmMessages (messages request) (system request) in
  let res2 := sendAnthropicEvent res1 "message_start"
                (MessageStart (AnthropicHandler.messageIdOf uuid) (model request)
                   {| input_tokens := 0; output_tokens := 0 |}) in
  let res3 := sendAnthropicEvent res2 "content_block_start"
                (ContentBlockStart 0 (StartText "")) in
  let run := createMessage handler vsCodeMessages in
  let st := fold_left onChunk (chunks run) {| res := res3; outputTokens' := 0 |} in
  match failure run with
  | None =>
      let res4 := sendAnthropicEvent (res st) "content_block_stop" (ContentBlockStop 0) in
      let res5 := sendAnthropicEvent res4 "message_delta"
                    (MessageDelta (Some "end_turn") (outputTokens' st)) in
      let res6 := sendAnthropicEvent res5 "message_stop" MessageStop in
      ret (closeSSE res6)
  | Some e =>
      error "Anthropic streaming messages request error"
        [("requestId", requestId); ("error", e)] ;;;
      ret (AnthropicHandler.handleSSEError (res st) e)
  end.

End TextOnlyAnthropicHandler.

(** ** Vocabulary of the specification

    The notions the specification uses to describe the converters and the
    streams, stated independently of the loops above. *)

Module Spec.
Import VsCode Types Streaming.

(** *** Backend runs *)

Definition textOf (chunk : StreamChunk) : string :=
  match chunk with TextChunk t => t | _ => "" end.

(** The concatenation of the text deltas of a run. *)
Definition concatenatedText (evs : list StreamChunk) : string :=
  fold_right String.append "" (map textOf evs).

Definition isToolCall (chunk : StreamChunk) : bool :=
  match chunk with ToolCallChunk _ _ _ => true | _ => false end.

(** The tool-call events of a run, in call order. *)
Definition toolCallEvents (evs : list StreamChunk) : list StreamChunk :=
  filter isToolCall evs.

Definition toolUseBlockOf (chunk : StreamChunk) : list AnthropicTypes.ContentBlock :=
  match chunk with
  | ToolCallChunk id name arguments => [AnthropicTypes.ToolUseBlock id name arguments]
  | _ => []
  end.

(** The JSON payloads written to a response, in order. *)
Definition payloads {P} (r : Response P) : list P :=
  flat_map (fun f => match data f with Json p => [p] | Raw _ => [] end) (written r).

(** The value a computation returns, if it returns. *)
Definition returned {A} (r : Res A * Log) : option A :=
  match fst r with Ok a => Some a | Throw _ => None end.

(** *** The backend adapter *)

Section BackendAdapter.
Import VsCodeLmHandler.

(** The chunk is a text chunk or the usage chunk. *)
Definition isTextOrUsage (chunk : StreamChunk) : bool :=
  match chunk with
  | TextChunk _ => true
  | UsageChunk _ _ => true
  | ToolCallChunk _ _ _ => false
  end.

(** The JSON text a tool-call part is serialized to. *)
Definition toolCallText (callId name : string) (input : json) : string :=
  stringify (JObj [("type", JStr "tool_call"); ("name", JStr name);
                   ("arguments", input); ("callId", JStr callId)]).

Definition isObjectLike (j : json) : bool :=
  match j with JObj _ => true | JArr _ => true | _ => false end.

(** The text a part of the model's response stream is turned into: the
    value of a text part, the serialized form of a tool-call part with a
    name, a call id and an object as input, and nothing otherwise. *)
Definition yieldedTextOf (part : ResponsePart) : list string :=
  match part with
  | ResponseTextPart (JStr text) => [text]
  | ResponseToolCallPart (JStr callId) (JStr name) input =>
      if truthy name && truthy callId && isObjectLike input
      then [toolCallText callId name input]
      else []
  | _ => []
  end.

Definition yieldedTexts (response : ChatResponse) : list string :=
  flat_map yieldedTextOf (stream response).

End BackendAdapter.

(** *** OpenAI requests *)

Section OpenAI.
Import OpenAITypes.
Variable JSON_parse : string -> Res json.

Definition decodeArguments (tc : ToolCall) : Res json :=
  match fn_arguments (tc_function tc) with
  | ArgumentsText s => JSON_parse s
  | ArgumentsValue v => Ok v
  end.

(** The [ToolCall] part of a tool call: none when its arguments do not
    decode. *)
Definition toolCallPartOf (tc : ToolCall) : list Part :=
  match decodeArguments tc with
  | Ok args => [ToolCallPart (tc_id tc) (fn_name (tc_function tc)) args]
  | Throw _ => []
  end.

(** The log line of a tool call: one warning when its arguments do not
    decode. *)
Definition decodeWarningOf (tc : ToolCall) : Log :=
  match decodeArguments tc with
  | Ok _ => []
  | Throw e =>
      [{| level := warn_level;
          message := "Failed to parse tool call arguments";
          context := [("toolCallId", tc_id tc); ("error", e)] |}]
  end.

Definition toolCallsOf (m : ChatMessage) : list ToolCall :=
  match tool_calls m with Some tcs => tcs | None => [] end.

(** The content parts of the unified message of a wire message. *)
Definition unifiedParts (m : ChatMessage) : list Part :=
  OpenAIHandler.initialParts m ++ flat_map toolCallPartOf (toolCallsOf m).

Definition unifiedMessage (m : ChatMessage) : LanguageModelChatMessage :=
  newMessage (OpenAIHandler.mapRole (msg_role m)) (unifiedParts m).

Definition hasParts (m : ChatMessage) : bool :=
  match unifiedParts m with [] => false | _ :: _ => true end.

Definition decodeWarnings (msgs : list ChatMessage) : Log :=
  flat_map (fun m => flat_map decodeWarningOf (toolCallsOf m)) msgs.

Definition isToolCallPart (p : Part) : bool :=
  match p with ToolCallPart _ _ _ => true | _ => false end.

(** The tool call's arguments decode. *)
Definition decodes (tc : ToolCall) : bool :=
  match decodeArguments tc with Ok _ => true | Throw _ => false end.

(** The message [m] with the tool calls [tcs] in place of its own. *)
Definition withToolCalls (m : ChatMessage) (tcs : list ToolCall) : ChatMessage :=
  {| msg_role := msg_role m;
     msg_content := msg_content m;
     tool_calls := Some tcs;
     tool_call_id := tool_call_id m |}.

(** The [ToolCall] parts of the messages handed to the backend, in order. *)
Definition toolCallPartsIn (out : list LanguageModelChatMessage) : list Part :=
  filter isToolCallPart (flat_map content out).

(** What the conversion of the request [pre ++ m :: post] does when the
    tool calls of [m] are [before ++ tc :: after] and the arguments of [tc]
    do not decode, the decoder throwing [e]: the conversion returns; what it
    returns is what it returns for the same request with [tc] taken out of
    [m]; the messages returned hold as many [ToolCall] parts as the request
    has tool calls that decode; the log holds the warning of [tc]; every
    other tool call of [m] that decodes has its part in a returned message
    of the role of [m]. *)
Definition decodeFailureIsSkipped (pre : list ChatMessage) (m : ChatMessage)
    (post : list ChatMessage) (before : list ToolCall) (tc : ToolCall)
    (after : list ToolCall) (e : string) (log : Log) : Prop :=
  exists out log',
    OpenAIHandler.convertToVsCodeLmMessages JSON_parse (pre ++ m :: post) log =
      (Ok out, log') /\
    fst (OpenAIHandler.convertToVsCodeLmMessages JSON_parse
           (pre ++ withToolCalls m (before ++ after) :: post) log) = Ok out /\
    length (toolCallPartsIn out) =
      length (filter decodes (flat_map toolCallsOf (pre ++ m :: post))) /\
    In {| level := warn_level;
          message := "Failed to parse tool call arguments";
          context := [("toolCallId", tc_id tc); ("error", e)] |} log' /\
    (forall sibling args,
       In sibling (before ++ after) ->
       decodeArguments sibling = Ok args ->
       exists v,
         In v out /\
         role v = OpenAIHandler.mapRole (msg_role m) /\
         In (ToolCallPart (tc_id sibling) (fn_name (tc_function sibling)) args)
            (content v)).

End OpenAI.

(** *** Anthropic requests *)

Section Anthropic.
Import AnthropicTypes.

Definition unifiedMessageA (m : AnthropicMessage) : LanguageModelChatMessage :=
  newMessage (AnthropicHandler.mapRole (msg_role m)) (AnthropicHandler.contentPartsOf m).

Definition hasPartsA (m : AnthropicMessage) : bool :=
  match AnthropicHandler.contentPartsOf m with [] => false | _ :: _ => true end.

(** The synthetic message of the system prompt, when there is one. *)
Definition systemMessage (sys : option SystemPrompt) : list LanguageModelChatMessage :=
  if truthy (AnthropicHandler.extractSystemPrompt sys)
  then [newTextMessage Assistant (AnthropicHandler.extractSystemPrompt sys)]
  else [].

(** The text of the text sub-blocks of a block array, joined by newline. *)
Definition joinedTextBlocks (blocks : list ContentBlock) : string :=
  join nl (flat_map (fun b => match b with TextBlock t => [t] | _ => [] end) blocks).

(** The flattening of a tool result as the specification words it. *)
Definition flattenedAsSpecified (c : ToolResultContent) : string :=
  match c with
  | ResultString s => s
  | ResultBlocks blocks => joinedTextBlocks blocks
  end.

(** One entry per sub-block: its text, or the empty string when it is
    not a text block. *)
Definition entryOf (b : ContentBlock) : string :=
  match b with TextBlock t => t | _ => "" end.

Definition flattenedPerSubBlock (c : ToolResultContent) : string :=
  match c with
  | ResultString s => s
  | ResultBlocks blocks => join nl (map entryOf blocks)
  end.

Definition allTextBlocks (c : ToolResultContent) : Prop :=
  match c with
  | ResultString _ => True
  | ResultBlocks blocks => Forall (fun b => AnthropicHandler.isTextBlock b = true) blocks
  end.

(** The request [msgs] reaches the backend with a [ToolResult] part of
    call [id] whose content is [text]. *)
Definition yieldsToolResult (msgs : list AnthropicMessage) (sys : option SystemPrompt)
    (id : string) (text : string) : Prop :=
  exists v,
    In v (AnthropicHandler.convertToVsCodeLmMessages msgs sys) /\
    In (ToolResultPart id [{| value := text |}]) (content v).

(** Every message handed to the backend has at least one content part. *)
Definition noEmptyTurn (out : list LanguageModelChatMessage) : Prop :=
  Forall (fun v => content v <> []) out.

(** *** Anthropic streams *)

Definition startIndices (evs : list StreamEvent) : list nat :=
  flat_map (fun e => match e with ContentBlockStart i _ => [i] | _ => [] end) evs.

Definition stopIndices (evs : list StreamEvent) : list nat :=
  flat_map (fun e => match e with ContentBlockStop i => [i] | _ => [] end) evs.

Definition indexOf (e : StreamEvent) : option nat :=
  match e with
  | ContentBlockStart i _ => Some i
  | ContentBlockDelta i _ => Some i
  | ContentBlockStop i => Some i
  | _ => None
  end.

(** Index [i] is carried by some frame of the stream. *)
Definition appears (i : nat) (evs : list StreamEvent) : Prop :=
  In (Some i) (map indexOf evs).

(** A [content_block_start] of index [i] comes before a
    [content_block_stop] of index [i]. *)
Definition startPrecedesStop (i : nat) (evs : list StreamEvent) : Prop :=
  exists pre b mid post,
    evs = pre ++ ContentBlockStart i b :: mid ++ ContentBlockStop i :: post.

(** Block index monotonicity of a frame sequence. *)
Definition blockIndexMonotone (evs : list StreamEvent) : Prop :=
  (forall i, appears i evs ->
     count_occ Nat.eq_dec (startIndices evs) i = 1 /\
     count_occ Nat.eq_dec (stopIndices evs) i = 1 /\
     startPrecedesStop i evs) /\
  StronglySorted lt (startIndices evs).

(** The state in which the streaming loop starts on a fresh response:
    [message_start] has been written. *)
Definition initialState (request : MessagesRequest) (uuid : string)
  : AnthropicHandler.StreamState :=
  {| AnthropicHandler.res :=
       sendAnthropicEvent (initSSE (newResponse StreamEvent)) "message_start"
         (MessageStart (AnthropicHandler.messageIdOf uuid) (model request)
            {| input_tokens := 0; output_tokens := 0 |});
     AnthropicHandler.inputTokens' := 0;
     AnthropicHandler.outputTokens' := 0;
     AnthropicHandler.contentBlockIndex := 0;
     AnthropicHandler.currentBlockIsOpen := false;
     AnthropicHandler.hasToolUse := false |}.

Definition openCount (isOpen : bool) : nat := if isOpen then 1 else 0.

(** The invariant of the streaming loop: with [n] blocks closed and
    possibly one more open, the blocks started so far are [0 .. n] or
    [0 .. n-1] in this order, the blocks stopped are [0 .. n-1], no other
    index is carried by a frame, each stopped block was started before,
    and the open block has its start frame. *)
Definition blocksWellFormed (evs : list StreamEvent) (n : nat) (isOpen : bool) : Prop :=
  startIndices evs = seq 0 (n + openCount isOpen) /\
  stopIndices evs = seq 0 n /\
  (forall i, appears i evs -> i < n + openCount isOpen) /\
  (forall i, i < n -> startPrecedesStop i evs) /\
  (isOpen = true -> exists pre b post, evs = pre ++ ContentBlockStart n b :: post).

Definition isBlockChunk (chunk : StreamChunk) : bool :=
  match chunk with UsageChunk _ _ => false | _ => true end.

(** The last text or tool-call chunk of a run is a text chunk. *)
Definition endsInText (evs : list StreamChunk) : bool :=
  match rev (filter isBlockChunk evs) with
  | TextChunk _ :: _ => true
  | _ => false
  end.

(** The run throws after a text chunk that no tool-call chunk follows. *)
Definition throwsInTextBlock (run : Run) : bool :=
  match failure run with
  | Some _ => endsInText (chunks run)
  | None => false
  end.

(** Block index monotonicity of a frame sequence whose last block is left
    open: the greatest index carried by a frame has its start frame and no
    stop frame; every other index has exactly one start and one stop, the
    start first; the started indices are strictly increasing. *)
Definition blockIndexMonotoneButLast (evs : list StreamEvent) : Prop :=
  exists n,
    (count_occ Nat.eq_dec (startIndices evs) n = 1 /\
     count_occ Nat.eq_dec (stopIndices evs) n = 0 /\
     forall i, appears i evs -> i <= n) /\
    (forall i, appears i evs -> i <> n ->
       count_occ Nat.eq_dec (startIndices evs) i = 1 /\
       count_occ Nat.eq_dec (stopIndices evs) i = 1 /\
       startPrecedesStop i evs) /\
    StronglySorted lt (startIndices evs).

End Anthropic.

(** *** OpenAI streams *)

Section OpenAIStream.
Import OpenAITypes.

(** The chunks of a stream, leaving out any error object. *)
Definition chunksOf (ps : list Payload) : list ChatCompletionChunk :=
  flat_map (fun p => match p with ChunkPayload c => [c] | ErrorPayload _ _ => [] end) ps.

(** The chunk's delta carries [role: "assistant"]. *)
Definition carriesRole (c : ChatCompletionChunk) : bool :=
  existsb (fun ch => match delta_role (delta ch) with
                     | Some r => String.eqb r "assistant"
                     | None => false
                     end) (chunk_choices c).

(** The state in which the streaming loop starts on a fresh response. *)
Definition initialStateO : OpenAIHandler.StreamState :=
  {| OpenAIHandler.res := initSSE (newResponse Payload);
     OpenAIHandler.isFirstChunk := true;
     OpenAIHandler.hasToolCalls := false;
     OpenAIHandler.toolCallIndex := 0 |}.

(** The chunks written so far. *)
Definition chunkTrace (st : OpenAIHandler.StreamState) : list ChatCompletionChunk :=
  chunksOf (payloads (OpenAIHandler.res st)).

Definition isContent (chunk : StreamChunk) : bool :=
  match chunk with UsageChunk _ _ => false | _ => true end.

(** First-chunk role: exactly one chunk carries the role, and it is the
    first one. *)
Definition firstChunkRole (cs : list ChatCompletionChunk) : Prop :=
  match cs with
  | [] => True
  | first :: others =>
      carriesRole first = true /\ forallb (fun c => negb (carriesRole c)) others = true
  end.

End OpenAIStream.

End Spec.

(** ** Sample inputs *)

Module Samples.

Definition sampleBadCall : OpenAITypes.ToolCall :=
{| OpenAITypes.tc_id := "call_bad";
   OpenAITypes.tc_type := "function";
   OpenAITypes.tc_function :=
     {| OpenAITypes.fn_name := "get_weather";
        OpenAITypes.fn_arguments := OpenAITypes.ArgumentsText "{location: SF" |} |}.

Definition sampleGoodCall : OpenAITypes.ToolCall :=
{| OpenAITypes.tc_id := "call_good";
   OpenAITypes.tc_type := "function";
   OpenAITypes.tc_function :=
     {| OpenAITypes.fn_name := "get_time";
        OpenAITypes.fn_arguments :=
          OpenAITypes.ArgumentsText (stringify (JObj [("zone", JStr "UTC")])) |} |}.

Definition sampleAssistantMessage : OpenAITypes.ChatMessage :=
{| OpenAITypes.msg_role := "assistant";
   OpenAITypes.msg_content := OpenAITypes.NoContent;
   OpenAITypes.tool_calls := Some [sampleBadCall; sampleGoodCall];
   OpenAITypes.tool_call_id := None |}.

Definition sampleImage : AnthropicTypes.ContentBlock :=
AnthropicTypes.ImageBlock
  {| AnthropicTypes.source_type := "base64";
     AnthropicTypes.media_type := "image/png";
     AnthropicTypes.source_data := "iVBORw0KGgo=" |}.

Definition sampleTextResult : AnthropicTypes.ToolResultContent :=
AnthropicTypes.ResultBlocks [AnthropicTypes.TextBlock "a"; AnthropicTypes.TextBlock "b"].

Definition sampleMixedResult : AnthropicTypes.ToolResultContent :=
AnthropicTypes.ResultBlocks
  [AnthropicTypes.TextBlock "a"; sampleImage; AnthropicTypes.TextBlock "b"].

Definition sampleResultMessage (c : AnthropicTypes.ToolResultContent)
: AnthropicTypes.AnthropicMessage :=
{| AnthropicTypes.msg_role := "user";
   AnthropicTypes.msg_content :=
     AnthropicTypes.BlocksContent [AnthropicTypes.ToolResultBlock "t1" c None] |}.

Definition scenarioRun : Types.Run :=
Types.completed
  [Types.TextChunk "Hello"; Types.TextChunk " there"; Types.UsageChunk 3 2].

Definition sampleArguments : json := JObj [("location", JStr "SF")].

(** The text [{"location":"SF"}]. *)
Definition sampleArgumentsText : string :=
let q := String JS.quote "" in
("{" ++ q ++ "location" ++ q ++ ":" ++ q ++ "SF" ++ q ++ "}")%string.

Definition scenarioToolRun : Types.Run :=
Types.completed
  [Types.ToolCallChunk "t1" "get_weather" sampleArguments; Types.UsageChunk 5 1].

(** A run in which the model produced nothing. *)
Definition emptyRun : Types.Run := Types.completed [Types.UsageChunk 0 0].

(** A run that throws after one text delta. *)
Definition brokenRun : Types.Run :=
Types.failed [Types.TextChunk "a"] "model unavailable".

(** A model that answers with a text part and a tool-call part, and counts
  one token per character. *)
Definition sampleClient : VsCodeLmHandler.LanguageModelChat :=
{| VsCodeLmHandler.clientCountTokens := fun s => Ok (Z.of_nat (String.length s));
   VsCodeLmHandler.sendRequest := fun _ =>
     inr {| VsCodeLmHandler.stream :=
              [VsCodeLmHandler.ResponseTextPart (JStr "Hi");
               VsCodeLmHandler.ResponseToolCallPart (JStr "t1") (JStr "f") (JObj [])];
            VsCodeLmHandler.streamThrows := None |} |}.

End Samples.

Import Samples.

(** ** The legacy completion endpoints (handlers/openaiHandler.ts) *)

Module OpenAICompletion.
Import VsCode Types Streaming OpenAITypes.

(** The chat request a prompt is wrapped in. *)
Definition chatRequestOf (prompt mdl : string) : ChatCompletionRequest :=
  {| messages := [{| msg_role := "user";
                     msg_content := StringContent prompt;
                     tool_calls := None;
                     tool_call_id := None |}];
     model := mdl;
     frequency_penalty := None;
     presence_penalty := None |}.

Definition handleCompletion (JSON_parse : string -> Res json) (prompt mdl : string)
    (handler : Backend) (requestId uuid : string) (now : Z)
  : M ChatCompletionResponse :=
  OpenAIHandler.handleChatCompletion JSON_parse (chatRequestOf prompt mdl) handler
    requestId uuid now.

Definition handleStreamingCompletion (JSON_parse : string -> Res json) (prompt mdl : string)
    (handler : Backend) (requestId uuid : string) (now : Z) (res : Response Payload)
  : M (Response Payload) :=
  OpenAIHandler.handleStreamingChatCompletion JSON_parse (chatRequestOf prompt mdl) handler
    requestId uuid now res.

End OpenAICompletion.

(** ** What a client reads off a stream *)

Module Observe.
Import VsCode Types Streaming.

(** *** OpenAI chunks *)

Definition deltasOf (cs : list OpenAITypes.ChatCompletionChunk)
  : list OpenAITypes.ChatCompletionDelta :=
  flat_map (fun c => map OpenAITypes.delta (OpenAITypes.chunk_choices c)) cs.

(** The [delta.content] strings of a stream, in order. *)
Definition contentDeltas (cs : list OpenAITypes.ChatCompletionChunk) : list string :=
  flat_map (fun d => match OpenAITypes.delta_content d with Some t => [t] | None => [] end)
    (deltasOf cs).

(** The entries of the [delta.tool_calls] arrays of a stream, in order. *)
Definition toolCallDeltas (cs : list OpenAITypes.ChatCompletionChunk)
  : list OpenAITypes.ToolCallDelta :=
  flat_map (fun d => match OpenAITypes.delta_tool_calls d with Some l => l | None => [] end)
    (deltasOf cs).

(** The tool call a delta entry describes, without its index. *)
Definition toolCallOfDelta (d : OpenAITypes.ToolCallDelta) : OpenAITypes.ToolCall :=
  {| OpenAITypes.tc_id := OpenAITypes.tcd_id d;
     OpenAITypes.tc_type := OpenAITypes.tcd_type d;
     OpenAITypes.tc_function := OpenAITypes.tcd_function d |}.

(** The non-null [finish_reason] values of a stream, in order. *)
Definition finishReasons (cs : list OpenAITypes.ChatCompletionChunk) : list string :=
  flat_map (fun c =>
              flat_map (fun ch => match OpenAITypes.cc_finish_reason ch with
                                  | Some r => [r]
                                  | None => []
                                  end) (OpenAITypes.chunk_choices c)) cs.

(** The tool call the non-streaming formatter records for a chunk. *)
Definition toolCallOfChunk (chunk : StreamChunk) : list OpenAITypes.ToolCall :=
  match chunk with
  | ToolCallChunk id name arguments =>
      [{| OpenAITypes.tc_id := id;
          OpenAITypes.tc_type := "function";
          OpenAITypes.tc_function :=
            {| OpenAITypes.fn_name := name;
               OpenAITypes.fn_arguments := OpenAITypes.ArgumentsText (stringify arguments) |} |}]
  | _ => []
  end.

Definition textsOf (evs : list StreamChunk) : list string :=
  flat_map (fun chunk => match chunk with TextChunk t => [t] | _ => [] end) evs.

Definition concatAll (l : list string) : string := fold_right String.append "" l.

(** The envelope every chunk of one stream shares. *)
Definition hasEnvelope (uuid : string) (now : Z) (mdl : string)
    (c : OpenAITypes.ChatCompletionChunk) : Prop :=
  OpenAITypes.chunk_id c = ("chatcmpl-" ++ uuid)%string /\
  OpenAITypes.chunk_object c = "chat.completion.chunk" /\
  OpenAITypes.chunk_created c = (now / 1000)%Z /\
  OpenAITypes.chunk_model c = mdl /\
  map OpenAITypes.cc_index (OpenAITypes.chunk_choices c) = [0].

(** The frame is the literal terminator of an OpenAI stream. *)
Definition isDone {P} (f : Frame P) : bool :=
  match data f with Raw t => String.eqb t "[DONE]" | Json _ => false end.

Definition isErrorPayload (p : OpenAITypes.Payload) : bool :=
  match p with OpenAITypes.ErrorPayload _ _ => true | OpenAITypes.ChunkPayload _ => false end.

(** *** Anthropic events *)

(** The name of the [type] field of an event's data. *)
Definition typeName (e : AnthropicTypes.StreamEvent) : string :=
  match e with
  | AnthropicTypes.MessageStart _ _ _ => "message_start"
  | AnthropicTypes.ContentBlockStart _ _ => "content_block_start"
  | AnthropicTypes.ContentBlockDelta _ _ => "content_block_delta"
  | AnthropicTypes.ContentBlockStop _ => "content_block_stop"
  | AnthropicTypes.MessageDelta _ _ => "message_delta"
  | AnthropicTypes.MessageStop => "message_stop"
  | AnthropicTypes.ErrorEvent _ _ => "error"
  end.

(** The frame's [event:] line names the type of its data. *)
Definition eventNamesType (f : Frame AnthropicTypes.StreamEvent) : Prop :=
  match data f with
  | Json e => event f = Some (typeName e)
  | Raw _ => False
  end.

(** The [text_delta] strings of a stream, in order. *)
Definition textDeltas (evs : list AnthropicTypes.StreamEvent) : list string :=
  flat_map (fun e => match e with
                     | AnthropicTypes.ContentBlockDelta _ (AnthropicTypes.TextDelta t) => [t]
                     | _ => []
                     end) evs.

(** The [partial_json] strings of a stream, in order. *)
Definition jsonDeltas (evs : list AnthropicTypes.StreamEvent) : list string :=
  flat_map (fun e => match e with
                     | AnthropicTypes.ContentBlockDelta _ (AnthropicTypes.InputJsonDelta t) => [t]
                     | _ => []
                     end) evs.

(** The [(id, name)] pairs of the [tool_use] blocks a stream starts. *)
Definition toolUseStarts (evs : list AnthropicTypes.StreamEvent) : list (string * string) :=
  flat_map (fun e => match e with
                     | AnthropicTypes.ContentBlockStart _ (AnthropicTypes.StartToolUse id name _) =>
                         [(id, name)]
                     | _ => []
                     end) evs.

Definition toolUseOfBlock (b : AnthropicTypes.ContentBlock) : list (string * string) :=
  match b with AnthropicTypes.ToolUseBlock id name _ => [(id, name)] | _ => [] end.

Definition toolInputOfBlock (b : AnthropicTypes.ContentBlock) : list string :=
  match b with AnthropicTypes.ToolUseBlock _ _ input => [stringify input] | _ => [] end.

Definition textOfBlock (b : AnthropicTypes.ContentBlock) : list string :=
  match b with AnthropicTypes.TextBlock t => [t] | _ => [] end.

(** The [(stop_reason, output_tokens)] pairs of the [message_delta] events. *)
Definition messageDeltas (evs : list AnthropicTypes.StreamEvent) : list (option string * Z) :=
  flat_map (fun e => match e with
                     | AnthropicTypes.MessageDelta s o => [(s, o)]
                     | _ => []
                     end) evs.

Inductive BlockKind := TextKind | ToolUseKind.

(** The [(index, kind)] pairs of the blocks a stream starts. *)
Definition startedKinds (evs : list AnthropicTypes.StreamEvent) : list (nat * BlockKind) :=
  flat_map (fun e => match e with
                     | AnthropicTypes.ContentBlockStart i (AnthropicTypes.StartText _) =>
                         [(i, TextKind)]
                     | AnthropicTypes.ContentBlockStart i (AnthropicTypes.StartToolUse _ _ _) =>
                         [(i, ToolUseKind)]
                     | _ => []
                     end) evs.

(** The [(index, kind)] pairs of the deltas of a stream. *)
Definition deltaKinds (evs : list AnthropicTypes.StreamEvent) : list (nat * BlockKind) :=
  flat_map (fun e => match e with
                     | AnthropicTypes.ContentBlockDelta i (AnthropicTypes.TextDelta _) =>
                         [(i, TextKind)]
                     | AnthropicTypes.ContentBlockDelta i (AnthropicTypes.InputJsonDelta _) =>
                         [(i, ToolUseKind)]
                     | _ => []
                     end) evs.

(** *** Runs *)

(** The run with the numbers of its usage events replaced. *)
Definition withUsage (f : Z -> Z -> Z * Z) (evs : list StreamChunk) : list StreamChunk :=
  map (fun chunk => match chunk with
                    | UsageChunk i o => UsageChunk (fst (f i o)) (snd (f i o))
                    | other => other
                    end) evs.

Definition isUsage (chunk : StreamChunk) : bool :=
  match chunk with UsageChunk _ _ => true | _ => false end.

End Observe.

(** ** Shapes of frames *)

Module Shape.
Import Streaming.

(** A frame without event line whose data is a chunk. *)
Definition isChunkFrame (f : Frame OpenAITypes.Payload) : bool :=
  match event f, data f with
  | None, Json (OpenAITypes.ChunkPayload _) => true
  | _, _ => false
  end.

Definition doneFrame : Frame OpenAITypes.Payload :=
  {| event := None; data := Raw "[DONE]" |}.

Definition errorFrame (e : string) : Frame OpenAITypes.Payload :=
  {| event := None; data := Json (OpenAITypes.ErrorPayload e "server_error") |}.

End Shape.

(** ** Shapes of Anthropic frames *)

Module ShapeA.
Import Streaming AnthropicTypes.

Definition frameOf (e : StreamEvent) : Frame StreamEvent :=
  {| event := Some (Observe.typeName e); data := Json e |}.

(** The frame belongs to a content block. *)
Definition isBlockFrame (f : Frame StreamEvent) : bool :=
  match data f with
  | Json (ContentBlockStart _ _) => true
  | Json (ContentBlockDelta _ _) => true
  | Json (ContentBlockStop _) => true
  | _ => false
  end.

(** The frames written after the loop to close an open block: none, or one
    [content_block_stop]. *)
Definition isClosing (l : list (Frame StreamEvent)) : Prop :=
  l = [] \/ exists i, l = [frameOf (ContentBlockStop i)].

(** Two loop states that differ at most in the recorded input token count. *)
Definition sameButInputTokens (a b : AnthropicHandler.StreamState) : Prop :=
  AnthropicHandler.res a = AnthropicHandler.res b /\
  AnthropicHandler.outputTokens' a = AnthropicHandler.outputTokens' b /\
  AnthropicHandler.contentBlockIndex a = AnthropicHandler.contentBlockIndex b /\
  AnthropicHandler.currentBlockIsOpen a = AnthropicHandler.currentBlockIsOpen b /\
  AnthropicHandler.hasToolUse a = AnthropicHandler.hasToolUse b.

End ShapeA.

(** ** The backend adapter: client selection and handler state
    (handlers/vsCodeLmHandler.ts) *)

Module VsCodeLmClient.
Import VsCode Types VsCodeLmHandler.

Definition limitedNotice : string :=
  "Language model functionality is limited. Please check VS Code configuration.".

(** The minimal model [createClient] returns when no model is found. *)
Definition fallbackClient : LanguageModelChat :=
  {| clientCountTokens := fun _ => Ok 0%Z;
     sendRequest := fun _ =>
       inr {| stream := [ResponseTextPart (JStr limitedNotice)];
              streamThrows := None |} |}.

(** [createClient] on the result of [vscode.lm.selectChatModels]: the first
    model found, the fallback when there is none, an error when the selection
    itself throws. *)
Definition createClient (selected : Res (list LanguageModelChat)) : Res LanguageModelChat :=
  match selected with
  | Ok (first :: _) => Ok first
  | Ok [] => Ok fallbackClient
  | Throw e => Throw ("Failed to select VS Code LM model: " ++ e)%string
  end.

(** The fields of the handler object that requests read and write. *)
Record HandlerState := {
  client : option LanguageModelChat;
  currentRequestCancellation : bool
}.

Definition ensureCleanState (st : HandlerState) : HandlerState :=
  {| client := client st; currentRequestCancellation := false |}.

(** [getClient]: the client in place, or a newly created one. *)
Definition getClient (selected : Res (list LanguageModelChat)) (st : HandlerState)
  : Res LanguageModelChat * HandlerState :=
  match client st with
  | Some c => (Ok c, st)
  | None =>
      match createClient selected with
      | Ok c => (Ok c, {| client := Some c;
                          currentRequestCancellation := currentRequestCancellation st |})
      | Throw e => (Throw ("Failed to create VS Code LM client: " ++ e)%string, st)
      end
  end.

(** [countTokens] as a method of the handler. *)
Definition countTokensOf (st : HandlerState) (text : string + LanguageModelChatMessage) : Z :=
  match client st with
  | None => 0%Z
  | Some c => if currentRequestCancellation st then countTokens c text else 0%Z
  end.

(** [createMessage] as a method of the handler: the run it produces and the
    state it leaves. *)
Definition createMessageOf (selected : Res (list LanguageModelChat)) (st : HandlerState)
    (messages : list LanguageModelChatMessage) : Run * HandlerState :=
  let st1 := ensureCleanState st in
  match getClient selected st1 with
  | (Throw e, st2) => (failed [] e, st2)
  | (Ok c, st2) =>
      let st3 := {| client := client st2; currentRequestCancellation := true |} in
      let run := createMessage c messages in
      match failure run with
      | Some _ => (run, ensureCleanState st3)
      | None => (run, st3)
      end
  end.

(** The message with its text parts only. *)
Definition textPartsOnly (m : LanguageModelChatMessage) : LanguageModelChatMessage :=
  {| role := role m;
     content := filter (fun p => match p with TextPart _ => true | _ => false end)
                  (content m) |}.

End VsCodeLmClient.

(** ** Further vocabulary and sample inputs *)

Module Samples2.

Definition freshHandler : VsCodeLmClient.HandlerState :=
  {| VsCodeLmClient.client := None; VsCodeLmClient.currentRequestCancellation := false |}.

Definition isImageBlock (b : AnthropicTypes.ContentBlock) : bool :=
  match b with AnthropicTypes.ImageBlock _ => true | _ => false end.

(** The entry [logger.error] adds when a non-streaming request fails. *)
Definition errorEntry (msg requestId e : string) : LogEntry :=
  {| level := error_level; message := msg;
     context := [("requestId", requestId); ("error", e)] |}.

Definition userTurn (text : string) : VsCode.LanguageModelChatMessage :=
  VsCode.newMessage VsCode.User [VsCode.TextPart {| VsCode.value := text |}].

Definition toolMessage (id : option string) (text : string) : OpenAITypes.ChatMessage :=
  {| OpenAITypes.msg_role := "tool";
     OpenAITypes.msg_content := OpenAITypes.StringContent text;
     OpenAITypes.tool_calls := None;
     OpenAITypes.tool_call_id := id |}.

End Samples2.

Import Samples2.

(** ** String methods of the platform

    Strings are byte strings; the patterns searched for below are ASCII, and
    an ASCII byte never occurs inside the encoding of another character, so
    searching bytes agrees with searching characters.  [toLowerCase] changes
    the ASCII capitals only: the capitals outside ASCII whose lower case
    contains an ASCII letter do not produce any of the words looked for in
    [getStatusCode]. *)

Module JSString.

Fixpoint includes (needle hay : string) : bool :=
  prefix needle hay ||
  match hay with
  | String _ rest => includes needle rest
  | EmptyString => false
  end.

Definition startsWith (p s : string) : bool := prefix p s.

(** [s.substring(n)] *)
Fixpoint drop (n : nat) (s : string) : string :=
  match n, s with
  | O, _ => s
  | S n', String _ rest => drop n' rest
  | S _, EmptyString => EmptyString
  end.

Definition lowerChar (c : ascii) : ascii :=
  let n := nat_of_ascii c in
  if (65 <=? n) && (n <=? 90) then ascii_of_nat (n + 32) else c.

Fixpoint toLowerCase (s : string) : string :=
  match s with
  | EmptyString => EmptyString
  | String c rest => String (lowerChar c) (toLowerCase rest)
  end.

(** [s.replace(pattern, replacement)] with a string pattern: the first
    occurrence only. *)
Fixpoint replaceFirst (pat rep s : string) : string :=
  if prefix pat s then (rep ++ drop (String.length pat) s)%string
  else match s with
       | String c rest => String c (replaceFirst pat rep rest)
       | EmptyString => EmptyString
       end.

End JSString.

(** ** Requests and responses of the HTTP layer *)

Module Http.

Record Request := {
  method : string;
  path : string;
  headers : string -> option string;
  ip : option string
}.

(** The two JSON error shapes:
    [{type: "error", error: {type, message}}] and
    [{error: {message, type, code}}]. *)
Inductive ErrorBody :=
| AnthropicErrorBody (error_type : string) (message : string)
| OpenAIErrorBody (message : string) (error_type : string) (code : string).

Record HttpResponse := {
  headersSent : bool;
  statusCode : nat;
  body : option ErrorBody
}.

Definition freshResponse : HttpResponse :=
  {| headersSent := false; statusCode := 200; body := None |}.

(** [res.status(code).json(body)] *)
Definition status_json (res : HttpResponse) (code : nat) (b : ErrorBody) : HttpResponse :=
  {| headersSent := true; statusCode := code; body := Some b |}.

(** What a middleware does with a request: call [next()], or answer. *)
Inductive Outcome :=
| Next
| Respond (status : nat) (b : ErrorBody).

(** [req.headers['x-request-id'] as string || 'unknown'] *)
Definition requestIdOf (req : Request) : string :=
  match headers req "x-request-id" with
  | Some s => if truthy s then s else "unknown"
  | None => "unknown"
  end.

Definition isAnthropicPath (req : Request) : bool :=
  JSString.includes "/messages" (path req).

Definition isAnthropicShaped (b : ErrorBody) : bool :=
  match b with AnthropicErrorBody _ _ => true | OpenAIErrorBody _ _ _ => false end.

End Http.

(** ** API key authentication (middleware/auth.ts) *)

Module Auth.
Import Http.

Record AuthConfig := {
  enableAuth : bool;
  apiKey : option string
}.

Definition truthyKey (k : option string) : bool :=
  match k with Some s => truthy s | None => false end.

(** The key a request presents: the [x-api-key] header on an Anthropic
    endpoint, the text after [Bearer ] of the [authorization] header
    elsewhere. *)
Definition providedKeyOf (req : Request) : option string :=
  if isAnthropicPath req then headers req "x-api-key"
  else
    match headers req "authorization" with
    | Some authHeader =>
        if truthy authHeader && JSString.startsWith "Bearer " authHeader
        then Some (JSString.drop 7 authHeader)
        else None
    | None => None
    end.

Definition sameKey (a b : option string) : bool :=
  match a, b with
  | Some x, Some y => String.eqb x y
  | None, None => true
  | _, _ => false
  end.

Definition authMiddleware (config : AuthConfig) (req : Request) : M Outcome :=
  if negb (enableAuth config) then ret Next
  else if String.eqb (path req) "/health" then ret Next
  else
    let requestId := requestIdOf req in
    let isAnthropicEndpoint := isAnthropicPath req in
    let providedKey := providedKeyOf req in
    if negb (truthyKey providedKey) then
      warn "Missing API key" [("requestId", requestId); ("path", path req)] ;;;
      ret (if isAnthropicEndpoint
           then Respond 401
                  (AnthropicErrorBody "authentication_error"
                     "Missing API key. Please provide x-api-key header.")
           else Respond 401
                  (OpenAIErrorBody
                     "Missing API key. Please provide Authorization: Bearer <key> header."
                     "authentication_error" "missing_api_key"))
    else if truthyKey (apiKey config) && negb (sameKey providedKey (apiKey config)) then
      warn "Invalid API key" [("requestId", requestId); ("path", path req)] ;;;
      ret (if isAnthropicEndpoint
           then Respond 401 (AnthropicErrorBody "authentication_error" "Invalid API key.")
           else Respond 401
                  (OpenAIErrorBody "Invalid API key." "authentication_error"
                     "invalid_api_key"))
    else ret Next.

End Auth.

(** ** Rate limiting (middleware/rateLimit.ts): the key of a request *)

Module RateLimit.
Import Http.

(** [a || b] on optional strings. *)
Definition orElse (a b : option string) : option string :=
  match a with
  | Some s => if truthy s then a else b
  | None => b
  end.

Definition keyGenerator (req : Request) : string :=
  let apiKey :=
    orElse (headers req "x-api-key")
      (match headers req "authorization" with
       | Some h => Some (JSString.replaceFirst "Bearer " "" h)
       | None => None
       end) in
  if Auth.truthyKey apiKey then
    ("key:" ++ match apiKey with Some k => k | None => "" end)%string
  else
    match orElse (ip req) (Some "unknown") with
    | Some k => k
    | None => "unknown"
    end.

(** Requests for which the limiter is skipped. *)
Definition skip (req : Request) : bool := String.eqb (path req) "/health".

End RateLimit.

(** ** The error handler (middleware/errorHandler.ts) *)

Module ErrorHandler.
Import Http.

Definition getStatusCode (errorMessage : string) : nat :=
  let message := JSString.toLowerCase errorMessage in
  if JSString.includes "unauthorized" message || JSString.includes "authentication" message
  then 401
  else if JSString.includes "forbidden" message then 403
  else if JSString.includes "not found" message then 404
  else if JSString.includes "rate limit" message then 429
  else if JSString.includes "invalid" message || JSString.includes "validation" message
  then 400
  else if JSString.includes "cancelled" message then 499
  else if JSString.includes "unavailable" message || JSString.includes "timeout" message
  then 503
  else 500.

Definition messageOrDefault (errorMessage : string) : string :=
  if truthy errorMessage then errorMessage
  else "An error occurred processing your request.".

(** [errorHandler(err, req, res, next)], with [err] given by its message. *)
Definition errorHandler (err : string) (req : Request) (res : HttpResponse) : M HttpResponse :=
  let requestId := requestIdOf req in
  let statusCode := getStatusCode err in
  Logger.error "Error occurred" [("error", err); ("requestId", requestId)] ;;;
  if headersSent res then ret res
  else if isAnthropicPath req then
    ret (status_json res statusCode
           (AnthropicErrorBody
              (if statusCode =? 500 then "api_error" else "invalid_request_error")
              (messageOrDefault err)))
  else
    ret (status_json res statusCode
           (OpenAIErrorBody (messageOrDefault err)
              (if statusCode =? 500 then "api_error" else "invalid_request_error")
              (if statusCode =? 500 then "internal_error" else "invalid_request"))).

Definition notFoundHandler (req : Request) (res : HttpResponse) : HttpResponse :=
  let text := ("Route " ++ method req ++ " " ++ path req ++ " not found.")%string in
  if isAnthropicPath req
  then status_json res 404 (AnthropicErrorBody "not_found_error" text)
  else status_json res 404 (OpenAIErrorBody text "invalid_request_error" "route_not_found").

End ErrorHandler.

(** ** Request validation (middleware/validator.ts)

    The validators' logger calls are left out. *)

Module Validator.
Import Http.

(** A number of a JSON body: a finite number [num / den], or an infinity
    (a literal too large for a double). *)
Inductive Num :=
| Finite (num : Z) (den : positive)
| PosInfinity
| NegInfinity.

(** [x < k] and [x > k] for an integer [k]. *)
Definition ltInt (x : Num) (k : Z) : bool :=
  match x with
  | Finite p q => (p <? k * Zpos q)%Z
  | PosInfinity => false
  | NegInfinity => true
  end.

Definition gtInt (x : Num) (k : Z) : bool :=
  match x with
  | Finite p q => (k * Zpos q <? p)%Z
  | PosInfinity => true
  | NegInfinity => false
  end.

(** A field of the parsed body, as far as the validators look at it. *)
Inductive Value :=
| VUndefined
| VNumber (x : Num)
| VString (s : string)
| VArray (length : nat)
| VOther (truthy : bool).

Definition truthyValue (v : Value) : bool :=
  match v with
  | VUndefined => false
  | VNumber (Finite p _) => negb (p =? 0)%Z
  | VNumber _ => true
  | VString s => truthy s
  | VArray _ => true
  | VOther t => t
  end.

Definition isUndefined (v : Value) : bool :=
  match v with VUndefined => true | _ => false end.

(** [typeof v !== 'number' || v < lo || v > hi] *)
Definition outside (v : Value) (lo hi : Z) : bool :=
  match v with
  | VNumber x => ltInt x lo || gtInt x hi
  | _ => true
  end.

(** [typeof v !== 'number' || v < lo] *)
Definition below (v : Value) (lo : Z) : bool :=
  match v with
  | VNumber x => ltInt x lo
  | _ => true
  end.

Definition check (failed : bool) (message : string) : list string :=
  if failed then [message] else [].

Definition messagesErrors (v : Value) : list string :=
  match v with
  | VArray n =>
      check (n =? 0) "messages array cannot be empty"
  | _ => ["messages field is required and must be an array"]
  end.

Definition modelErrors (v : Value) : list string :=
  check (negb (truthyValue v) || negb (match v with VString _ => true | _ => false end))
    "model field is required and must be a string".

Record OpenAIBody := {
  o_messages : Value;
  o_model : Value;
  o_temperature : Value;
  o_max_tokens : Value;
  o_top_p : Value;
  o_n : Value
}.

Definition openAIErrors (b : OpenAIBody) : list string :=
  messagesErrors (o_messages b) ++
  modelErrors (o_model b) ++
  check (negb (isUndefined (o_temperature b)) && outside (o_temperature b) 0 2)
    "temperature must be a number between 0 and 2" ++
  check (negb (isUndefined (o_max_tokens b)) && below (o_max_tokens b) 1)
    "max_tokens must be a positive number" ++
  check (negb (isUndefined (o_top_p b)) && outside (o_top_p b) 0 1)
    "top_p must be a number between 0 and 1" ++
  check (negb (isUndefined (o_n b)) && below (o_n b) 1)
    "n must be a positive number".

Definition validateOpenAIRequest (b : OpenAIBody) : Outcome :=
  let errors := openAIErrors b in
  if 0 <? length errors
  then Respond 400 (OpenAIErrorBody (join ", " errors) "invalid_request_error" "invalid_request")
  else Next.

Record AnthropicBody := {
  a_model : Value;
  a_messages : Value;
  a_max_tokens : Value;
  a_temperature : Value;
  a_top_p : Value;
  a_top_k : Value
}.

Definition maxTokensErrors (v : Value) : list string :=
  if negb (truthyValue v) then ["max_tokens field is required"]
  else check (outside v 1 4096) "max_tokens must be a number between 1 and 4096".

Definition anthropicErrors (b : AnthropicBody) : list string :=
  modelErrors (a_model b) ++
  messagesErrors (a_messages b) ++
  maxTokensErrors (a_max_tokens b) ++
  check (negb (isUndefined (a_temperature b)) && outside (a_temperature b) 0 1)
    "temperature must be a number between 0 and 1" ++
  check (negb (isUndefined (a_top_p b)) && outside (a_top_p b) 0 1)
    "top_p must be a number between 0 and 1" ++
  check (negb (isUndefined (a_top_k b)) && outside (a_top_k b) 0 500)
    "top_k must be a number between 0 and 500".

Definition validateAnthropicRequest (b : AnthropicBody) : Outcome :=
  let errors := anthropicErrors b in
  if 0 <? length errors
  then Respond 400 (AnthropicErrorBody "invalid_request_error" (join ", " errors))
  else Next.

(** *** What a validated body is known to satisfy *)

(** The field is a number between [lo] and [hi]. *)
Definition numberWithin (v : Value) (lo hi : Z) : Prop :=
  exists x, v = VNumber x /\ ltInt x lo = false /\ gtInt x hi = false.

Definition numberAtLeast (v : Value) (lo : Z) : Prop :=
  exists x, v = VNumber x /\ ltInt x lo = false.

Definition nonEmptyArray (v : Value) : Prop := exists n, v = VArray (S n).

Definition nonEmptyString (v : Value) : Prop := exists c s, v = VString (String c s).

Definition optional (v : Value) (P : Prop) : Prop := v = VUndefined \/ P.

End Validator.

(** ** Sample requests of the HTTP layer *)

Module Samples3.
Import Http.

Definition header (name value : string) : string -> option string :=
  fun h => if String.eqb h name then Some value else None.

Definition anthropicCall : Request :=
  {| method := "POST"; path := "/v1/messages";
     headers := header "x-api-key" "secret"; ip := Some "10.0.0.1" |}.

Definition openaiCall : Request :=
  {| method := "POST"; path := "/v1/chat/completions";
     headers := header "authorization" "Bearer secret"; ip := Some "10.0.0.2" |}.

Definition keyedConfig : Auth.AuthConfig :=
  {| Auth.enableAuth := true; Auth.apiKey := Some "secret" |}.

Definition keylessConfig : Auth.AuthConfig :=
  {| Auth.enableAuth := true; Auth.apiKey := None |}.

Definition errorMessageOf (b : ErrorBody) : string :=
  match b with
  | AnthropicErrorBody _ m => m
  | OpenAIErrorBody m _ _ => m
  end.

Definition errorTypeOf (b : ErrorBody) : string :=
  match b with
  | AnthropicErrorBody t _ => t
  | OpenAIErrorBody _ t _ => t
  end.

(** The status codes the error handler can answer with. *)
Definition errorStatuses : list nat := [400; 401; 403; 404; 429; 499; 500; 503].

Definition validOpenAIBody (b : Validator.OpenAIBody) : Prop :=
  Validator.nonEmptyArray (Validator.o_messages b) /\
  Validator.nonEmptyString (Validator.o_model b) /\
  Validator.optional (Validator.o_temperature b)
    (Validator.numberWithin (Validator.o_temperature b) 0 2) /\
  Validator.optional (Validator.o_max_tokens b)
    (Validator.numberAtLeast (Validator.o_max_tokens b) 1) /\
  Validator.optional (Validator.o_top_p b)
    (Validator.numberWithin (Validator.o_top_p b) 0 1) /\
  Validator.optional (Validator.o_n b) (Validator.numberAtLeast (Validator.o_n b) 1).

Definition validAnthropicBody (b : Validator.AnthropicBody) : Prop :=
  Validator.nonEmptyString (Validator.a_model b) /\
  Validator.nonEmptyArray (Validator.a_messages b) /\
  Validator.numberWithin (Validator.a_max_tokens b) 1 4096 /\
  Validator.optional (Validator.a_temperature b)
    (Validator.numberWithin (Validator.a_temperature b) 0 1) /\
  Validator.optional (Validator.a_top_p b)
    (Validator.numberWithin (Validator.a_top_p b) 0 1) /\
  Validator.optional (Validator.a_top_k b)
    (Validator.numberWithin (Validator.a_top_k b) 0 500).

End Samples3.

Import Samples3.

(** * Properties *)

(** ** Inbound adapter, OpenAI *)

Section OpenAIConversion.
Import VsCode Types OpenAITypes OpenAIHandler Spec.
Variable JSON_parse : string -> Res json.

Lemma convertToolCalls_spec (tcs : list ToolCall) :
  forall contentParts log,
    convertToolCalls JSON_parse tcs contentParts log =
    (Ok (contentParts ++ flat_map (toolCallPartOf JSON_parse) tcs),
     log ++ flat_map (decodeWarningOf JSON_parse) tcs).
Proof.
  induction tcs as [|tc tcs IH]; intros contentParts log; simpl.
  - unfold ret. now rewrite !app_nil_r.
  - unfold bind at 1, try_catch, pushToolCall, bind, lift, ret, warn.
    unfold toolCallPartOf, decodeWarningOf, decodeArguments.
    destruct (fn_arguments (tc_function tc)) as [s|v].
    + destruct (JSON_parse s) as [args|e]; rewrite IH; simpl;
        now rewrite <- ?app_assoc.
    + rewrite IH; simpl. now rewrite <- ?app_assoc.
Qed.

Lemma contentPartsOf_spec (m : ChatMessage) (log : Log) :
  contentPartsOf JSON_parse m log =
  (Ok (unifiedParts JSON_parse m),
   log ++ flat_map (decodeWarningOf JSON_parse) (toolCallsOf m)).
Proof.
  unfold contentPartsOf, unifiedParts, toolCallsOf.
  destruct (tool_calls m) as [[|tc tcs]|].
  - unfold ret; simpl. now rewrite !app_nil_r.
  - apply convertToolCalls_spec.
  - unfold ret; simpl. now rewrite !app_nil_r.
Qed.

Lemma convertLoop_spec (msgs : list ChatMessage) :
  forall vsCodeMessages log,
    convertLoop JSON_parse msgs vsCodeMessages log =
    (Ok (vsCodeMessages ++
         map (unifiedMessage JSON_parse) (filter (hasParts JSON_parse) msgs)),
     log ++ decodeWarnings JSON_parse msgs).
Proof.
  induction msgs as [|m msgs IH]; intros vsCodeMessages log; simpl.
  - unfold ret. now rewrite !app_nil_r.
  - unfold bind. rewrite contentPartsOf_spec, IH.
    unfold hasParts, unifiedMessage.
    destruct (unifiedParts JSON_parse m) as [|p ps] eqn:E; simpl;
      unfold decodeWarnings; simpl; rewrite ?E, <- ?app_assoc; reflexivity.
Qed.

Lemma convertToVsCodeLmMessages_spec (msgs : list ChatMessage) (log : Log) :
  convertToVsCodeLmMessages JSON_parse msgs log =
  (Ok (map (unifiedMessage JSON_parse) (filter (hasParts JSON_parse) msgs)),
   log ++ decodeWarnings JSON_parse msgs).
Proof. unfold convertToVsCodeLmMessages. now rewrite convertLoop_spec. Qed.

End OpenAIConversion.

Section OpenAIConversionFacts.
Import VsCode Types OpenAITypes OpenAIHandler Spec.
Variable JSON_parse : string -> Res json.

Lemma initialParts_no_tool_call (m : ChatMessage) :
  filter isToolCallPart (initialParts m) = [].
Proof.
  unfold initialParts.
  destruct (String.eqb (msg_role m) "tool" && truthy_opt (tool_call_id m)
            && truthy_content (msg_content m)); [reflexivity|].
  destruct (truthy (textContentOf (msg_content m))); reflexivity.
Qed.

Lemma toolCallParts_all_tool_calls (tcs : list ToolCall) :
  filter isToolCallPart (flat_map (toolCallPartOf JSON_parse) tcs) =
  flat_map (toolCallPartOf JSON_parse) tcs.
Proof.
  induction tcs as [|tc tcs IH]; [reflexivity|]. simpl.
  unfold toolCallPartOf at 1 3.
  destruct (decodeArguments JSON_parse tc); simpl; now rewrite IH.
Qed.

Lemma toolCallPart_in_unifiedParts (m : ChatMessage) (tc : ToolCall) (p : Part) :
  In tc (toolCallsOf m) -> In p (toolCallPartOf JSON_parse tc) ->
  In p (unifiedParts JSON_parse m).
Proof.
  intros Htc Hp. unfold unifiedParts. apply in_or_app; right.
  apply in_flat_map. now exists tc.
Qed.

Lemma decodeWarning_in_log (msgs : list ChatMessage) (m : ChatMessage) (tc : ToolCall)
    (entry : LogEntry) :
  In m msgs -> In tc (toolCallsOf m) -> In entry (decodeWarningOf JSON_parse tc) ->
  In entry (decodeWarnings JSON_parse msgs).
Proof.
  intros Hm Htc He. unfold decodeWarnings.
  apply in_flat_map. exists m. split; [assumption|].
  apply in_flat_map. now exists tc.
Qed.

End OpenAIConversionFacts.

Section DecodeFailure.
Import VsCode Types OpenAITypes OpenAIHandler Spec.
Variable JSON_parse : string -> Res json.

Lemma decoded_parts_length (tcs : list ToolCall) :
  length (flat_map (toolCallPartOf JSON_parse) tcs) =
  length (filter (decodes JSON_parse) tcs).
Proof.
  induction tcs as [|tc tcs IH]; [reflexivity|].
  cbn [flat_map filter]. unfold toolCallPartOf at 1, decodes at 1.
  destruct (decodeArguments JSON_parse tc); simpl; now rewrite IH.
Qed.

Lemma toolCallParts_of_message (m : ChatMessage) :
  filter isToolCallPart (unifiedParts JSON_parse m) =
  flat_map (toolCallPartOf JSON_parse) (toolCallsOf m).
Proof.
  unfold unifiedParts. rewrite filter_app, initialParts_no_tool_call.
  apply toolCallParts_all_tool_calls.
Qed.

(** The converted messages hold one [ToolCall] part per tool call of the
    request that decodes. *)
Lemma toolCallPartsIn_length (msgs : list ChatMessage) :
  length (toolCallPartsIn
            (map (unifiedMessage JSON_parse) (filter (hasParts JSON_parse) msgs))) =
  length (filter (decodes JSON_parse) (flat_map toolCallsOf msgs)).
Proof.
  unfold toolCallPartsIn.
  induction msgs as [|m msgs IH]; [reflexivity|].
  cbn [filter flat_map]. rewrite filter_app, length_app, <- IH, <- decoded_parts_length.
  rewrite <- toolCallParts_of_message.
  unfold hasParts. destruct (unifiedParts JSON_parse m) as [|p ps] eqn:E.
  - reflexivity.
  - cbn [map flat_map]. rewrite filter_app, length_app.
    unfold unifiedMessage, newMessage. cbn [content]. now rewrite E.
Qed.

(** A tool call that does not decode adds nothing to the parts of its
    message. *)
Lemma unifiedParts_without (m : ChatMessage) (before after : list ToolCall)
    (tc : ToolCall) (e : string) :
  tool_calls m = Some (before ++ tc :: after) ->
  decodeArguments JSON_parse tc = Throw e ->
  unifiedParts JSON_parse m =
  unifiedParts JSON_parse (withToolCalls m (before ++ after)).
Proof.
  intros Hm He. unfold unifiedParts, toolCallsOf. rewrite Hm.
  cbn [withToolCalls tool_calls].
  replace (initialParts (withToolCalls m (before ++ after))) with (initialParts m)
    by reflexivity.
  f_equal. rewrite !flat_map_app. cbn [flat_map].
  unfold toolCallPartOf at 2. now rewrite He.
Qed.

End DecodeFailure.

(** C7.  In the conversion of an OpenAI request, a tool call whose arguments
    do not decode as JSON is skipped: the conversion returns, nothing is
    thrown, and what it returns is what it returns for the same request
    without that call, so the call has no [ToolCall] part and the returned
    messages hold as many [ToolCall] parts as the request has calls that
    decode; one warning naming the call is in the log; and every sibling call
    whose arguments decode has its [ToolCall] part in a message that is handed
    to the backend. *)
Theorem tool_call_decode_failure_is_skipped
    (JSON_parse : string -> Res json)
    (pre : list OpenAITypes.ChatMessage) (m : OpenAITypes.ChatMessage)
    (post : list OpenAITypes.ChatMessage)
    (before : list OpenAITypes.ToolCall) (tc : OpenAITypes.ToolCall)
    (after : list OpenAITypes.ToolCall) (e : string) (log : Log) :
  OpenAITypes.tool_calls m = Some (before ++ tc :: after) ->
  Spec.decodeArguments JSON_parse tc = Throw e ->
  Spec.decodeFailureIsSkipped JSON_parse pre m post before tc after e log.
Proof.
  intros Hm He. unfold Spec.decodeFailureIsSkipped.
  assert (Hcalls : Spec.toolCallsOf m = before ++ tc :: after)
    by (unfold Spec.toolCallsOf; now rewrite Hm).
  pose proof (unifiedParts_without JSON_parse m before after tc e Hm He) as Hparts.
  eexists; eexists. split; [apply convertToVsCodeLmMessages_spec|].
  split; [|split; [|split]].
  - rewrite convertToVsCodeLmMessages_spec. cbn [fst]. f_equal.
    rewrite !filter_app, !map_app. f_equal.
    cbn [filter]. unfold Spec.hasParts. rewrite <- Hparts.
    destruct (Spec.unifiedParts JSON_parse m) as [|p ps] eqn:E; [reflexivity|].
    cbn [map]. f_equal. unfold Spec.unifiedMessage. rewrite <- Hparts, E. reflexivity.
  - apply toolCallPartsIn_length.
  - apply in_or_app; right.
    apply decodeWarning_in_log with (m := m) (tc := tc).
    + apply in_or_app; right; now left.
    + rewrite Hcalls. apply in_or_app; right; now left.
    + unfold Spec.decodeWarningOf. rewrite He. now left.
  - intros sibling args Hin Hargs.
    assert (Hsib : In sibling (Spec.toolCallsOf m)).
    { rewrite Hcalls. apply in_app_or in Hin. apply in_or_app.
      destruct Hin as [Hin|Hin]; [now left | right; now right]. }
    assert (Hpart : In (VsCode.ToolCallPart (OpenAITypes.tc_id sibling)
                          (OpenAITypes.fn_name (OpenAITypes.tc_function sibling)) args)
                       (Spec.unifiedParts JSON_parse m)).
    { apply toolCallPart_in_unifiedParts with (tc := sibling); [assumption|].
      unfold Spec.toolCallPartOf. rewrite Hargs. now left. }
    exists (Spec.unifiedMessage JSON_parse m). split; [|split; [reflexivity | exact Hpart]].
    apply in_map. apply filter_In. split; [apply in_or_app; right; now left|].
    unfold Spec.hasParts.
    destruct (Spec.unifiedParts JSON_parse m); [destruct Hpart | reflexivity].
Qed.

(** A request whose assistant message holds a call with malformed arguments
    and a call with well-formed ones: the message handed to the backend
    holds the part of the second call only, and one warning names the
    first. *)
Example sample_conversion :
  exists e,
    OpenAIHandler.convertToVsCodeLmMessages JSON.parse [sampleAssistantMessage] [] =
    (Ok [VsCode.newMessage VsCode.Assistant
           [VsCode.ToolCallPart "call_good" "get_time" (JObj [("zone", JStr "UTC")])]],
     [{| level := warn_level;
         message := "Failed to parse tool call arguments";
         context := [("toolCallId", "call_bad"); ("error", e)] |}]).
Proof. eexists. vm_compute. reflexivity. Qed.

Lemma tool_call_decode_failure_is_skipped_witness :
  exists e,
    OpenAITypes.tool_calls sampleAssistantMessage =
      Some ([] ++ sampleBadCall :: [sampleGoodCall]) /\
    Spec.decodeArguments JSON.parse sampleBadCall = Throw e /\
    Spec.decodeFailureIsSkipped JSON.parse [] sampleAssistantMessage []
      [] sampleBadCall [sampleGoodCall] e [].
Proof.
  eexists. split; [reflexivity|]. split; [reflexivity|].
  apply (tool_call_decode_failure_is_skipped JSON.parse [] sampleAssistantMessage []
           [] sampleBadCall [sampleGoodCall] _ []);
    reflexivity.
Defined.

(** ** Inbound adapter, Anthropic *)

Section AnthropicConversion.
Import VsCode Types AnthropicTypes AnthropicHandler Spec.

Lemma pushBlock_fold (blocks : list ContentBlock) :
  forall contentParts,
    fold_left pushBlock blocks contentParts =
    contentParts ++ flat_map (pushBlock []) blocks.
Proof.
  induction blocks as [|b blocks IH]; intros contentParts; simpl.
  - now rewrite app_nil_r.
  - rewrite IH. destruct b; simpl; now rewrite <- ?app_assoc.
Qed.

Lemma pushMessage_fold (msgs : list AnthropicMessage) :
  forall vsCodeMessages,
    fold_left pushMessage msgs vsCodeMessages =
    vsCodeMessages ++ map unifiedMessageA (filter hasPartsA msgs).
Proof.
  induction msgs as [|m msgs IH]; intros vsCodeMessages; simpl.
  - now rewrite app_nil_r.
  - rewrite IH. unfold pushMessage, hasPartsA, unifiedMessageA.
    destruct (contentPartsOf m) as [|p ps] eqn:E; simpl;
      rewrite ?E, <- ?app_assoc; reflexivity.
Qed.

Lemma convertToVsCodeLmMessages_A_spec (msgs : list AnthropicMessage)
    (sys : option SystemPrompt) :
  convertToVsCodeLmMessages msgs sys =
  systemMessage sys ++ map unifiedMessageA (filter hasPartsA msgs).
Proof. unfold convertToVsCodeLmMessages. now rewrite pushMessage_fold. Qed.

Lemma resultContent_flattened (c : ToolResultContent) :
  resultContent c = flattenedPerSubBlock c.
Proof. destruct c; reflexivity. Qed.

Lemma joined_text_blocks (blocks : list ContentBlock) :
  Forall (fun b => isTextBlock b = true) blocks ->
  map entryOf blocks =
  flat_map (fun b => match b with TextBlock t => [t] | _ => [] end) blocks.
Proof.
  induction 1 as [|b blocks Hb _ IH]; [reflexivity|].
  destruct b; try discriminate. simpl. now rewrite IH.
Qed.

Lemma noEmptyTurn_app (l1 l2 : list LanguageModelChatMessage) :
  noEmptyTurn l1 -> noEmptyTurn l2 -> noEmptyTurn (l1 ++ l2).
Proof. unfold noEmptyTurn. intros. now apply Forall_app. Qed.

Lemma noEmptyTurn_unifiedA (msgs : list AnthropicMessage) :
  noEmptyTurn (map unifiedMessageA (filter hasPartsA msgs)).
Proof.
  unfold noEmptyTurn. apply Forall_forall. intros v Hv.
  apply in_map_iff in Hv. destruct Hv as [m [<- Hm]].
  apply filter_In in Hm. destruct Hm as [_ Hm].
  unfold hasPartsA in Hm. simpl.
  destruct (contentPartsOf m); [discriminate | discriminate].
Qed.

Lemma noEmptyTurn_system (sys : option SystemPrompt) : noEmptyTurn (systemMessage sys).
Proof.
  unfold noEmptyTurn, systemMessage.
  destruct (truthy (extractSystemPrompt sys)); repeat constructor. discriminate.
Qed.

End AnthropicConversion.

(** Where every sub-block of a [tool_result] is a text block, or its content
    is a string, the adapter hands the backend a [ToolResult] part for the
    block's [tool_use_id] whose content is the string, or the text of the
    sub-blocks joined with a newline. *)
Lemma tool_result_of_text_blocks
    (msgs : list AnthropicTypes.AnthropicMessage) (sys : option AnthropicTypes.SystemPrompt)
    (m : AnthropicTypes.AnthropicMessage) (blocks : list AnthropicTypes.ContentBlock)
    (id : string) (c : AnthropicTypes.ToolResultContent) (e : option bool) :
  In m msgs ->
  AnthropicTypes.msg_content m = AnthropicTypes.BlocksContent blocks ->
  In (AnthropicTypes.ToolResultBlock id c e) blocks ->
  Spec.allTextBlocks c ->
  Spec.yieldsToolResult msgs sys id (Spec.flattenedAsSpecified c).
Proof.
  intros Hm Hc Hb Hall.
  assert (Heq : Spec.flattenedPerSubBlock c = Spec.flattenedAsSpecified c).
  { destruct c as [s|bs]; simpl; [reflexivity|].
    unfold Spec.joinedTextBlocks. now rewrite joined_text_blocks. }
  rewrite <- Heq.
  assert (Hpart : In (VsCode.ToolResultPart id
                        [{| VsCode.value := Spec.flattenedPerSubBlock c |}])
                     (AnthropicHandler.contentPartsOf m)).
  { unfold AnthropicHandler.contentPartsOf. rewrite Hc, pushBlock_fold. simpl.
    apply in_flat_map. exists (AnthropicTypes.ToolResultBlock id c e).
    split; [assumption|]. simpl. rewrite resultContent_flattened. now left. }
  exists (Spec.unifiedMessageA m). split; [|exact Hpart].
  rewrite convertToVsCodeLmMessages_A_spec. apply in_or_app; right.
  apply in_map. apply filter_In. split; [assumption|].
  unfold Spec.hasPartsA. destruct (AnthropicHandler.contentPartsOf m);
    [destruct Hpart | reflexivity].
Qed.

(** Scenario D: a [tool_result] whose content is the text blocks "a" and "b"
    becomes a [ToolResult] with content "a", newline, "b". *)
Lemma tool_result_scenario_D :
  Spec.yieldsToolResult [sampleResultMessage sampleTextResult] None "t1"
    ("a" ++ nl ++ "b")%string.
Proof.
  apply (tool_result_of_text_blocks [sampleResultMessage sampleTextResult] None
           (sampleResultMessage sampleTextResult)
           [AnthropicTypes.ToolResultBlock "t1" sampleTextResult None]
           "t1" sampleTextResult None);
    [simpl; auto | reflexivity | simpl; auto |].
  repeat constructor.
Qed.

(** C8.  The claim fails on the code when a sub-block of the [tool_result] is
    not a text block.  For the content [text "a"; image; text "b"] the text
    sub-blocks joined with a newline are "a", newline, "b", but the converter
    maps every sub-block to an entry before joining, the empty string for the
    image, and hands the backend a [ToolResult] whose content is "a", newline,
    newline, "b": no [ToolResult] part of the output has the content the
    claim gives. *)
Theorem tool_result_join_keeps_blank_entry :
  AnthropicHandler.convertToVsCodeLmMessages [sampleResultMessage sampleMixedResult] None =
    [VsCode.newMessage VsCode.User
       [VsCode.ToolResultPart "t1" [{| VsCode.value := ("a" ++ nl ++ nl ++ "b")%string |}]]] /\
  Spec.flattenedAsSpecified sampleMixedResult = ("a" ++ nl ++ "b")%string /\
  ~ Spec.yieldsToolResult [sampleResultMessage sampleMixedResult] None "t1"
      (Spec.flattenedAsSpecified sampleMixedResult).
Proof.
  split; [reflexivity|]. split; [reflexivity|].
  intros [v [Hv Hp]]. vm_compute in Hv.
  destruct Hv as [<-|[]]. vm_compute in Hp.
  destruct Hp as [Hp|[]]. discriminate Hp.
Qed.

(** C9.  On both protocols a wire message whose conversion yields no content
    part is left out of the sequence handed to the backend, the other messages
    are kept in order, and every message handed to the backend has at least
    one content part. *)
Theorem empty_turns_are_dropped
    (JSON_parse : string -> Res json)
    (omsgs : list OpenAITypes.ChatMessage) (log : Log)
    (amsgs : list AnthropicTypes.AnthropicMessage)
    (sys : option AnthropicTypes.SystemPrompt) :
  (exists out,
     Spec.returned (OpenAIHandler.convertToVsCodeLmMessages JSON_parse omsgs log) = Some out /\
     out = map (Spec.unifiedMessage JSON_parse) (filter (Spec.hasParts JSON_parse) omsgs) /\
     Spec.noEmptyTurn out) /\
  (AnthropicHandler.convertToVsCodeLmMessages amsgs sys =
     Spec.systemMessage sys ++ map Spec.unifiedMessageA (filter Spec.hasPartsA amsgs) /\
   Spec.noEmptyTurn (AnthropicHandler.convertToVsCodeLmMessages amsgs sys)).
Proof.
  split.
  - eexists. rewrite convertToVsCodeLmMessages_spec. split; [reflexivity|].
    split; [reflexivity|].
    unfold Spec.noEmptyTurn. apply Forall_forall. intros v Hv.
    apply in_map_iff in Hv. destruct Hv as [m [<- Hm]].
    apply filter_In in Hm. destruct Hm as [_ Hm].
    unfold Spec.hasParts in Hm. simpl.
    destruct (Spec.unifiedParts JSON_parse m); discriminate.
  - rewrite convertToVsCodeLmMessages_A_spec. split; [reflexivity|].
    apply noEmptyTurn_app; [apply noEmptyTurn_system | apply noEmptyTurn_unifiedA].
Qed.

(** ** Non-streaming formatters *)

Section StringFacts.

Lemma string_app_nil_r (s : string) : (s ++ "")%string = s.
Proof. induction s as [|c s IH]; simpl; [reflexivity | now rewrite IH]. Qed.

Lemma string_app_assoc (a b c : string) :
  ((a ++ b) ++ c)%string = (a ++ (b ++ c))%string.
Proof. induction a as [|x a IH]; simpl; [reflexivity | now rewrite IH]. Qed.

End StringFacts.

Section NonStreaming.
Import VsCode Types Spec.
Variable JSON_parse : string -> Res json.

(** The OpenAI formatter on a completed run. *)
Lemma handleChatCompletion_completed (request : OpenAITypes.ChatCompletionRequest)
    (evs : list StreamChunk) (requestId uuid : string) (now : Z) (log : Log) :
  exists log',
    OpenAIHandler.handleChatCompletion JSON_parse request (replay (completed evs))
      requestId uuid now log =
    (Ok (OpenAIHandler.buildResponse uuid now (OpenAITypes.model request)
           (fold_left OpenAIHandler.collect evs
              {| OpenAIHandler.accumulatedText := ""; OpenAIHandler.toolCalls := [];
                 OpenAIHandler.inputTokens := 0; OpenAIHandler.outputTokens := 0 |})),
     log').
Proof.
  unfold OpenAIHandler.handleChatCompletion, bind, when, try_catch.
  destruct (OpenAITypes.frequency_penalty request), (OpenAITypes.presence_penalty request);
    simpl; rewrite convertToVsCodeLmMessages_spec; simpl; eexists; reflexivity.
Qed.

(** A run that throws makes the formatter throw the same error. *)
Lemma handleChatCompletion_failed (request : OpenAITypes.ChatCompletionRequest)
    (evs : list StreamChunk) (e requestId uuid : string) (now : Z) (log : Log) :
  fst (OpenAIHandler.handleChatCompletion JSON_parse request (replay (failed evs e))
         requestId uuid now log) = Throw e.
Proof.
  unfold OpenAIHandler.handleChatCompletion, bind, when, try_catch.
  destruct (OpenAITypes.frequency_penalty request), (OpenAITypes.presence_penalty request);
    simpl; rewrite convertToVsCodeLmMessages_spec; reflexivity.
Qed.

Lemma handleMessages_completed (request : AnthropicTypes.MessagesRequest)
    (evs : list StreamChunk) (requestId uuid : string) (log : Log) :
  AnthropicHandler.handleMessages request (replay (completed evs)) requestId uuid log =
  (Ok (AnthropicHandler.buildResponse uuid (AnthropicTypes.model request)
         (fold_left AnthropicHandler.collect evs
            {| AnthropicHandler.accumulatedText := ""; AnthropicHandler.contentBlocks := [];
               AnthropicHandler.inputTokens := 0; AnthropicHandler.outputTokens := 0 |})),
   log).
Proof. reflexivity. Qed.

Lemma handleMessages_failed (request : AnthropicTypes.MessagesRequest)
    (evs : list StreamChunk) (e requestId uuid : string) (log : Log) :
  fst (AnthropicHandler.handleMessages request (replay (failed evs e)) requestId uuid log)
  = Throw e.
Proof. reflexivity. Qed.

Lemma openai_collect_text (evs : list StreamChunk) :
  forall st,
    OpenAIHandler.accumulatedText (fold_left OpenAIHandler.collect evs st) =
    (OpenAIHandler.accumulatedText st ++ concatenatedText evs)%string.
Proof.
  induction evs as [|ev evs IH]; intros st; simpl.
  - now rewrite string_app_nil_r.
  - rewrite IH. destruct ev; simpl; [now rewrite string_app_assoc | reflexivity..].
Qed.

Lemma openai_collect_tool_calls (evs : list StreamChunk) :
  forall st,
    length (OpenAIHandler.toolCalls (fold_left OpenAIHandler.collect evs st)) =
    length (OpenAIHandler.toolCalls st) + length (toolCallEvents evs).
Proof.
  induction evs as [|ev evs IH]; intros st; simpl; [lia|].
  rewrite IH. destruct ev; simpl; rewrite ?length_app; simpl; lia.
Qed.

Lemma anthropic_collect_text (evs : list StreamChunk) :
  forall st,
    AnthropicHandler.accumulatedText (fold_left AnthropicHandler.collect evs st) =
    (AnthropicHandler.accumulatedText st ++ concatenatedText evs)%string.
Proof.
  induction evs as [|ev evs IH]; intros st; simpl.
  - now rewrite string_app_nil_r.
  - rewrite IH. destruct ev; simpl; [now rewrite string_app_assoc | reflexivity..].
Qed.

Lemma anthropic_collect_blocks (evs : list StreamChunk) :
  forall st,
    AnthropicHandler.contentBlocks (fold_left AnthropicHandler.collect evs st) =
    AnthropicHandler.contentBlocks st ++ flat_map toolUseBlockOf evs.
Proof.
  induction evs as [|ev evs IH]; intros st; simpl.
  - now rewrite app_nil_r.
  - rewrite IH. destruct ev; simpl; rewrite <- ?app_assoc; reflexivity.
Qed.

Lemma toolUseBlocks_length (evs : list StreamChunk) :
  length (flat_map toolUseBlockOf evs) = length (toolCallEvents evs).
Proof.
  induction evs as [|ev evs IH]; [reflexivity|].
  destruct ev; simpl; now rewrite ?IH.
Qed.

End NonStreaming.

(** C1.  Usage parity: when the last event of a run is [UsageEvent(i, o)],
    the OpenAI formatter answers with [prompt_tokens = i] and
    [completion_tokens = o], and the Anthropic formatter with
    [input_tokens = i] and [output_tokens = o]. *)
Theorem usage_parity
    (JSON_parse : string -> Res json)
    (orequest : OpenAITypes.ChatCompletionRequest)
    (arequest : AnthropicTypes.MessagesRequest)
    (evs : list Types.StreamChunk) (i o : Z)
    (requestId uuid : string) (now : Z) (log : Log) :
  let run := Types.completed (evs ++ [Types.UsageChunk i o]) in
  exists oresp aresp,
    Spec.returned (OpenAIHandler.handleChatCompletion JSON_parse orequest (Types.replay run)
                     requestId uuid now log) = Some oresp /\
    Spec.returned (AnthropicHandler.handleMessages arequest (Types.replay run)
                     requestId uuid log) = Some aresp /\
    OpenAITypes.prompt_tokens (OpenAITypes.usage oresp) = i /\
    OpenAITypes.completion_tokens (OpenAITypes.usage oresp) = o /\
    AnthropicTypes.input_tokens (AnthropicTypes.usage aresp) = i /\
    AnthropicTypes.output_tokens (AnthropicTypes.usage aresp) = o.
Proof.
  intros run.
  destruct (handleChatCompletion_completed JSON_parse orequest
              (evs ++ [Types.UsageChunk i o]) requestId uuid now log) as [log' Ho].
  eexists; eexists. unfold run. rewrite Ho, handleMessages_completed.
  split; [reflexivity|]. split; [reflexivity|].
  simpl. rewrite !fold_left_app. simpl. repeat split; reflexivity.
Qed.

(** C5.  Scenario A: for the run [TextDelta "Hello"], [TextDelta " there"],
    [UsageEvent(3, 2)] the OpenAI formatter answers with one choice whose
    message content is "Hello there" and whose finish reason is "stop", and
    with usage 3, 2 and 5. *)
Theorem scenario_A_openai_non_streaming
    (JSON_parse : string -> Res json)
    (request : OpenAITypes.ChatCompletionRequest)
    (requestId uuid : string) (now : Z) (log : Log) :
  exists resp,
    Spec.returned (OpenAIHandler.handleChatCompletion JSON_parse request
                     (Types.replay scenarioRun) requestId uuid now log) = Some resp /\
    map (fun c => (OpenAITypes.msg_content (OpenAITypes.choice_message c),
                   OpenAITypes.finish_reason c)) (OpenAITypes.choices resp) =
      [(OpenAITypes.StringContent "Hello there", Some "stop")] /\
    OpenAITypes.usage resp =
      {| OpenAITypes.prompt_tokens := 3;
         OpenAITypes.completion_tokens := 2;
         OpenAITypes.total_tokens := 5 |}.
Proof.
  destruct (handleChatCompletion_completed JSON_parse request (Types.chunks scenarioRun)
              requestId uuid now log) as [log' H].
  eexists. unfold scenarioRun in *. simpl in H. unfold Types.completed in *.
  rewrite H. split; [reflexivity|]. split; reflexivity.
Qed.

(** C6.  For a completed run the Anthropic formatter answers with a content
    array made of one text block holding the concatenated text, present
    exactly when that text is not empty, followed by one [tool_use] block per
    tool-call event in call order; the stop reason is "tool_use" when the run
    has a tool-call event and "end_turn" otherwise. *)
Theorem anthropic_non_streaming_content
    (request : AnthropicTypes.MessagesRequest)
    (evs : list Types.StreamChunk) (requestId uuid : string) (log : Log) :
  exists resp,
    Spec.returned (AnthropicHandler.handleMessages request
                     (Types.replay (Types.completed evs)) requestId uuid log) = Some resp /\
    AnthropicTypes.resp_content resp =
      (if String.eqb (Spec.concatenatedText evs) ""
       then []
       else [AnthropicTypes.TextBlock (Spec.concatenatedText evs)])
      ++ flat_map Spec.toolUseBlockOf evs /\
    AnthropicTypes.stop_reason resp =
      Some (if existsb Spec.isToolCall evs then "tool_use" else "end_turn").
Proof.
  eexists. rewrite handleMessages_completed. split; [reflexivity|].
  unfold AnthropicHandler.buildResponse; simpl.
  rewrite anthropic_collect_text, anthropic_collect_blocks. simpl.
  split.
  - destruct (Spec.concatenatedText evs) eqn:E; reflexivity.
  - f_equal. rewrite toolUseBlocks_length.
    unfold Spec.toolCallEvents.
    induction evs as [|ev evs IH]; [reflexivity|].
    destruct ev; simpl; try exact IH; reflexivity.
Qed.

(** ** Streaming, Anthropic *)

Section AnthropicStreaming.
Import VsCode Types Streaming AnthropicTypes AnthropicHandler Spec.

Lemma handleStreamingMessages_completed (request : MessagesRequest)
    (evs : list StreamChunk) (requestId uuid : string) (log : Log) :
  handleStreamingMessages request (replay (completed evs)) requestId uuid
    (newResponse StreamEvent) log =
  (Ok (finish (fold_left onChunk evs (initialState request uuid))), log).
Proof. reflexivity. Qed.

Lemma handleStreamingMessages_failed (request : MessagesRequest)
    (evs : list StreamChunk) (e requestId uuid : string) (log : Log) :
  Spec.returned (handleStreamingMessages request (replay (failed evs e)) requestId uuid
                   (newResponse StreamEvent) log) =
  Some (handleSSEError (res (fold_left onChunk evs (initialState request uuid))) e).
Proof. reflexivity. Qed.

End AnthropicStreaming.

(** C2.  Scenario C: for the run [ToolCallEvent("t1", "get_weather",
    {location: "SF"})], [UsageEvent(5, 1)] the Anthropic streaming handler
    writes exactly six frames: [message_start]; [content_block_start] of
    index 0 and type [tool_use]; [content_block_delta] of index 0 whose
    [input_json_delta] holds the whole encoded arguments; [content_block_stop]
    of index 0; [message_delta] with stop reason "tool_use" and 1 output
    token; [message_stop]. *)
Theorem scenario_C_anthropic_streaming
    (request : AnthropicTypes.MessagesRequest) (requestId uuid : string) (log : Log) :
  exists resp,
    Spec.returned (AnthropicHandler.handleStreamingMessages request
                     (Types.replay scenarioToolRun) requestId uuid
                     (Streaming.newResponse AnthropicTypes.StreamEvent) log) = Some resp /\
    map (fun f => (Streaming.event f, Streaming.data f)) (Streaming.written resp) =
      [(Some "message_start",
        Streaming.Json (AnthropicTypes.MessageStart (AnthropicHandler.messageIdOf uuid)
                          (AnthropicTypes.model request)
                          {| AnthropicTypes.input_tokens := 0;
                             AnthropicTypes.output_tokens := 0 |}));
       (Some "content_block_start",
        Streaming.Json (AnthropicTypes.ContentBlockStart 0
                          (AnthropicTypes.StartToolUse "t1" "get_weather" (JObj []))));
       (Some "content_block_delta",
        Streaming.Json (AnthropicTypes.ContentBlockDelta 0
                          (AnthropicTypes.InputJsonDelta sampleArgumentsText)));
       (Some "content_block_stop", Streaming.Json (AnthropicTypes.ContentBlockStop 0));
       (Some "message_delta",
        Streaming.Json (AnthropicTypes.MessageDelta (Some "tool_use") 1));
       (Some "message_stop", Streaming.Json AnthropicTypes.MessageStop)] /\
    sampleArgumentsText = stringify sampleArguments /\
    Streaming.ended resp = true.
Proof.
  eexists. unfold scenarioToolRun. rewrite handleStreamingMessages_completed.
  split; [reflexivity|]. split; [reflexivity|]. split; reflexivity.
Qed.

(** *** Block bookkeeping *)

Section BlockInvariant.
Import VsCode Types Streaming AnthropicTypes AnthropicHandler Spec.

Lemma payloads_send {P} (r : Response P) (ev : string) (d : P) :
  payloads (sendAnthropicEvent r ev d) = payloads r ++ [d].
Proof. unfold payloads, sendAnthropicEvent, sendSSE; simpl. now rewrite flat_map_app. Qed.

Lemma payloads_close {P} (r : Response P) : payloads (closeSSE r) = payloads r.
Proof. reflexivity. Qed.

Lemma startIndices_app (a b : list StreamEvent) :
  startIndices (a ++ b) = startIndices a ++ startIndices b.
Proof. apply flat_map_app. Qed.

Lemma stopIndices_app (a b : list StreamEvent) :
  stopIndices (a ++ b) = stopIndices a ++ stopIndices b.
Proof. apply flat_map_app. Qed.

Lemma appears_app (i : nat) (a b : list StreamEvent) :
  appears i (a ++ b) <-> appears i a \/ appears i b.
Proof. unfold appears. rewrite map_app. apply in_app_iff. Qed.

Lemma appears_single (i : nat) (e : StreamEvent) :
  appears i [e] <-> indexOf e = Some i.
Proof. unfold appears; simpl. intuition. Qed.

Lemma startPrecedesStop_app (i : nat) (a b : list StreamEvent) :
  startPrecedesStop i a -> startPrecedesStop i (a ++ b).
Proof.
  intros (pre & blk & mid & post & ->).
  exists pre, blk, mid, (post ++ b).
  now rewrite <- !app_assoc, <- !app_comm_cons, <- !app_assoc.
Qed.

(** A frame without index changes nothing. *)
Lemma wf_other (evs : list StreamEvent) (n : nat) (o : bool) (e : StreamEvent) :
  indexOf e = None -> blocksWellFormed evs n o -> blocksWellFormed (evs ++ [e]) n o.
Proof.
  intros He (Hs & Hp & Ha & Hord & Hopen).
  assert (startIndices [e] = []) by (destruct e; simpl in *; congruence).
  assert (stopIndices [e] = []) by (destruct e; simpl in *; congruence).
  repeat split.
  - rewrite startIndices_app. now rewrite H, app_nil_r.
  - rewrite stopIndices_app. now rewrite H0, app_nil_r.
  - intros i Hi. apply appears_app in Hi. destruct Hi as [Hi|Hi]; [auto|].
    apply appears_single in Hi. congruence.
  - intros i Hi. apply startPrecedesStop_app. auto.
  - intros Ho. destruct (Hopen Ho) as (pre & b & post & ->).
    exists pre, b, (post ++ [e]). now rewrite <- app_assoc.
Qed.

Lemma wf_start (evs : list StreamEvent) (n : nat) (b : StartedBlock) :
  blocksWellFormed evs n false ->
  blocksWellFormed (evs ++ [ContentBlockStart n b]) n true.
Proof.
  intros (Hs & Hp & Ha & Hord & _). unfold blocksWellFormed, openCount in *; cbv iota in *.
  repeat split.
  - rewrite startIndices_app, Hs. simpl.
    replace (n + 0) with n by lia. replace (n + 1) with (S n) by lia.
    now rewrite seq_S.
  - rewrite stopIndices_app, Hp. simpl. now rewrite app_nil_r.
  - intros i Hi. apply appears_app in Hi. destruct Hi as [Hi|Hi].
    + apply Ha in Hi. lia.
    + apply appears_single in Hi. simpl in Hi. injection Hi as <-. lia.
  - intros i Hi. apply startPrecedesStop_app. auto.
  - intros _. exists evs, b, []. reflexivity.
Qed.

Lemma wf_delta (evs : list StreamEvent) (n : nat) (d : BlockDelta) :
  blocksWellFormed evs n true ->
  blocksWellFormed (evs ++ [ContentBlockDelta n d]) n true.
Proof.
  intros (Hs & Hp & Ha & Hord & Hopen). unfold blocksWellFormed, openCount in *; cbv iota in *.
  repeat split.
  - rewrite startIndices_app, Hs. simpl. now rewrite app_nil_r.
  - rewrite stopIndices_app, Hp. simpl. now rewrite app_nil_r.
  - intros i Hi. apply appears_app in Hi. destruct Hi as [Hi|Hi]; [auto|].
    apply appears_single in Hi. simpl in Hi. injection Hi as <-. lia.
  - intros i Hi. apply startPrecedesStop_app. auto.
  - intros Ho. destruct (Hopen Ho) as (pre & b & post & ->).
    exists pre, b, (post ++ [ContentBlockDelta n d]). now rewrite <- app_assoc.
Qed.

Lemma wf_stop (evs : list StreamEvent) (n : nat) :
  blocksWellFormed evs n true ->
  blocksWellFormed (evs ++ [ContentBlockStop n]) (S n) false.
Proof.
  intros (Hs & Hp & Ha & Hord & Hopen). unfold blocksWellFormed, openCount in *; cbv iota in *.
  repeat split.
  - rewrite startIndices_app, Hs. cbn [startIndices flat_map app].
    rewrite app_nil_r. f_equal. lia.
  - rewrite stopIndices_app, Hp. cbn [stopIndices flat_map app].
    now rewrite seq_S.
  - intros i Hi. apply appears_app in Hi. destruct Hi as [Hi|Hi].
    + apply Ha in Hi. lia.
    + apply appears_single in Hi. simpl in Hi. injection Hi as <-. lia.
  - intros i Hi. assert (Hcase : i < n \/ i = n) by lia.
    destruct Hcase as [Hlt| ->].
    + apply startPrecedesStop_app. auto.
    + destruct (Hopen eq_refl) as (pre & b & post & ->).
      exists pre, b, post, []. now rewrite <- app_assoc.
  - discriminate.
Qed.

Lemma wf_initial (request : MessagesRequest) (uuid : string) :
  blocksWellFormed (payloads (res (initialState request uuid))) 0 false.
Proof.
  unfold blocksWellFormed; simpl. repeat split; try reflexivity.
  - intros i Hi. unfold appears in Hi; simpl in Hi. destruct Hi as [Hi|[]]. discriminate.
  - intros i Hi. lia.
  - discriminate.
Qed.

(** Every iteration of the loop keeps the invariant. *)
Lemma wf_onChunk (st : StreamState) (chunk : StreamChunk) :
  blocksWellFormed (payloads (res st)) (contentBlockIndex st) (currentBlockIsOpen st) ->
  blocksWellFormed (payloads (res (onChunk st chunk)))
    (contentBlockIndex (onChunk st chunk)) (currentBlockIsOpen (onChunk st chunk)).
Proof.
  intros Hwf. destruct chunk as [text|id name args|i o]; simpl.
  - destruct (currentBlockIsOpen st) eqn:Ho; simpl; rewrite ?payloads_send.
    + now apply wf_delta.
    + apply wf_delta. now apply wf_start.
  - destruct (currentBlockIsOpen st) eqn:Ho; simpl; rewrite ?payloads_send.
    + apply wf_stop, wf_delta, wf_start, wf_stop. exact Hwf.
    + apply wf_stop, wf_delta, wf_start. exact Hwf.
  - exact Hwf.
Qed.

Lemma wf_loop (evs : list StreamChunk) :
  forall st,
    blocksWellFormed (payloads (res st)) (contentBlockIndex st) (currentBlockIsOpen st) ->
    let st' := fold_left onChunk evs st in
    blocksWellFormed (payloads (res st')) (contentBlockIndex st') (currentBlockIsOpen st').
Proof.
  induction evs as [|ev evs IH]; intros st Hwf; simpl; [exact Hwf|].
  apply IH. now apply wf_onChunk.
Qed.

(** After the loop, [finish] closes the block that is still open. *)
Lemma wf_finish (st : StreamState) :
  blocksWellFormed (payloads (res st)) (contentBlockIndex st) (currentBlockIsOpen st) ->
  exists n, blocksWellFormed (payloads (finish st)) n false.
Proof.
  intros Hwf. unfold finish. rewrite payloads_close, !payloads_send.
  destruct (currentBlockIsOpen st) eqn:Ho.
  - exists (S (contentBlockIndex st)). rewrite payloads_send.
    apply wf_other; [reflexivity|]. apply wf_other; [reflexivity|].
    now apply wf_stop.
  - exists (contentBlockIndex st).
    apply wf_other; [reflexivity|]. apply wf_other; [reflexivity|]. exact Hwf.
Qed.

Lemma seq_strongly_sorted (len start : nat) : StronglySorted lt (seq start len).
Proof.
  revert start. induction len as [|len IH]; intros start; simpl; constructor.
  - apply IH.
  - apply Forall_forall. intros x Hx. apply in_seq in Hx. lia.
Qed.

Lemma start_appears (i : nat) (evs : list StreamEvent) :
  In i (startIndices evs) -> appears i evs.
Proof.
  unfold startIndices, appears. intros H.
  apply in_flat_map in H. destruct H as [e [He Hi]].
  apply in_map_iff. exists e. split; [|assumption].
  destruct e; simpl in Hi; try contradiction. destruct Hi as [<-|[]]. reflexivity.
Qed.

(** With no block open the stream has the block index monotonicity. *)
Lemma wf_closed_monotone (evs : list StreamEvent) (n : nat) :
  blocksWellFormed evs n false -> blockIndexMonotone evs.
Proof.
  intros (Hs & Hp & Ha & Hord & _). unfold blocksWellFormed, openCount in *; cbv iota in *.
  replace (n + 0) with n in * by lia.
  split.
  - intros i Hi. apply Ha in Hi.
    assert (Hin : In i (seq 0 n)) by (apply in_seq; lia).
    rewrite Hs, Hp.
    pose proof (proj1 (NoDup_count_occ' Nat.eq_dec (seq 0 n)) (seq_NoDup n 0) i Hin).
    auto.
  - rewrite Hs. apply seq_strongly_sorted.
Qed.

End BlockInvariant.

Section OpenBlock.
Import VsCode Types Streaming AnthropicTypes AnthropicHandler Spec.

Lemma wf_open_monotone (evs : list StreamEvent) (n : nat) :
  blocksWellFormed evs n true -> blockIndexMonotoneButLast evs.
Proof.
  intros (Hs & Hp & Ha & Hord & _). unfold openCount in *; cbv iota in *.
  assert (Hone : forall i, i < n + 1 -> count_occ Nat.eq_dec (seq 0 (n + 1)) i = 1).
  { intros i Hi.
    apply (proj1 (NoDup_count_occ' Nat.eq_dec (seq 0 (n + 1))) (seq_NoDup (n + 1) 0)).
    apply in_seq; lia. }
  exists n. split; [|split].
  - rewrite Hs, Hp. split; [apply Hone; lia|]. split.
    + apply count_occ_not_In. intros Hin. apply in_seq in Hin. lia.
    + intros i Hi. apply Ha in Hi. lia.
  - intros i Hi Hne. apply Ha in Hi. assert (Hlt : i < n) by lia.
    rewrite Hs, Hp. split; [apply Hone; lia|]. split; [|now apply Hord].
    apply (proj1 (NoDup_count_occ' Nat.eq_dec (seq 0 n)) (seq_NoDup n 0)).
    apply in_seq; lia.
  - rewrite Hs. apply seq_strongly_sorted.
Qed.

(** After the loop a text block is open exactly when the last text or
    tool-call chunk consumed is a text chunk. *)
Lemma open_after_loop (evs : list StreamChunk) :
  forall st,
    currentBlockIsOpen (fold_left onChunk evs st) =
    match rev (filter isBlockChunk evs) with
    | TextChunk _ :: _ => true
    | ToolCallChunk _ _ _ :: _ => false
    | _ => currentBlockIsOpen st
    end.
Proof.
  induction evs as [|ev evs IH] using rev_ind; intros st; [reflexivity|].
  rewrite fold_left_app, filter_app, rev_app_distr.
  destruct ev as [text|id name arguments|i o]; cbn [fold_left filter isBlockChunk rev app].
  - reflexivity.
  - cbn [onChunk]. now destruct (currentBlockIsOpen (fold_left onChunk evs st)).
  - cbn [onChunk currentBlockIsOpen]. apply IH.
Qed.

Lemma open_after_run (request : MessagesRequest) (uuid : string) (evs : list StreamChunk) :
  currentBlockIsOpen (fold_left onChunk evs (initialState request uuid)) = endsInText evs.
Proof.
  rewrite open_after_loop. unfold endsInText.
  destruct (rev (filter isBlockChunk evs)) as [|[text|id name arguments|i o] rest];
    reflexivity.
Qed.

End OpenBlock.

(** C3 (as amended).  The frames of every Anthropic streaming response have
    the block index monotonicity: for each index carried by a frame, exactly
    one [content_block_start] and exactly one [content_block_stop] carry it,
    the start comes before the stop, and the indices of the started blocks are
    strictly increasing.  The one exception is a backend run that throws
    while a text block is open, that is, after a text chunk that no tool-call
    chunk follows: then the last started index has its start frame and no
    stop frame, and every other index is as above. *)
Theorem block_index_monotonicity
    (request : AnthropicTypes.MessagesRequest)
    (run : Types.Run) (requestId uuid : string) (log : Log) :
  exists resp,
    Spec.returned (AnthropicHandler.handleStreamingMessages request
                     (Types.replay run) requestId uuid
                     (Streaming.newResponse AnthropicTypes.StreamEvent) log) = Some resp /\
    (if Spec.throwsInTextBlock run
     then Spec.blockIndexMonotoneButLast (Spec.payloads resp)
     else Spec.blockIndexMonotone (Spec.payloads resp)).
Proof.
  destruct run as [evs [e|]].
  - eexists.
    change {| Types.chunks := evs; Types.failure := Some e |} with (Types.failed evs e).
    rewrite handleStreamingMessages_failed. split; [reflexivity|].
    assert (Hwf : Spec.blocksWellFormed
                    (Spec.payloads
                       (AnthropicHandler.handleSSEError
                          (AnthropicHandler.res
                             (fold_left AnthropicHandler.onChunk evs
                                (Spec.initialState request uuid))) e))
                    (AnthropicHandler.contentBlockIndex
                       (fold_left AnthropicHandler.onChunk evs
                          (Spec.initialState request uuid)))
                    (Spec.endsInText evs)).
    { rewrite <- (open_after_run request uuid evs).
      unfold AnthropicHandler.handleSSEError. rewrite payloads_close, payloads_send.
      apply wf_other; [reflexivity|]. apply wf_loop. apply wf_initial. }
    unfold Spec.throwsInTextBlock. cbn [Types.failure Types.chunks Types.failed].
    destruct (Spec.endsInText evs).
    + exact (wf_open_monotone _ _ Hwf).
    + exact (wf_closed_monotone _ _ Hwf).
  - eexists.
    change {| Types.chunks := evs; Types.failure := None |} with (Types.completed evs).
    rewrite handleStreamingMessages_completed. split; [reflexivity|].
    cbn [Spec.throwsInTextBlock Types.failure Types.completed].
    destruct (wf_finish (fold_left AnthropicHandler.onChunk evs (Spec.initialState request uuid)))
      as [n Hn].
    + apply wf_loop. apply wf_initial.
    + exact (wf_closed_monotone _ _ Hn).
Qed.

(** C3 as stated fails when the backend run throws while a text block is
    open: the handler writes the error frame and ends the response, and the
    block of index 0 is started but never stopped. *)
Lemma block_index_monotonicity_counterexample :
  exists resp,
    Spec.returned (AnthropicHandler.handleStreamingMessages
                     {| AnthropicTypes.model := "claude-3";
                        AnthropicTypes.messages := [];
                        AnthropicTypes.system := None |}
                     (Types.replay brokenRun) "req-1" "0000"
                     (Streaming.newResponse AnthropicTypes.StreamEvent) []) = Some resp /\
    map Streaming.event (Streaming.written resp) =
      [Some "message_start"; Some "content_block_start"; Some "content_block_delta";
       Some "error"] /\
    ~ Spec.blockIndexMonotone (Spec.payloads resp).
Proof.
  eexists. split; [reflexivity|]. split; [reflexivity|].
  intros [H _]. specialize (H 0).
  destruct H as (_ & Hstop & _).
  - unfold Spec.appears. simpl. auto.
  - vm_compute in Hstop. discriminate.
Qed.

(** ** Streaming, OpenAI *)

Section OpenAIStreaming.
Import VsCode Types Streaming OpenAITypes OpenAIHandler Spec.
Variable JSON_parse : string -> Res json.

Lemma handleStreamingChatCompletion_completed (request : ChatCompletionRequest)
    (evs : list StreamChunk) (requestId uuid : string) (now : Z) (log : Log) :
  exists log',
    handleStreamingChatCompletion JSON_parse request (replay (completed evs))
      requestId uuid now (newResponse Payload) log =
    (Ok (closeSSE (sendOpenAIDone
           (res (fold_left (onChunk ("chatcmpl-" ++ uuid)%string (now / 1000)%Z
                              (model request)) evs initialStateO)))),
     log').
Proof.
  unfold handleStreamingChatCompletion, bind.
  rewrite convertToVsCodeLmMessages_spec. simpl. eexists; reflexivity.
Qed.

Lemma payloads_chunk (r : Response Payload) (p : Payload) :
  payloads (sendOpenAIChunk r p) = payloads r ++ [p].
Proof. unfold payloads, sendOpenAIChunk, sendSSE; simpl. now rewrite flat_map_app. Qed.

Lemma payloads_done (r : Response Payload) :
  payloads (closeSSE (sendOpenAIDone r)) = payloads r.
Proof.
  unfold payloads, sendOpenAIDone, sendSSE; simpl.
  rewrite flat_map_app; simpl. now rewrite app_nil_r.
Qed.

Lemma chunksOf_app (a b : list Payload) : chunksOf (a ++ b) = chunksOf a ++ chunksOf b.
Proof. apply flat_map_app. Qed.

(** Once a chunk has been sent with the role, no later chunk carries it. *)
Lemma no_role_after_first (cid : string) (created : Z) (mdl : string)
    (evs : list StreamChunk) :
  forall st,
    isFirstChunk st = false ->
    exists rest,
      chunkTrace (fold_left (onChunk cid created mdl) evs st) = chunkTrace st ++ rest /\
      forallb (fun c => negb (carriesRole c)) rest = true.
Proof.
  induction evs as [|ev evs IH]; intros st Hf; simpl.
  - exists []. now rewrite app_nil_r.
  - destruct (IH (onChunk cid created mdl st ev)) as [rest [Heq Hrest]].
    + destruct ev; simpl; auto.
    + rewrite Heq. unfold chunkTrace.
      destruct ev; simpl; rewrite ?Hf, !payloads_chunk, !chunksOf_app; simpl;
        eexists; rewrite <- app_assoc; (split; [reflexivity|]); simpl; exact Hrest.
Qed.

(** When the first event of a run is a text delta or a tool call, the
    stream has the first-chunk role property. *)
Lemma first_chunk_role_when_content_comes_first (request : ChatCompletionRequest)
    (ev : StreamChunk) (evs : list StreamChunk) (requestId uuid : string) (now : Z)
    (log : Log) :
  isContent ev = true ->
  exists resp,
    returned (handleStreamingChatCompletion JSON_parse request
                (replay (completed (ev :: evs))) requestId uuid now
                (newResponse Payload) log) = Some resp /\
    firstChunkRole (chunksOf (payloads resp)).
Proof.
  intros Hev.
  destruct (handleStreamingChatCompletion_completed request (ev :: evs)
              requestId uuid now log) as [log' H].
  eexists. rewrite H. split; [reflexivity|].
  rewrite payloads_done. cbn [fold_left].
  set (cid := ("chatcmpl-" ++ uuid)%string). set (created := (now / 1000)%Z).
  destruct (no_role_after_first cid created (model request) evs
              (onChunk cid created (model request) initialStateO ev)) as [rest [Heq Hrest]].
  - destruct ev; simpl; auto.
  - unfold chunkTrace in Heq. rewrite Heq.
    destruct ev; simpl in *; try discriminate; split; auto.
Qed.

End OpenAIStreaming.

(** C4 at a run without text or tool call.  The only chunk of the stream is
    the final one; its delta is empty, so no chunk of the stream carries
    [role: "assistant"] and the first-chunk role property fails. *)
Theorem first_chunk_role_missing_on_empty_run
    (JSON_parse : string -> Res json)
    (request : OpenAITypes.ChatCompletionRequest)
    (requestId uuid : string) (now : Z) (log : Log) :
  exists resp final,
    Spec.returned (OpenAIHandler.handleStreamingChatCompletion JSON_parse request
                     (Types.replay emptyRun) requestId uuid now
                     (Streaming.newResponse OpenAITypes.Payload) log) = Some resp /\
    Spec.chunksOf (Spec.payloads resp) = [final] /\
    map (fun c => (OpenAITypes.delta c, OpenAITypes.cc_finish_reason c))
        (OpenAITypes.chunk_choices final) =
      [({| OpenAITypes.delta_role := None;
           OpenAITypes.delta_content := None;
           OpenAITypes.delta_tool_calls := None |}, Some "stop")] /\
    Spec.carriesRole final = false /\
    ~ Spec.firstChunkRole (Spec.chunksOf (Spec.payloads resp)).
Proof.
  destruct (handleStreamingChatCompletion_completed JSON_parse request
              (Types.chunks emptyRun) requestId uuid now log) as [log' H].
  eexists; eexists. unfold emptyRun, Types.completed in *. simpl in H. rewrite H.
  split; [reflexivity|]. split; [reflexivity|]. split; [reflexivity|].
  split; [reflexivity|].
  simpl. intros [Hrole _]. discriminate Hrole.
Qed.

(** ** The backend adapter *)

Section BackendAdapterFacts.
Import VsCode Types VsCodeLmHandler Spec.

Lemma onPart_spec (st : LoopState) (part : ResponsePart) :
  onPart st part =
  {| accumulatedText :=
       (accumulatedText st ++ fold_right String.append "" (yieldedTextOf part))%string;
     yielded := yielded st ++ map TextChunk (yieldedTextOf part) |}.
Proof.
  destruct st as [acc ys].
  unfold onPart, yieldedTextOf, toolCallText, validString, validInput.
  destruct part as [v|callId name input|].
  - destruct v; cbn; rewrite ?string_app_nil_r, ?app_nil_r; reflexivity.
  - destruct name as [|b1|n1|[|c1 name]|l1|l1];
      destruct callId as [|b2|n2|[|c2 callId]|l2|l2];
      destruct input as [|b3|n3|s3|l3|l3];
      cbn -[stringify]; rewrite ?andb_false_r; cbn -[stringify];
      rewrite ?string_app_nil_r, ?app_nil_r; reflexivity.
  - cbn. now rewrite string_app_nil_r, app_nil_r.
Qed.

Lemma fold_append_app (a b : list string) :
  fold_right String.append "" (a ++ b) =
  (fold_right String.append "" a ++ fold_right String.append "" b)%string.
Proof.
  induction a as [|x a IH]; simpl; [reflexivity|].
  now rewrite IH, string_app_assoc.
Qed.

Lemma onPart_fold (parts : list ResponsePart) :
  forall st,
    fold_left onPart parts st =
    {| accumulatedText :=
         (accumulatedText st ++
          fold_right String.append "" (flat_map yieldedTextOf parts))%string;
       yielded := yielded st ++ map TextChunk (flat_map yieldedTextOf parts) |}.
Proof.
  induction parts as [|part parts IH]; intros st; simpl.
  - rewrite string_app_nil_r, app_nil_r. now destruct st.
  - rewrite IH, onPart_spec. simpl.
    now rewrite map_app, fold_append_app, <- app_assoc, string_app_assoc.
Qed.

Lemma text_chunks_are_text (texts : list string) :
  Forall (fun c => isTextOrUsage c = true) (map TextChunk texts).
Proof. apply Forall_forall. intros c Hc. apply in_map_iff in Hc. now destruct Hc as [t [<- _]]. Qed.

End BackendAdapterFacts.

(** C10.  Every chunk that [createMessage] yields is a text chunk or the
    usage chunk, never a tool-call chunk.  The text chunks are, in order, the
    values of the model's text parts and the JSON serializations of its
    tool-call parts; when the stream ends normally they are followed by one
    usage chunk whose output token count is the count of the concatenation of
    all these texts, the serialized tool calls included. *)
Theorem backend_yields_text_and_usage_only
    (client : VsCodeLmHandler.LanguageModelChat)
    (messages : list VsCode.LanguageModelChatMessage) :
  let run := VsCodeLmHandler.createMessage client messages in
  Forall (fun c => Spec.isTextOrUsage c = true) (Types.chunks run) /\
  match VsCodeLmHandler.sendRequest client messages with
  | inl _ => Types.chunks run = []
  | inr response =>
      Types.chunks run =
        map Types.TextChunk (Spec.yieldedTexts response) ++
        match VsCodeLmHandler.streamThrows response with
        | None =>
            [Types.UsageChunk
               (VsCodeLmHandler.calculateTotalInputTokens client messages)
               (VsCodeLmHandler.countTokens client
                  (inl (fold_right String.append "" (Spec.yieldedTexts response))))]
        | Some _ => []
        end
  end /\
  (forall c callId d name props,
     Spec.yieldedTextOf
       (VsCodeLmHandler.ResponseToolCallPart (JStr (String c callId)) (JStr (String d name))
          (JObj props)) =
     [Spec.toolCallText (String c callId) (String d name) (JObj props)]).
Proof.
  intros run. unfold run, VsCodeLmHandler.createMessage.
  destruct (VsCodeLmHandler.sendRequest client messages) as [e|response].
  - simpl. repeat split; constructor.
  - rewrite onPart_fold. simpl. unfold Spec.yieldedTexts.
    destruct (VsCodeLmHandler.streamThrows response) as [e|]; simpl.
    + rewrite app_nil_r. repeat split. apply text_chunks_are_text.
    + repeat split. apply Forall_app. split; [apply text_chunks_are_text|].
      repeat constructor.
Qed.

Example sample_backend_run :
  VsCodeLmHandler.createMessage sampleClient [] =
  Types.completed
    [Types.TextChunk "Hi";
     Types.TextChunk (Spec.toolCallText "t1" "f" (JObj []));
     Types.UsageChunk 0 (2 + Z.of_nat (String.length (Spec.toolCallText "t1" "f" (JObj []))))].
Proof. vm_compute. reflexivity. Qed.

(** ** The text-only versions *)

Section TextOnly.
Import VsCode Types Streaming Spec.

(** The text-only converters also drop the turns without text, and hand
    the backend one text part per message. *)
Lemma text_only_conversions_drop_empty_turns
    (omsgs : list OpenAITypes.ChatMessage)
    (amsgs : list AnthropicTypes.AnthropicMessage)
    (sys : option AnthropicTypes.SystemPrompt) :
  noEmptyTurn (TextOnlyOpenAIHandler.convertToVsCodeLmMessages omsgs) /\
  noEmptyTurn (TextOnlyAnthropicHandler.convertToVsCodeLmMessages amsgs sys).
Proof.
  assert (HO : forall msgs acc, noEmptyTurn acc ->
               noEmptyTurn (fold_left TextOnlyOpenAIHandler.pushMessage msgs acc)).
  { induction msgs as [|m msgs IH]; intros acc Hacc; simpl; [exact Hacc|].
    apply IH. unfold TextOnlyOpenAIHandler.pushMessage.
    destruct (truthy _); [|exact Hacc].
    apply noEmptyTurn_app; [exact Hacc|]. repeat constructor. discriminate. }
  assert (HA : forall msgs acc, noEmptyTurn acc ->
               noEmptyTurn (fold_left TextOnlyAnthropicHandler.pushMessage msgs acc)).
  { induction msgs as [|m msgs IH]; intros acc Hacc; simpl; [exact Hacc|].
    apply IH. unfold TextOnlyAnthropicHandler.pushMessage.
    destruct (truthy _); [|exact Hacc].
    apply noEmptyTurn_app; [exact Hacc|]. repeat constructor. discriminate. }
  split.
  - apply HO. constructor.
  - apply HA. apply noEmptyTurn_system.
Qed.

(** The text-only formatters report the usage of the last usage event. *)
Lemma text_only_usage_reported
    (orequest : OpenAITypes.ChatCompletionRequest)
    (arequest : AnthropicTypes.MessagesRequest)
    (evs : list StreamChunk) (i o : Z) (requestId uuid : string) (now : Z) (log : Log) :
  let run := completed (evs ++ [UsageChunk i o]) in
  exists oresp aresp,
    returned (TextOnlyOpenAIHandler.handleChatCompletion orequest (replay run)
                requestId uuid now log) = Some oresp /\
    returned (TextOnlyAnthropicHandler.handleMessages arequest (replay run)
                requestId uuid log) = Some aresp /\
    OpenAITypes.usage oresp =
      {| OpenAITypes.prompt_tokens := i; OpenAITypes.completion_tokens := o;
         OpenAITypes.total_tokens := (i + o)%Z |} /\
    AnthropicTypes.usage aresp =
      {| AnthropicTypes.input_tokens := i; AnthropicTypes.output_tokens := o |}.
Proof.
  intros run. unfold run.
  unfold TextOnlyOpenAIHandler.handleChatCompletion, TextOnlyAnthropicHandler.handleMessages,
    bind, when, try_catch.
  destruct (OpenAITypes.frequency_penalty orequest), (OpenAITypes.presence_penalty orequest);
    simpl; eexists; eexists; (split; [reflexivity|]); (split; [reflexivity|]);
    simpl; rewrite !fold_left_app; simpl; split; reflexivity.
Qed.

(** The text-only Anthropic formatter ignores tool-call events: it always
    answers with one text block, empty or not, and stop reason "end_turn". *)
Lemma text_only_handleMessages_shape
    (request : AnthropicTypes.MessagesRequest)
    (evs : list StreamChunk) (requestId uuid : string) (log : Log) :
  exists resp text,
    returned (TextOnlyAnthropicHandler.handleMessages request (replay (completed evs))
                requestId uuid log) = Some resp /\
    AnthropicTypes.resp_content resp = [AnthropicTypes.TextBlock text] /\
    AnthropicTypes.stop_reason resp = Some "end_turn".
Proof. eexists; eexists. repeat split. Qed.

(** The text-only streaming handler opens block 0 before the loop and stops
    it after the loop: on a completed run its stream has the block index
    monotonicity. *)
Lemma text_only_stream_blocks_monotone
    (request : AnthropicTypes.MessagesRequest)
    (evs : list StreamChunk) (requestId uuid : string) (log : Log) :
  exists resp,
    returned (TextOnlyAnthropicHandler.handleStreamingMessages request
                (replay (completed evs)) requestId uuid
                (newResponse AnthropicTypes.StreamEvent) log) = Some resp /\
    blockIndexMonotone (payloads resp).
Proof.
  eexists. split; [reflexivity|].
  simpl. rewrite payloads_close, !payloads_send.
  apply wf_closed_monotone with (n := 1).
  apply wf_other; [reflexivity|]. apply wf_other; [reflexivity|].
  apply (wf_stop _ 0).
  assert (H : forall evs st,
             blocksWellFormed (payloads (TextOnlyAnthropicHandler.res st)) 0 true ->
             blocksWellFormed
               (payloads (TextOnlyAnthropicHandler.res
                            (fold_left TextOnlyAnthropicHandler.onChunk evs st))) 0 true).
  { clear. induction evs as [|ev evs IH]; intros st Hst; simpl; [exact Hst|].
    apply IH. destruct ev; simpl; [|exact Hst..].
    rewrite payloads_send. now apply wf_delta. }
  apply H. simpl. rewrite payloads_send.
  apply (wf_start _ 0). apply (wf_initial request uuid).
Qed.

End TextOnly.


(** ** Runs and backends

    The front ends call [createMessage] once, on the converted messages, so a
    statement about every recorded run is a statement about every backend. *)

Section Backends.
Import VsCode Types Streaming Spec.
Variable JSON_parse : string -> Res json.

Lemma openai_backend_consulted_once (request : OpenAITypes.ChatCompletionRequest)
    (handler : Backend) (requestId uuid : string) (now : Z) (log : Log) :
  let run := createMessage handler
               (map (unifiedMessage JSON_parse)
                  (filter (hasParts JSON_parse) (OpenAITypes.messages request))) in
  OpenAIHandler.handleChatCompletion JSON_parse request handler requestId uuid now log =
  OpenAIHandler.handleChatCompletion JSON_parse request (replay run) requestId uuid now log /\
  OpenAIHandler.handleStreamingChatCompletion JSON_parse request handler requestId uuid now
    (newResponse OpenAITypes.Payload) log =
  OpenAIHandler.handleStreamingChatCompletion JSON_parse request (replay run) requestId uuid now
    (newResponse OpenAITypes.Payload) log.
Proof.
  intros run. split.
  - unfold OpenAIHandler.handleChatCompletion, bind, when.
    destruct (OpenAITypes.frequency_penalty request), (OpenAITypes.presence_penalty request);
      simpl; rewrite !convertToVsCodeLmMessages_spec; reflexivity.
  - unfold OpenAIHandler.handleStreamingChatCompletion, bind.
    rewrite !convertToVsCodeLmMessages_spec. reflexivity.
Qed.

Lemma anthropic_backend_consulted_once (request : AnthropicTypes.MessagesRequest)
    (handler : Backend) (requestId uuid : string) (log : Log) :
  let run := createMessage handler
               (AnthropicHandler.convertToVsCodeLmMessages
                  (AnthropicTypes.messages request) (AnthropicTypes.system request)) in
  AnthropicHandler.handleMessages request handler requestId uuid log =
  AnthropicHandler.handleMessages request (replay run) requestId uuid log /\
  AnthropicHandler.handleStreamingMessages request handler requestId uuid
    (newResponse AnthropicTypes.StreamEvent) log =
  AnthropicHandler.handleStreamingMessages request (replay run) requestId uuid
    (newResponse AnthropicTypes.StreamEvent) log.
Proof. split; reflexivity. Qed.

(** When the run throws, the frames written before the error frame still
    follow the block bookkeeping; a text block may be left open. *)
Lemma block_bookkeeping_on_failed_run (request : AnthropicTypes.MessagesRequest)
    (evs : list StreamChunk) (e requestId uuid : string) (log : Log) :
  exists resp n isOpen,
    returned (AnthropicHandler.handleStreamingMessages request (replay (failed evs e))
                requestId uuid (newResponse AnthropicTypes.StreamEvent) log) = Some resp /\
    blocksWellFormed (payloads resp) n isOpen.
Proof.
  eexists; eexists; eexists. rewrite handleStreamingMessages_failed.
  split; [reflexivity|].
  unfold AnthropicHandler.handleSSEError. rewrite payloads_close, payloads_send.
  apply wf_other; [reflexivity|].
  apply wf_loop. apply wf_initial.
Qed.

End Backends.

(** * Further properties *)

(** ** OpenAI streams *)

Section OpenAIStreamFacts.
Import VsCode Types Streaming OpenAITypes OpenAIHandler Spec Observe Shape.
Variable JSON_parse : string -> Res json.
Variables (cid : string) (created : Z) (mdl : string).

Lemma handleStreamingChatCompletion_failed (request : ChatCompletionRequest)
    (evs : list StreamChunk) (e requestId uuid : string) (now : Z) (log : Log) :
  exists log',
    handleStreamingChatCompletion JSON_parse request (replay (failed evs e))
      requestId uuid now (newResponse Payload) log =
    (Ok (handleSSEError
           (res (fold_left (onChunk ("chatcmpl-" ++ uuid)%string (now / 1000)%Z
                              (model request)) evs initialStateO)) e),
     log').
Proof.
  unfold handleStreamingChatCompletion, bind.
  rewrite convertToVsCodeLmMessages_spec. simpl. eexists; reflexivity.
Qed.

Lemma deltasOf_app (a b : list ChatCompletionChunk) :
  deltasOf (a ++ b) = deltasOf a ++ deltasOf b.
Proof. apply flat_map_app. Qed.

Lemma contentDeltas_app (a b : list ChatCompletionChunk) :
  contentDeltas (a ++ b) = contentDeltas a ++ contentDeltas b.
Proof. unfold contentDeltas. now rewrite deltasOf_app, flat_map_app. Qed.

Lemma toolCallDeltas_app (a b : list ChatCompletionChunk) :
  toolCallDeltas (a ++ b) = toolCallDeltas a ++ toolCallDeltas b.
Proof. unfold toolCallDeltas. now rewrite deltasOf_app, flat_map_app. Qed.

Lemma finishReasons_app (a b : list ChatCompletionChunk) :
  finishReasons (a ++ b) = finishReasons a ++ finishReasons b.
Proof. apply flat_map_app. Qed.

(** The chunks one iteration adds to the stream. *)
Lemma chunkTrace_step (st : StreamState) (ev : StreamChunk) :
  exists new,
    chunkTrace ((onChunk cid created mdl) st ev) = chunkTrace st ++ new /\
    contentDeltas new = textsOf [ev] /\
    map toolCallOfDelta (toolCallDeltas new) = toolCallOfChunk ev /\
    map tcd_index (toolCallDeltas new) = seq (toolCallIndex st) (length (toolCallOfChunk ev)) /\
    toolCallIndex ((onChunk cid created mdl) st ev) = toolCallIndex st + length (toolCallOfChunk ev) /\
    hasToolCalls ((onChunk cid created mdl) st ev) = hasToolCalls st || isToolCall ev /\
    finishReasons new =
      (if isUsage ev then [if hasToolCalls st then "tool_calls" else "stop"] else []) /\
    Forall (fun c => chunk_id c = cid /\ chunk_object c = "chat.completion.chunk" /\
                     chunk_created c = created /\ chunk_model c = mdl /\
                     map cc_index (chunk_choices c) = [0]) new.
Proof.
  unfold chunkTrace.
  destruct ev as [text|id name args|i o]; simpl.
  - rewrite payloads_chunk, chunksOf_app. eexists. split; [reflexivity|].
    destruct (isFirstChunk st); simpl; rewrite ?orb_false_r, ?Nat.add_0_r;
      repeat split; repeat constructor.
  - destruct (isFirstChunk st); rewrite !payloads_chunk, !chunksOf_app, <- ?app_assoc;
      (eexists; split; [reflexivity|]); simpl; rewrite ?orb_true_r;
      repeat split; repeat constructor; lia.
  - rewrite payloads_chunk, chunksOf_app. eexists. split; [reflexivity|].
    simpl. rewrite ?orb_false_r, ?Nat.add_0_r. repeat split; repeat constructor.
Qed.

Lemma chunkTrace_loop (evs : list StreamChunk) :
  forall st,
    exists new,
      chunkTrace (fold_left (onChunk cid created mdl) evs st) = chunkTrace st ++ new /\
      contentDeltas new = textsOf evs /\
      map toolCallOfDelta (toolCallDeltas new) = flat_map toolCallOfChunk evs /\
      map tcd_index (toolCallDeltas new) =
        seq (toolCallIndex st) (length (flat_map toolCallOfChunk evs)) /\
      hasToolCalls (fold_left (onChunk cid created mdl) evs st) = hasToolCalls st || existsb isToolCall evs /\
      length (finishReasons new) = length (filter isUsage evs) /\
      Forall (fun c => chunk_id c = cid /\ chunk_object c = "chat.completion.chunk" /\
                       chunk_created c = created /\ chunk_model c = mdl /\
                       map cc_index (chunk_choices c) = [0]) new.
Proof.
  induction evs as [|ev evs IH]; intros st; simpl.
  - exists []. rewrite app_nil_r, orb_false_r. repeat split; constructor.
  - destruct (chunkTrace_step st ev) as (n1 & H1 & C1 & T1 & I1 & X1 & G1 & F1 & E1).
    destruct (IH ((onChunk cid created mdl) st ev)) as (n2 & H2 & C2 & T2 & I2 & G2 & F2 & E2).
    exists (n1 ++ n2). rewrite H2, H1, <- app_assoc.
    split; [reflexivity|].
    rewrite contentDeltas_app, toolCallDeltas_app, finishReasons_app, !map_app.
    rewrite C1, C2, T1, T2, I1, I2, X1, G2, G1, !length_app, F1, F2.
    repeat split.
    + unfold textsOf. simpl. now rewrite app_nil_r.
    + now rewrite seq_app.
    + now rewrite orb_assoc.
    + destruct (isUsage ev); reflexivity.
    + apply Forall_app. split; assumption.
Qed.

Lemma concatAll_textsOf (evs : list StreamChunk) :
  concatAll (textsOf evs) = concatenatedText evs.
Proof.
  unfold concatAll, textsOf, concatenatedText.
  induction evs as [|ev evs IH]; simpl; [reflexivity|].
  destruct ev; simpl; now rewrite IH.
Qed.

Lemma openai_collect_tool_calls_list (evs : list StreamChunk) :
  forall st,
    OpenAIHandler.toolCalls (fold_left collect evs st) =
    OpenAIHandler.toolCalls st ++ flat_map toolCallOfChunk evs.
Proof.
  induction evs as [|ev evs IH]; intros st; simpl.
  - now rewrite app_nil_r.
  - rewrite IH. destruct ev; simpl; rewrite <- ?app_assoc; reflexivity.
Qed.

Lemma toolCallOfChunk_exists (evs : list StreamChunk) :
  (0 <? length (flat_map toolCallOfChunk evs)) = existsb isToolCall evs.
Proof.
  induction evs as [|ev evs IH]; [reflexivity|].
  destruct ev; simpl; try exact IH; reflexivity.
Qed.

Lemma written_chunk_frames (evs : list StreamChunk) :
  forall st,
    forallb isChunkFrame (written (res st)) = true ->
    forallb isChunkFrame (written (res (fold_left (onChunk cid created mdl) evs st))) = true.
Proof.
  induction evs as [|ev evs IH]; intros st Hst; simpl; [exact Hst|].
  apply IH.
  destruct ev; simpl; try destruct (isFirstChunk st); simpl;
    rewrite ?forallb_app, ?Hst; reflexivity.
Qed.

End OpenAIStreamFacts.

(** X1.  An OpenAI stream carries what the non-streaming answer holds: the
    [delta.content] strings concatenate to the answer's content (null when
    empty), the [delta.tool_calls] entries are the answer's tool calls in
    order, and their indices count up from 0. *)
Theorem openai_stream_matches_non_streaming
    (JSON_parse : string -> Res json)
    (request : OpenAITypes.ChatCompletionRequest)
    (evs : list Types.StreamChunk) (requestId uuid : string) (now : Z) (log : Log) :
  exists resp choice sresp,
    Spec.returned (OpenAIHandler.handleChatCompletion JSON_parse request
                     (Types.replay (Types.completed evs)) requestId uuid now log) = Some resp /\
    OpenAITypes.choices resp = [choice] /\
    Spec.returned (OpenAIHandler.handleStreamingChatCompletion JSON_parse request
                     (Types.replay (Types.completed evs)) requestId uuid now
                     (Streaming.newResponse OpenAITypes.Payload) log) = Some sresp /\
    let cs := Spec.chunksOf (Spec.payloads sresp) in
    OpenAITypes.msg_content (OpenAITypes.choice_message choice) =
      OpenAIHandler.textOrNull (Observe.concatAll (Observe.contentDeltas cs)) /\
    OpenAITypes.tool_calls (OpenAITypes.choice_message choice) =
      match Observe.toolCallDeltas cs with
      | [] => None
      | ds => Some (map Observe.toolCallOfDelta ds)
      end /\
    map OpenAITypes.tcd_index (Observe.toolCallDeltas cs) =
      seq 0 (length (Observe.toolCallDeltas cs)).
Proof.
  destruct (handleChatCompletion_completed JSON_parse request evs requestId uuid now log)
    as [log1 H1].
  destruct (handleStreamingChatCompletion_completed JSON_parse request evs requestId uuid
              now log) as [log2 H2].
  destruct (chunkTrace_loop ("chatcmpl-" ++ uuid)%string (now / 1000)%Z
              (OpenAITypes.model request) evs Spec.initialStateO)
    as (new & Htrace & Hc & Ht & Hi & _).
  eexists; eexists; eexists. rewrite H1, H2.
  split; [reflexivity|]. split; [reflexivity|]. split; [reflexivity|].
  rewrite payloads_done. unfold Spec.chunkTrace in Htrace. rewrite Htrace.
  change (Spec.chunksOf (Spec.payloads (OpenAIHandler.res Spec.initialStateO))) with
    (@nil OpenAITypes.ChatCompletionChunk).
  cbn [app]. cbv zeta. simpl OpenAITypes.msg_content. simpl OpenAITypes.tool_calls.
  rewrite openai_collect_text, openai_collect_tool_calls_list. simpl.
  rewrite Hc, concatAll_textsOf.
  assert (Hlen : length (Observe.toolCallDeltas new) =
                 length (flat_map Observe.toolCallOfChunk evs))
    by (rewrite <- Ht; now rewrite length_map).
  repeat split.
  - rewrite <- Ht. destruct (Observe.toolCallDeltas new); reflexivity.
  - rewrite Hi. simpl. now rewrite Hlen.
Qed.

(** X2.  When the run ends with its usage event, the last chunk of the
    stream has an empty delta and the finish reason of the non-streaming
    answer: "tool_calls" when the run has a tool call, "stop" otherwise; the
    chunks before it carry one finish reason per earlier usage event. *)
Theorem openai_stream_finish_reason
    (JSON_parse : string -> Res json)
    (request : OpenAITypes.ChatCompletionRequest)
    (evs : list Types.StreamChunk) (i o : Z) (requestId uuid : string) (now : Z)
    (log : Log) :
  let run := Types.completed (evs ++ [Types.UsageChunk i o]) in
  exists resp sresp earlier final reason,
    Spec.returned (OpenAIHandler.handleChatCompletion JSON_parse request (Types.replay run)
                     requestId uuid now log) = Some resp /\
    Spec.returned (OpenAIHandler.handleStreamingChatCompletion JSON_parse request
                     (Types.replay run) requestId uuid now
                     (Streaming.newResponse OpenAITypes.Payload) log) = Some sresp /\
    Spec.chunksOf (Spec.payloads sresp) = earlier ++ [final] /\
    reason = (if existsb Spec.isToolCall evs then "tool_calls" else "stop") /\
    map OpenAITypes.finish_reason (OpenAITypes.choices resp) = [Some reason] /\
    map OpenAITypes.cc_finish_reason (OpenAITypes.chunk_choices final) = [Some reason] /\
    map OpenAITypes.delta (OpenAITypes.chunk_choices final) =
      [{| OpenAITypes.delta_role := None; OpenAITypes.delta_content := None;
          OpenAITypes.delta_tool_calls := None |}] /\
    length (Observe.finishReasons earlier) = length (filter Observe.isUsage evs).
Proof.
  intros run. unfold run.
  destruct (handleChatCompletion_completed JSON_parse request
              (evs ++ [Types.UsageChunk i o]) requestId uuid now log) as [log1 H1].
  destruct (handleStreamingChatCompletion_completed JSON_parse request
              (evs ++ [Types.UsageChunk i o]) requestId uuid now log) as [log2 H2].
  destruct (chunkTrace_loop ("chatcmpl-" ++ uuid)%string (now / 1000)%Z
              (OpenAITypes.model request) evs Spec.initialStateO)
    as (new & Htrace & _ & _ & _ & Hh & Hf & _).
  eexists; eexists; exists new; eexists; eexists. rewrite H1, H2.
  split; [reflexivity|]. split; [reflexivity|].
  rewrite payloads_done, !fold_left_app.
  set (st := fold_left (OpenAIHandler.onChunk _ _ _) evs Spec.initialStateO) in *.
  assert (Htrace' : Spec.chunksOf (Spec.payloads (OpenAIHandler.res st)) = new)
    by exact Htrace.
  assert (Hh' : OpenAIHandler.hasToolCalls st = existsb Spec.isToolCall evs)
    by exact Hh.
  cbn [fold_left]. unfold OpenAIHandler.onChunk. cbn [OpenAIHandler.res].
  rewrite payloads_chunk, chunksOf_app, Htrace', Hh'.
  split; [reflexivity|]. split; [reflexivity|].
  simpl. rewrite openai_collect_tool_calls_list. simpl.
  rewrite toolCallOfChunk_exists.
  repeat split. exact Hf.
Qed.

(** X3.  An OpenAI stream always ends the response.  After a completed run
    the frames are chunk frames followed by exactly one [[DONE]] frame; when
    the run throws, the same chunk frames are followed by one error object
    carrying the thrown message, and no [[DONE]] frame is written. *)
Theorem openai_stream_termination
    (JSON_parse : string -> Res json)
    (request : OpenAITypes.ChatCompletionRequest)
    (evs : list Types.StreamChunk) (e requestId uuid : string) (now : Z) (log : Log) :
  exists sresp fresp frames,
    Spec.returned (OpenAIHandler.handleStreamingChatCompletion JSON_parse request
                     (Types.replay (Types.completed evs)) requestId uuid now
                     (Streaming.newResponse OpenAITypes.Payload) log) = Some sresp /\
    Spec.returned (OpenAIHandler.handleStreamingChatCompletion JSON_parse request
                     (Types.replay (Types.failed evs e)) requestId uuid now
                     (Streaming.newResponse OpenAITypes.Payload) log) = Some fresp /\
    forallb Shape.isChunkFrame frames = true /\
    Streaming.written sresp = frames ++ [Shape.doneFrame] /\
    Streaming.written fresp = frames ++ [Shape.errorFrame e] /\
    Streaming.ended sresp = true /\
    Streaming.ended fresp = true.
Proof.
  destruct (handleStreamingChatCompletion_completed JSON_parse request evs requestId uuid
              now log) as [log1 H1].
  destruct (handleStreamingChatCompletion_failed JSON_parse request evs e requestId uuid
              now log) as [log2 H2].
  eexists; eexists; eexists. rewrite H1, H2.
  split; [reflexivity|]. split; [reflexivity|].
  split; [|repeat split].
  apply written_chunk_frames. reflexivity.
Qed.

(** X4.  All chunks of one OpenAI stream share one envelope: the id
    [chatcmpl-<uuid>], the object name, the creation second, the request's
    model, and a single choice of index 0; and no frame of the stream has an
    [event:] line. *)
Theorem openai_stream_envelope
    (JSON_parse : string -> Res json)
    (request : OpenAITypes.ChatCompletionRequest)
    (run : Types.Run) (requestId uuid : string) (now : Z) (log : Log) :
  exists sresp,
    Spec.returned (OpenAIHandler.handleStreamingChatCompletion JSON_parse request
                     (Types.replay run) requestId uuid now
                     (Streaming.newResponse OpenAITypes.Payload) log) = Some sresp /\
    Forall (Observe.hasEnvelope uuid now (OpenAITypes.model request))
      (Spec.chunksOf (Spec.payloads sresp)) /\
    Forall (fun f => Streaming.event f = None) (Streaming.written sresp).
Proof.
  destruct run as [evs fl].
  destruct (chunkTrace_loop ("chatcmpl-" ++ uuid)%string (now / 1000)%Z
              (OpenAITypes.model request) evs Spec.initialStateO)
    as (new & Htrace & _ & _ & _ & _ & _ & Henv).
  unfold Spec.chunkTrace in Htrace.
  change (Spec.chunksOf (Spec.payloads (OpenAIHandler.res Spec.initialStateO))) with
    (@nil OpenAITypes.ChatCompletionChunk) in Htrace. cbn [app] in Htrace.
  pose proof (written_chunk_frames ("chatcmpl-" ++ uuid)%string (now / 1000)%Z
                (OpenAITypes.model request) evs Spec.initialStateO eq_refl) as Hfr.
  assert (Hnone : Forall (fun f : Streaming.Frame OpenAITypes.Payload =>
                            Streaming.event f = None)
                    (Streaming.written
                       (OpenAIHandler.res
                          (fold_left (OpenAIHandler.onChunk ("chatcmpl-" ++ uuid)%string
                                        (now / 1000)%Z (OpenAITypes.model request))
                             evs Spec.initialStateO)))).
  { apply Forall_forall. intros f Hf.
    rewrite forallb_forall in Hfr. specialize (Hfr f Hf).
    unfold Shape.isChunkFrame in Hfr. destruct (Streaming.event f); [discriminate|reflexivity]. }
  destruct fl as [e|].
  - destruct (handleStreamingChatCompletion_failed JSON_parse request evs e requestId uuid
                now log) as [log' H].
    eexists. unfold Types.failed in H. rewrite H. split; [reflexivity|]. split.
    + unfold OpenAIHandler.handleSSEError.
      rewrite payloads_close, payloads_chunk, chunksOf_app, Htrace.
      cbn [Spec.chunksOf flat_map app]. rewrite app_nil_r. exact Henv.
    + simpl. apply Forall_app. split; [exact Hnone|]. repeat constructor.
  - destruct (handleStreamingChatCompletion_completed JSON_parse request evs requestId uuid
                now log) as [log' H].
    eexists. unfold Types.completed in H. rewrite H. split; [reflexivity|]. split.
    + rewrite payloads_done, Htrace. exact Henv.
    + simpl. apply Forall_app. split; [exact Hnone|]. repeat constructor.
Qed.

Section UsageIndependence.
Import VsCode Types Streaming Spec Observe.

Lemma openai_step_ignores_usage (cid : string) (created : Z) (mdl : string)
    (f : Z -> Z -> Z * Z) (evs : list StreamChunk) :
  forall st,
    fold_left (OpenAIHandler.onChunk cid created mdl) (withUsage f evs) st =
    fold_left (OpenAIHandler.onChunk cid created mdl) evs st.
Proof.
  induction evs as [|ev evs IH]; intros st; [reflexivity|].
  simpl. rewrite <- IH. destruct ev; reflexivity.
Qed.

End UsageIndependence.

(** X5.  The response of the OpenAI stream does not depend on the usage
    numbers of the run: whatever the token counts of its usage events, the
    handler returns the same response, that is, the same headers and the same
    frames in the same order, for a run that completes and for a run that
    throws. *)
Theorem openai_stream_ignores_usage_numbers
    (JSON_parse : string -> Res json)
    (request : OpenAITypes.ChatCompletionRequest)
    (evs : list Types.StreamChunk) (fl : option string) (f : Z -> Z -> Z * Z)
    (requestId uuid : string) (now : Z) (log : Log) :
  exists resp,
    Spec.returned
      (OpenAIHandler.handleStreamingChatCompletion JSON_parse request
         (Types.replay {| Types.chunks := Observe.withUsage f evs; Types.failure := fl |})
         requestId uuid now (Streaming.newResponse OpenAITypes.Payload) log) = Some resp /\
    Spec.returned
      (OpenAIHandler.handleStreamingChatCompletion JSON_parse request
         (Types.replay {| Types.chunks := evs; Types.failure := fl |})
         requestId uuid now (Streaming.newResponse OpenAITypes.Payload) log) = Some resp.
Proof.
  unfold OpenAIHandler.handleStreamingChatCompletion, bind.
  rewrite !convertToVsCodeLmMessages_spec.
  cbn [Types.replay Types.createMessage Types.chunks Types.failure].
  rewrite openai_step_ignores_usage.
  destruct fl as [e|]; eexists; split; reflexivity.
Qed.

(** ** Anthropic streams *)

Section AnthropicStreamFacts.
Import VsCode Types Streaming AnthropicTypes AnthropicHandler Spec Observe ShapeA.

Lemma textDeltas_app (a b : list StreamEvent) : textDeltas (a ++ b) = textDeltas a ++ textDeltas b.
Proof. apply flat_map_app. Qed.

Lemma jsonDeltas_app (a b : list StreamEvent) : jsonDeltas (a ++ b) = jsonDeltas a ++ jsonDeltas b.
Proof. apply flat_map_app. Qed.

Lemma toolUseStarts_app (a b : list StreamEvent) :
  toolUseStarts (a ++ b) = toolUseStarts a ++ toolUseStarts b.
Proof. apply flat_map_app. Qed.

Lemma messageDeltas_app (a b : list StreamEvent) :
  messageDeltas (a ++ b) = messageDeltas a ++ messageDeltas b.
Proof. apply flat_map_app. Qed.

Lemma startedKinds_app (a b : list StreamEvent) :
  startedKinds (a ++ b) = startedKinds a ++ startedKinds b.
Proof. apply flat_map_app. Qed.

Lemma deltaKinds_app (a b : list StreamEvent) :
  deltaKinds (a ++ b) = deltaKinds a ++ deltaKinds b.
Proof. apply flat_map_app. Qed.

(** The events one iteration adds to the stream. *)
Lemma payloads_step (st : StreamState) (ev : StreamChunk) :
  exists new,
    payloads (res (onChunk st ev)) = payloads (res st) ++ new /\
    textDeltas new = textsOf [ev] /\
    toolUseStarts new = flat_map toolUseOfBlock (toolUseBlockOf ev) /\
    jsonDeltas new = flat_map toolInputOfBlock (toolUseBlockOf ev) /\
    messageDeltas new = [] /\
    hasToolUse (onChunk st ev) = hasToolUse st || isToolCall ev.
Proof.
  destruct ev as [text|id name args|i o]; simpl.
  - destruct (currentBlockIsOpen st); simpl; rewrite !payloads_send, <- ?app_assoc;
      (eexists; split; [reflexivity|]); rewrite orb_false_r; repeat split.
  - destruct (currentBlockIsOpen st); simpl; rewrite !payloads_send, <- ?app_assoc;
      (eexists; split; [reflexivity|]); rewrite orb_true_r; repeat split.
  - exists []. rewrite app_nil_r, orb_false_r. repeat split.
Qed.

Lemma payloads_loop (evs : list StreamChunk) :
  forall st,
    exists new,
      payloads (res (fold_left onChunk evs st)) = payloads (res st) ++ new /\
      textDeltas new = textsOf evs /\
      toolUseStarts new = flat_map toolUseOfBlock (flat_map toolUseBlockOf evs) /\
      jsonDeltas new = flat_map toolInputOfBlock (flat_map toolUseBlockOf evs) /\
      messageDeltas new = [] /\
      hasToolUse (fold_left onChunk evs st) = hasToolUse st || existsb isToolCall evs.
Proof.
  induction evs as [|ev evs IH]; intros st; simpl.
  - exists []. rewrite app_nil_r, orb_false_r. repeat split.
  - destruct (payloads_step st ev) as (n1 & H1 & T1 & S1 & J1 & M1 & U1).
    destruct (IH (onChunk st ev)) as (n2 & H2 & T2 & S2 & J2 & M2 & U2).
    exists (n1 ++ n2). rewrite H2, H1, <- app_assoc. split; [reflexivity|].
    rewrite textDeltas_app, toolUseStarts_app, jsonDeltas_app, messageDeltas_app.
    rewrite T1, T2, S1, S2, J1, J2, M1, M2, U2, U1, !flat_map_app.
    repeat split.
    + unfold textsOf. simpl. now rewrite app_nil_r.
    + now rewrite orb_assoc.
Qed.

(** Both loops end with the same output token count. *)
Lemma output_tokens_agree (evs : list StreamChunk) :
  forall st cst,
    outputTokens' st = AnthropicHandler.outputTokens cst ->
    outputTokens' (fold_left onChunk evs st) =
    AnthropicHandler.outputTokens (fold_left collect evs cst).
Proof.
  induction evs as [|ev evs IH]; intros st cst H; simpl; [exact H|].
  apply IH. destruct ev; simpl; try destruct (currentBlockIsOpen st); simpl;
    try exact H; reflexivity.
Qed.

Lemma toolUseBlocks_exists (evs : list StreamChunk) :
  (0 <? length (flat_map toolUseBlockOf evs)) = existsb isToolCall evs.
Proof.
  induction evs as [|ev evs IH]; [reflexivity|].
  destruct ev; simpl; try exact IH; reflexivity.
Qed.

Lemma toolUse_blocks_have_no_text (evs : list StreamChunk) :
  flat_map textOfBlock (flat_map toolUseBlockOf evs) = [].
Proof.
  induction evs as [|ev evs IH]; [reflexivity|].
  destruct ev; simpl; exact IH.
Qed.

(** Every frame the loop writes names the type of its data. *)
Lemma names_loop (evs : list StreamChunk) :
  forall st,
    Forall eventNamesType (written (res st)) ->
    Forall eventNamesType (written (res (fold_left onChunk evs st))).
Proof.
  induction evs as [|ev evs IH]; intros st Hst; simpl; [exact Hst|].
  apply IH.
  destruct ev; simpl; try destruct (currentBlockIsOpen st); simpl;
    rewrite <- ?app_assoc; try exact Hst;
    (apply Forall_app; split; [exact Hst|]); repeat constructor.
Qed.

(** The loop writes frames of content blocks only. *)
Lemma block_frames_loop (evs : list StreamChunk) :
  forall st,
    exists frames,
      written (res (fold_left onChunk evs st)) = written (res st) ++ frames /\
      forallb isBlockFrame frames = true.
Proof.
  induction evs as [|ev evs IH]; intros st; simpl.
  - exists []. now rewrite app_nil_r.
  - destruct (IH (onChunk st ev)) as (fr & Hfr & Hb). rewrite Hfr.
    destruct ev; simpl; try destruct (currentBlockIsOpen st); simpl;
      rewrite <- ?app_assoc; eexists; (split; [reflexivity|]); simpl; exact Hb.
Qed.

(** Deltas are typed like the block they are written in. *)
Lemma kinds_loop (evs : list StreamChunk) :
  forall st,
    incl (deltaKinds (payloads (res st))) (startedKinds (payloads (res st))) ->
    (currentBlockIsOpen st = true ->
     In (contentBlockIndex st, TextKind) (startedKinds (payloads (res st)))) ->
    let st' := fold_left onChunk evs st in
    incl (deltaKinds (payloads (res st'))) (startedKinds (payloads (res st'))).
Proof.
  induction evs as [|ev evs IH]; intros st Hincl Hopen; simpl; [exact Hincl|].
  apply IH.
  - destruct ev; simpl; try destruct (currentBlockIsOpen st) eqn:Ho; simpl;
      try specialize (Hopen eq_refl); rewrite ?payloads_send;
      unfold incl in *; intros k Hk;
      repeat (rewrite ?deltaKinds_app, ?startedKinds_app, ?in_app_iff in *; simpl in * );
      intuition (subst; auto).
  - destruct ev; simpl; try destruct (currentBlockIsOpen st) eqn:Ho; simpl;
      try specialize (Hopen eq_refl); rewrite ?payloads_send; intros Htrue;
      repeat (rewrite ?startedKinds_app, ?in_app_iff in *; simpl in * );
      try discriminate; intuition auto.
Qed.

(** The input token count of a usage event does not reach the frames. *)
Lemma step_same_but_input_tokens (g : Z -> Z -> Z) (evs : list StreamChunk) :
  forall a b,
    sameButInputTokens a b ->
    sameButInputTokens
      (fold_left onChunk (withUsage (fun i o => (g i o, o)) evs) a)
      (fold_left onChunk evs b).
Proof.
  induction evs as [|ev evs IH]; intros a b Hab; simpl; [exact Hab|].
  apply IH. destruct Hab as (Hr & Ho & Hi & Hc & Hu).
  unfold sameButInputTokens.
  destruct ev; simpl; rewrite ?Hr, ?Ho, ?Hi, ?Hc, ?Hu;
    try destruct (currentBlockIsOpen b); simpl; repeat split.
Qed.

End AnthropicStreamFacts.

Section WrittenFrames.
Import Streaming.

Lemma written_send {P} (r : Response P) (ev : string) (d : P) :
  written (sendAnthropicEvent r ev d) =
  written r ++ [{| event := if truthy ev then Some ev else None; data := Json d |}].
Proof. reflexivity. Qed.

Lemma written_close {P} (r : Response P) : written (closeSSE r) = written r.
Proof. reflexivity. Qed.

End WrittenFrames.

(** X6.  An Anthropic stream carries what the non-streaming answer holds:
    the [text_delta] strings concatenate to the text of the answer, the
    [tool_use] blocks started are the answer's [tool_use] blocks in order, each
    [partial_json] is the whole encoded input of its block, and the single
    [message_delta] has the answer's stop reason and output token count. *)
Theorem anthropic_stream_matches_non_streaming
    (request : AnthropicTypes.MessagesRequest)
    (evs : list Types.StreamChunk) (requestId uuid : string) (log : Log) :
  exists resp sresp,
    Spec.returned (AnthropicHandler.handleMessages request
                     (Types.replay (Types.completed evs)) requestId uuid log) = Some resp /\
    Spec.returned (AnthropicHandler.handleStreamingMessages request
                     (Types.replay (Types.completed evs)) requestId uuid
                     (Streaming.newResponse AnthropicTypes.StreamEvent) log) = Some sresp /\
    let frames := Spec.payloads sresp in
    Observe.concatAll (Observe.textDeltas frames) =
      Observe.concatAll (flat_map Observe.textOfBlock (AnthropicTypes.resp_content resp)) /\
    Observe.toolUseStarts frames =
      flat_map Observe.toolUseOfBlock (AnthropicTypes.resp_content resp) /\
    Observe.jsonDeltas frames =
      flat_map Observe.toolInputOfBlock (AnthropicTypes.resp_content resp) /\
    Observe.messageDeltas frames =
      [(AnthropicTypes.stop_reason resp,
        AnthropicTypes.output_tokens (AnthropicTypes.usage resp))].
Proof.
  eexists; eexists.
  rewrite handleMessages_completed, handleStreamingMessages_completed.
  split; [reflexivity|]. split; [reflexivity|].
  destruct (payloads_loop evs (Spec.initialState request uuid))
    as (new & Hp & Ht & Hs & Hj & Hm & Hu).
  set (st := fold_left AnthropicHandler.onChunk evs (Spec.initialState request uuid)) in *.
  assert (Hout : AnthropicHandler.outputTokens' st =
                 AnthropicHandler.outputTokens
                   (fold_left AnthropicHandler.collect evs
                      {| AnthropicHandler.accumulatedText := "";
                         AnthropicHandler.contentBlocks := [];
                         AnthropicHandler.inputTokens := 0;
                         AnthropicHandler.outputTokens := 0 |}))
    by (apply output_tokens_agree; reflexivity).
  assert (Hfin : Spec.payloads (AnthropicHandler.finish st) =
                 Spec.payloads (AnthropicHandler.res st) ++
                 (if AnthropicHandler.currentBlockIsOpen st
                  then [AnthropicTypes.ContentBlockStop (AnthropicHandler.contentBlockIndex st)]
                  else []) ++
                 [AnthropicTypes.MessageDelta
                    (Some (if AnthropicHandler.hasToolUse st then "tool_use" else "end_turn"))
                    (AnthropicHandler.outputTokens' st);
                  AnthropicTypes.MessageStop]).
  { unfold AnthropicHandler.finish. rewrite payloads_close, !payloads_send.
    destruct (AnthropicHandler.currentBlockIsOpen st);
      rewrite ?payloads_send, <- ?app_assoc; reflexivity. }
  cbv zeta. rewrite Hfin, Hp.
  change (Spec.payloads (AnthropicHandler.res (Spec.initialState request uuid))) with
    [AnthropicTypes.MessageStart (AnthropicHandler.messageIdOf uuid)
       (AnthropicTypes.model request)
       {| AnthropicTypes.input_tokens := 0; AnthropicTypes.output_tokens := 0 |}].
  rewrite !textDeltas_app, !toolUseStarts_app, !jsonDeltas_app, !messageDeltas_app.
  rewrite Ht, Hs, Hj, Hm, Hu, Hout.
  unfold AnthropicHandler.buildResponse. simpl AnthropicTypes.resp_content.
  simpl AnthropicTypes.stop_reason. simpl AnthropicTypes.usage.
  rewrite anthropic_collect_text, anthropic_collect_blocks. simpl.
  rewrite !flat_map_app, toolUse_blocks_have_no_text, toolUseBlocks_exists.
  destruct (AnthropicHandler.currentBlockIsOpen st); simpl; rewrite ?app_nil_r;
    rewrite concatAll_textsOf;
    destruct (Spec.concatenatedText evs) eqn:E; simpl; rewrite ?string_app_nil_r;
    repeat split.
Qed.

(** X7.  In every Anthropic stream, whether the run completes or throws, the
    [event:] line of each frame is the [type] of the frame's data. *)
Theorem anthropic_event_names_match_types
    (request : AnthropicTypes.MessagesRequest)
    (run : Types.Run) (requestId uuid : string) (log : Log) :
  exists sresp,
    Spec.returned (AnthropicHandler.handleStreamingMessages request (Types.replay run)
                     requestId uuid (Streaming.newResponse AnthropicTypes.StreamEvent) log)
      = Some sresp /\
    Forall Observe.eventNamesType (Streaming.written sresp).
Proof.
  destruct run as [evs fl].
  assert (H : Forall Observe.eventNamesType
                (Streaming.written
                   (AnthropicHandler.res
                      (fold_left AnthropicHandler.onChunk evs
                         (Spec.initialState request uuid))))).
  { apply names_loop. repeat constructor. }
  set (st := fold_left AnthropicHandler.onChunk evs (Spec.initialState request uuid)) in *.
  destruct fl as [e|].
  - exists (AnthropicHandler.handleSSEError (AnthropicHandler.res st) e).
    split; [reflexivity|].
    unfold AnthropicHandler.handleSSEError. rewrite written_close, written_send.
    apply Forall_app. split; [exact H|]. repeat constructor.
  - exists (AnthropicHandler.finish st). split; [reflexivity|].
    unfold AnthropicHandler.finish. rewrite written_close, !written_send.
    destruct (AnthropicHandler.currentBlockIsOpen st); rewrite ?written_send;
      repeat (apply Forall_app; split); try exact H; repeat constructor.
Qed.

(** X8.  An Anthropic stream always ends the response and always starts with
    [message_start] with zeroed usage.  After a completed run the frames that
    follow are content-block frames, then [message_delta] and [message_stop];
    when the run throws, the content-block frames written by the loop are
    followed by one [error] frame with the thrown message, and neither
    [message_delta] nor [message_stop] is written. *)
Theorem anthropic_stream_envelope
    (request : AnthropicTypes.MessagesRequest)
    (evs : list Types.StreamChunk) (e requestId uuid : string) (log : Log) :
  exists sresp fresp loopFrames closing reason out,
    Spec.returned (AnthropicHandler.handleStreamingMessages request
                     (Types.replay (Types.completed evs)) requestId uuid
                     (Streaming.newResponse AnthropicTypes.StreamEvent) log) = Some sresp /\
    Spec.returned (AnthropicHandler.handleStreamingMessages request
                     (Types.replay (Types.failed evs e)) requestId uuid
                     (Streaming.newResponse AnthropicTypes.StreamEvent) log) = Some fresp /\
    forallb ShapeA.isBlockFrame loopFrames = true /\
    ShapeA.isClosing closing /\
    Streaming.written sresp =
      ShapeA.frameOf (AnthropicTypes.MessageStart (AnthropicHandler.messageIdOf uuid)
                        (AnthropicTypes.model request)
                        {| AnthropicTypes.input_tokens := 0;
                           AnthropicTypes.output_tokens := 0 |})
      :: loopFrames ++ closing ++
         [ShapeA.frameOf (AnthropicTypes.MessageDelta (Some reason) out);
          ShapeA.frameOf AnthropicTypes.MessageStop] /\
    Streaming.written fresp =
      ShapeA.frameOf (AnthropicTypes.MessageStart (AnthropicHandler.messageIdOf uuid)
                        (AnthropicTypes.model request)
                        {| AnthropicTypes.input_tokens := 0;
                           AnthropicTypes.output_tokens := 0 |})
      :: loopFrames ++ [ShapeA.frameOf (AnthropicTypes.ErrorEvent "api_error" e)] /\
    Streaming.ended sresp = true /\
    Streaming.ended fresp = true.
Proof.
  destruct (block_frames_loop evs (Spec.initialState request uuid)) as (frames & Hfr & Hb).
  set (st := fold_left AnthropicHandler.onChunk evs (Spec.initialState request uuid)) in *.
  exists (AnthropicHandler.finish st), (AnthropicHandler.handleSSEError (AnthropicHandler.res st) e),
    frames,
    (if AnthropicHandler.currentBlockIsOpen st
     then [ShapeA.frameOf (AnthropicTypes.ContentBlockStop (AnthropicHandler.contentBlockIndex st))]
     else []),
    (if AnthropicHandler.hasToolUse st then "tool_use" else "end_turn"),
    (AnthropicHandler.outputTokens' st).
  split; [reflexivity|]. split; [reflexivity|]. split; [exact Hb|].
  split.
  { destruct (AnthropicHandler.currentBlockIsOpen st); [right; eexists; reflexivity | now left]. }
  split.
  { unfold AnthropicHandler.finish.
    destruct (AnthropicHandler.currentBlockIsOpen st); simpl; rewrite Hfr;
      simpl; rewrite <- ?app_assoc; reflexivity. }
  split.
  { simpl. rewrite Hfr. reflexivity. }
  split; reflexivity.
Qed.

(** X9.  In every Anthropic stream each delta is typed like a block the
    stream has started under the same index: a [text_delta] carries the index
    of a started text block and an [input_json_delta] the index of a started
    [tool_use] block. *)
Theorem anthropic_deltas_match_their_block
    (request : AnthropicTypes.MessagesRequest)
    (run : Types.Run) (requestId uuid : string) (log : Log) :
  exists sresp,
    Spec.returned (AnthropicHandler.handleStreamingMessages request (Types.replay run)
                     requestId uuid (Streaming.newResponse AnthropicTypes.StreamEvent) log)
      = Some sresp /\
    incl (Observe.deltaKinds (Spec.payloads sresp)) (Observe.startedKinds (Spec.payloads sresp)).
Proof.
  destruct run as [evs fl].
  pose proof (kinds_loop evs (Spec.initialState request uuid)) as H.
  cbv zeta in H.
  set (st := fold_left AnthropicHandler.onChunk evs (Spec.initialState request uuid)) in *.
  assert (Hst : incl (Observe.deltaKinds (Spec.payloads (AnthropicHandler.res st)))
                     (Observe.startedKinds (Spec.payloads (AnthropicHandler.res st)))).
  { apply H; [intros k [] | discriminate]. }
  destruct fl as [e|].
  - exists (AnthropicHandler.handleSSEError (AnthropicHandler.res st) e).
    split; [reflexivity|].
    unfold AnthropicHandler.handleSSEError. rewrite payloads_close, payloads_send.
    rewrite deltaKinds_app, startedKinds_app.
    cbn [Observe.deltaKinds Observe.startedKinds flat_map app].
    rewrite !app_nil_r. exact Hst.
  - exists (AnthropicHandler.finish st). split; [reflexivity|].
    unfold AnthropicHandler.finish. rewrite payloads_close, !payloads_send.
    destruct (AnthropicHandler.currentBlockIsOpen st); rewrite ?payloads_send;
      rewrite !deltaKinds_app, !startedKinds_app;
      cbn [Observe.deltaKinds Observe.startedKinds flat_map app];
      rewrite !app_nil_r; exact Hst.
Qed.

(** X10.  The Anthropic stream does not depend on the input token count of
    the run: [message_start] reports zero and [message_delta] reports output
    tokens only, so changing the input counts of the usage events changes no
    frame. *)
Theorem anthropic_stream_ignores_input_tokens
    (request : AnthropicTypes.MessagesRequest)
    (evs : list Types.StreamChunk) (fl : option string) (g : Z -> Z -> Z)
    (requestId uuid : string) (log : Log) :
  AnthropicHandler.handleStreamingMessages request
    (Types.replay {| Types.chunks := Observe.withUsage (fun i o => (g i o, o)) evs;
                     Types.failure := fl |})
    requestId uuid (Streaming.newResponse AnthropicTypes.StreamEvent) log =
  AnthropicHandler.handleStreamingMessages request
    (Types.replay {| Types.chunks := evs; Types.failure := fl |})
    requestId uuid (Streaming.newResponse AnthropicTypes.StreamEvent) log.
Proof.
  unfold AnthropicHandler.handleStreamingMessages. simpl.
  destruct (step_same_but_input_tokens g evs
              (Spec.initialState request uuid) (Spec.initialState request uuid))
    as (Hr & Ho & Hi & Hc & Hu); [repeat split|].
  unfold Spec.initialState in *.
  destruct fl as [e|].
  - unfold bind, Logger.error, ret. now rewrite Hr.
  - unfold AnthropicHandler.finish. now rewrite Hr, Ho, Hi, Hc, Hu.
Qed.

(** ** The backend adapter, continued *)

Section BackendRunFacts.
Import VsCode Types VsCodeLmHandler VsCodeLmClient Spec Observe.


Lemma text_chunks_no_tool_call (texts : list string) (tail : list StreamChunk) :
  existsb isToolCall tail = false ->
  existsb isToolCall (map TextChunk texts ++ tail) = false.
Proof. intros H. induction texts as [|t texts IH]; [exact H | exact IH]. Qed.

(** The chunks of a run of the adapter: text chunks, then at most one usage
    chunk. *)
Lemma createMessage_chunks (c : LanguageModelChat) (msgs : list LanguageModelChatMessage) :
  exists texts tail,
    chunks (createMessage c msgs) = map TextChunk texts ++ tail /\
    ((failure (createMessage c msgs) = None /\ exists i o, tail = [UsageChunk i o]) \/
     (failure (createMessage c msgs) <> None /\ tail = [])).
Proof.
  unfold createMessage.
  destruct (sendRequest c msgs) as [e|response].
  - exists [], []. split; [reflexivity|]. right. split; [discriminate | reflexivity].
  - rewrite onPart_fold. simpl.
    destruct (streamThrows response) as [e|]; simpl.
    + exists (flat_map yieldedTextOf (stream response)), [].
      split; [now rewrite app_nil_r|]. right. split; [discriminate | reflexivity].
    + eexists; eexists. split; [reflexivity|]. left. split; [reflexivity|].
      eexists; eexists. reflexivity.
Qed.

Lemma createMessage_no_tool_call (c : LanguageModelChat) (msgs : list LanguageModelChatMessage) :
  existsb isToolCall (chunks (createMessage c msgs)) = false.
Proof.
  destruct (createMessage_chunks c msgs) as (texts & tail & -> & [[_ (i & o & ->)]|[_ ->]]);
    now apply text_chunks_no_tool_call.
Qed.

Lemma concat_empty_separator (l : list string) :
  String.concat "" l = fold_right String.append "" l.
Proof.
  induction l as [|x l IH]; [reflexivity|].
  destruct l as [|y l]; simpl in *.
  - now rewrite string_app_nil_r.
  - now rewrite IH.
Qed.

Lemma messageText_text_parts (m : LanguageModelChatMessage) :
  messageText (textPartsOnly m) = messageText m.
Proof.
  unfold messageText, textPartsOnly. rewrite !concat_empty_separator. simpl.
  induction (content m) as [|p ps IH]; [reflexivity|].
  destruct p; simpl; now rewrite IH.
Qed.

End BackendRunFacts.


(** X12.  Only text parts count as input: the input token count of a
    conversation is unchanged when the tool-call and tool-result parts are
    removed from its messages. *)
Theorem input_tokens_count_text_parts_only
    (client : VsCodeLmHandler.LanguageModelChat)
    (messages : list VsCode.LanguageModelChatMessage) :
  VsCodeLmHandler.calculateTotalInputTokens client
    (map VsCodeLmClient.textPartsOnly messages) =
  VsCodeLmHandler.calculateTotalInputTokens client messages.
Proof.
  unfold VsCodeLmHandler.calculateTotalInputTokens. f_equal.
  rewrite map_map. apply map_ext. intros m.
  unfold VsCodeLmHandler.countTokens. now rewrite messageText_text_parts.
Qed.

(** X13.  Behind this backend adapter neither front end ever reports a tool
    call: an OpenAI answer has finish reason "stop" and no [tool_calls], an
    Anthropic answer has stop reason "end_turn" and no [tool_use] block, and
    the two streams carry no tool-call delta and start no [tool_use] block. *)
Theorem no_tool_calls_behind_the_adapter
    (JSON_parse : string -> Res json)
    (client : VsCodeLmHandler.LanguageModelChat)
    (orequest : OpenAITypes.ChatCompletionRequest)
    (arequest : AnthropicTypes.MessagesRequest)
    (requestId uuid : string) (now : Z) (log : Log) :
  let handler := VsCodeLmHandler.backend client in
  match Spec.returned (OpenAIHandler.handleChatCompletion JSON_parse orequest handler
                         requestId uuid now log) with
  | Some resp =>
      map (fun c => (OpenAITypes.finish_reason c,
                     OpenAITypes.tool_calls (OpenAITypes.choice_message c)))
        (OpenAITypes.choices resp) = [(Some "stop", None)]
  | None => True
  end /\
  match Spec.returned (AnthropicHandler.handleMessages arequest handler
                         requestId uuid log) with
  | Some resp =>
      AnthropicTypes.stop_reason resp = Some "end_turn" /\
      flat_map Observe.toolUseOfBlock (AnthropicTypes.resp_content resp) = []
  | None => True
  end /\
  (exists sresp,
     Spec.returned (OpenAIHandler.handleStreamingChatCompletion JSON_parse orequest handler
                      requestId uuid now (Streaming.newResponse OpenAITypes.Payload) log)
       = Some sresp /\
     Observe.toolCallDeltas (Spec.chunksOf (Spec.payloads sresp)) = []) /\
  (exists sresp,
     Spec.returned (AnthropicHandler.handleStreamingMessages arequest handler
                      requestId uuid (Streaming.newResponse AnthropicTypes.StreamEvent) log)
       = Some sresp /\
     Observe.toolUseStarts (Spec.payloads sresp) = []).
Proof.
  intros handler.
  destruct (openai_backend_consulted_once JSON_parse orequest handler requestId uuid now log)
    as [Ho1 Ho2].
  destruct (anthropic_backend_consulted_once arequest handler requestId uuid log)
    as [Ha1 Ha2].
  cbv zeta in Ho1, Ho2, Ha1, Ha2. rewrite Ho1, Ho2, Ha1, Ha2. clear Ho1 Ho2 Ha1 Ha2.
  unfold handler. simpl Types.createMessage.
  set (omsgs := map _ (filter _ (OpenAITypes.messages orequest))).
  set (amsgs := AnthropicHandler.convertToVsCodeLmMessages _ _).
  pose proof (createMessage_no_tool_call client omsgs) as Hno.
  pose proof (createMessage_no_tool_call client amsgs) as Hna.
  destruct (VsCodeLmHandler.createMessage client omsgs) as [oevs ofl].
  destruct (VsCodeLmHandler.createMessage client amsgs) as [aevs afl].
  simpl in Hno, Hna.
  assert (HnoT : flat_map Observe.toolCallOfChunk oevs = []).
  { pose proof (toolCallOfChunk_exists oevs) as H. rewrite Hno in H.
    destruct (flat_map Observe.toolCallOfChunk oevs); [reflexivity | discriminate]. }
  assert (HnaT : flat_map Spec.toolUseBlockOf aevs = []).
  { pose proof (toolUseBlocks_exists aevs) as H. rewrite Hna in H.
    destruct (flat_map Spec.toolUseBlockOf aevs); [reflexivity | discriminate]. }
  split; [|split; [|split]].
  - destruct ofl as [e|].
    + pose proof (handleChatCompletion_failed JSON_parse orequest oevs e requestId uuid
                    now log) as H.
      unfold Types.failed in H. unfold Spec.returned. rewrite H. exact I.
    + destruct (handleChatCompletion_completed JSON_parse orequest oevs requestId uuid
                  now log) as [log' H].
      unfold Types.completed in H. rewrite H. simpl.
      rewrite openai_collect_tool_calls_list. simpl. rewrite HnoT. reflexivity.
  - destruct afl as [e|]; [exact I|].
    change (Spec.returned
              (AnthropicHandler.handleMessages arequest
                 (Types.replay (Types.completed aevs)) requestId uuid log)) with
      (Some (AnthropicHandler.buildResponse uuid (AnthropicTypes.model arequest)
               (fold_left AnthropicHandler.collect aevs
                  {| AnthropicHandler.accumulatedText := "";
                     AnthropicHandler.contentBlocks := [];
                     AnthropicHandler.inputTokens := 0;
                     AnthropicHandler.outputTokens := 0 |}))).
    unfold AnthropicHandler.buildResponse. simpl.
    rewrite anthropic_collect_blocks. simpl. rewrite HnaT. simpl.
    rewrite app_nil_r. split; [reflexivity|].
    destruct (truthy _); reflexivity.
  - destruct (chunkTrace_loop ("chatcmpl-" ++ uuid)%string (now / 1000)%Z
                (OpenAITypes.model orequest) oevs Spec.initialStateO)
      as (new & Htrace & _ & Ht & _).
    assert (Htr : Spec.chunksOf
                    (Spec.payloads
                       (OpenAIHandler.res
                          (fold_left (OpenAIHandler.onChunk ("chatcmpl-" ++ uuid)%string
                                        (now / 1000)%Z (OpenAITypes.model orequest))
                             oevs Spec.initialStateO))) = new) by exact Htrace.
    assert (Hnew : Observe.toolCallDeltas new = []).
    { rewrite HnoT in Ht. destruct (Observe.toolCallDeltas new); [reflexivity|discriminate]. }
    destruct ofl as [e|].
    + destruct (handleStreamingChatCompletion_failed JSON_parse orequest oevs e requestId
                  uuid now log) as [log' H].
      eexists. unfold Types.failed in H. rewrite H. split; [reflexivity|].
      unfold OpenAIHandler.handleSSEError.
      rewrite payloads_close, payloads_chunk, chunksOf_app, Htr, toolCallDeltas_app, Hnew.
      reflexivity.
    + destruct (handleStreamingChatCompletion_completed JSON_parse orequest oevs requestId
                  uuid now log) as [log' H].
      eexists. unfold Types.completed in H. rewrite H. split; [reflexivity|].
      rewrite payloads_done, Htr. exact Hnew.
  - destruct (payloads_loop aevs (Spec.initialState arequest uuid))
      as (new & Hp & _ & Hs & _).
    rewrite HnaT in Hs. simpl in Hs.
    set (st := fold_left AnthropicHandler.onChunk aevs (Spec.initialState arequest uuid)) in *.
    destruct afl as [e|].
    + exists (AnthropicHandler.handleSSEError (AnthropicHandler.res st) e).
      split; [reflexivity|]. unfold AnthropicHandler.handleSSEError.
      rewrite payloads_close, payloads_send, Hp, !toolUseStarts_app, Hs. reflexivity.
    + exists (AnthropicHandler.finish st). split; [reflexivity|].
      unfold AnthropicHandler.finish. rewrite payloads_close, !payloads_send.
      destruct (AnthropicHandler.currentBlockIsOpen st); rewrite ?payloads_send, Hp;
        rewrite !toolUseStarts_app, Hs; reflexivity.
Qed.

Section ClientFacts.
Import VsCode Types VsCodeLmHandler VsCodeLmClient.

Lemma fallback_input_tokens (msgs : list LanguageModelChatMessage) :
  calculateTotalInputTokens fallbackClient msgs = 0%Z.
Proof.
  unfold calculateTotalInputTokens.
  induction msgs as [|m msgs IH]; [reflexivity | exact IH].
Qed.

Lemma fallback_run (msgs : list LanguageModelChatMessage) :
  createMessage fallbackClient msgs =
  completed [TextChunk limitedNotice; UsageChunk 0 0].
Proof.
  unfold createMessage. cbn [sendRequest fallbackClient stream streamThrows].
  rewrite fallback_input_tokens. reflexivity.
Qed.

End ClientFacts.

(** X14.  When no language model is found, a handler without client installs
    the fallback model, and every request, whatever its messages, is answered
    by one fixed notice followed by a usage of zero input and zero output
    tokens. *)
Theorem fallback_model_answers_with_notice
    (st : VsCodeLmClient.HandlerState)
    (messages : list VsCode.LanguageModelChatMessage) :
  VsCodeLmClient.client st = None ->
  VsCodeLmClient.createMessageOf (Ok []) st messages =
  (Types.completed
     [Types.TextChunk VsCodeLmClient.limitedNotice; Types.UsageChunk 0 0],
   {| VsCodeLmClient.client := Some VsCodeLmClient.fallbackClient;
      VsCodeLmClient.currentRequestCancellation := true |}).
Proof.
  intros Hc. unfold VsCodeLmClient.createMessageOf, VsCodeLmClient.getClient,
    VsCodeLmClient.ensureCleanState. simpl. rewrite Hc. simpl.
  rewrite fallback_run. reflexivity.
Qed.

Lemma fallback_model_answers_with_notice_witness :
  VsCodeLmClient.client freshHandler = None /\
  VsCodeLmClient.createMessageOf (Ok []) freshHandler [userTurn "Hi"] =
  (Types.completed
     [Types.TextChunk VsCodeLmClient.limitedNotice; Types.UsageChunk 0 0],
   {| VsCodeLmClient.client := Some VsCodeLmClient.fallbackClient;
      VsCodeLmClient.currentRequestCancellation := true |}).
Proof.
  split; [reflexivity|].
  apply (fallback_model_answers_with_notice freshHandler [userTurn "Hi"]). reflexivity.
Defined.

(** X15.  Token counting needs a live request: after a request that threw
    (client creation, the model call or the stream), the handler's
    [countTokens] answers 0 for every text; after a request that completed it
    still asks the model in place. *)
Theorem token_counting_needs_live_request
    (selected : Res (list VsCodeLmHandler.LanguageModelChat))
    (st : VsCodeLmClient.HandlerState)
    (messages : list VsCode.LanguageModelChatMessage)
    (text : string + VsCode.LanguageModelChatMessage) :
  let out := VsCodeLmClient.createMessageOf selected st messages in
  match Types.failure (fst out) with
  | Some _ => VsCodeLmClient.countTokensOf (snd out) text = 0%Z
  | None =>
      exists c,
        VsCodeLmClient.client (snd out) = Some c /\
        fst out = VsCodeLmHandler.createMessage c messages /\
        VsCodeLmClient.countTokensOf (snd out) text = VsCodeLmHandler.countTokens c text
  end.
Proof.
  intros out. unfold out, VsCodeLmClient.createMessageOf, VsCodeLmClient.getClient,
    VsCodeLmClient.ensureCleanState. simpl.
  destruct (VsCodeLmClient.client st) as [c|] eqn:Hc.
  - destruct (Types.failure (VsCodeLmHandler.createMessage c messages)) eqn:Hf; simpl;
      rewrite ?Hf; unfold VsCodeLmClient.countTokensOf; simpl; rewrite ?Hc.
    + reflexivity.
    + exists c. repeat split.
  - destruct (VsCodeLmClient.createClient selected) as [c|e] eqn:Hsel; simpl.
    + destruct (Types.failure (VsCodeLmHandler.createMessage c messages)) eqn:Hf; simpl;
        rewrite ?Hf; unfold VsCodeLmClient.countTokensOf; simpl.
      * reflexivity.
      * exists c. repeat split.
    + unfold VsCodeLmClient.countTokensOf. simpl. rewrite ?Hc. reflexivity.
Qed.

(** ** Converters, continued *)

Section ConverterFacts.
Import VsCode Types OpenAITypes Spec.
Variable JSON_parse : string -> Res json.

Lemma filter_hasPartsA_app (a b : list AnthropicTypes.AnthropicMessage) :
  map unifiedMessageA (filter hasPartsA (a ++ b)) =
  map unifiedMessageA (filter hasPartsA a) ++ map unifiedMessageA (filter hasPartsA b).
Proof. now rewrite filter_app, map_app. Qed.

Lemma pushBlock_parts_length (blocks : list AnthropicTypes.ContentBlock) :
  length (flat_map (AnthropicHandler.pushBlock []) blocks) =
  length (filter (fun b => negb (isImageBlock b)) blocks).
Proof.
  induction blocks as [|b blocks IH]; [reflexivity|].
  destruct b; simpl; now rewrite IH.
Qed.

Lemma no_parts_iff_images (blocks : list AnthropicTypes.ContentBlock) :
  filter (fun b => negb (isImageBlock b)) blocks = [] <-> forallb isImageBlock blocks = true.
Proof.
  induction blocks as [|b blocks IH]; simpl; [tauto|].
  destruct (isImageBlock b); simpl; [exact IH|]. split; discriminate.
Qed.

End ConverterFacts.

(** X16.  The OpenAI converter treats a [tool] message in one of three ways:
    with a call id and a non-empty text it becomes one user message holding
    one [ToolResult] part and no text part; with a text but no call id it
    becomes a plain user text message; with an empty text it is dropped, call
    id or not. *)
Theorem openai_tool_message_conversion
    (JSON_parse : string -> Res json)
    (id : option string) (text : string) (log : Log) :
  OpenAIHandler.convertToVsCodeLmMessages JSON_parse [toolMessage id text] log =
  (Ok (if negb (truthy text) then []
       else match id with
            | Some (String c rest) =>
                [VsCode.newMessage VsCode.User
                   [VsCode.ToolResultPart (String c rest) [{| VsCode.value := text |}]]]
            | _ => [userTurn text]
            end),
   log).
Proof.
  rewrite convertToVsCodeLmMessages_spec.
  unfold Spec.decodeWarnings, Spec.toolCallsOf. simpl. rewrite app_nil_r.
  unfold Spec.hasParts, Spec.unifiedMessage, Spec.unifiedParts, Spec.toolCallsOf,
    OpenAIHandler.initialParts. simpl.
  destruct id as [[|c rest]|]; destruct text as [|d text]; reflexivity.
Qed.

(** X17.  The Anthropic converter turns every block of a message into one
    part except image blocks, which it drops; a message reaches the backend
    unless its content is an array made of image blocks only (the empty array
    included). *)
Theorem anthropic_images_are_dropped
    (r : string) (blocks : list AnthropicTypes.ContentBlock) :
  let m := {| AnthropicTypes.msg_role := r;
              AnthropicTypes.msg_content := AnthropicTypes.BlocksContent blocks |} in
  length (AnthropicHandler.contentPartsOf m) =
    length (filter (fun b => negb (isImageBlock b)) blocks) /\
  (AnthropicHandler.convertToVsCodeLmMessages [m] None = [] <->
   forallb isImageBlock blocks = true) /\
  (forall s,
     AnthropicHandler.convertToVsCodeLmMessages
       [{| AnthropicTypes.msg_role := r;
           AnthropicTypes.msg_content := AnthropicTypes.StringContent s |}] None <> []).
Proof.
  intros m.
  assert (Hlen : length (AnthropicHandler.contentPartsOf m) =
                 length (filter (fun b => negb (isImageBlock b)) blocks)).
  { unfold AnthropicHandler.contentPartsOf, m. simpl.
    rewrite pushBlock_fold. simpl. apply pushBlock_parts_length. }
  split; [exact Hlen|]. split.
  - rewrite <- no_parts_iff_images.
    unfold AnthropicHandler.convertToVsCodeLmMessages. simpl.
    unfold AnthropicHandler.pushMessage.
    destruct (AnthropicHandler.contentPartsOf m) as [|p ps] eqn:E; simpl in *.
    + destruct (filter _ blocks); [tauto | discriminate].
    + destruct (filter _ blocks); [discriminate|]. split; discriminate.
  - intros s. discriminate.
Qed.

(** X18.  The Anthropic converter works message by message: the conversion of
    a concatenation is the concatenation of the conversions, and the system
    prompt only adds its message in front. *)
Theorem anthropic_conversion_is_per_message
    (a b : list AnthropicTypes.AnthropicMessage)
    (sys : option AnthropicTypes.SystemPrompt) :
  AnthropicHandler.convertToVsCodeLmMessages (a ++ b) sys =
    AnthropicHandler.convertToVsCodeLmMessages a sys ++
    AnthropicHandler.convertToVsCodeLmMessages b None /\
  AnthropicHandler.convertToVsCodeLmMessages [] sys =
    (if truthy (AnthropicHandler.extractSystemPrompt sys)
     then [VsCode.newTextMessage VsCode.Assistant (AnthropicHandler.extractSystemPrompt sys)]
     else []).
Proof.
  split; [|reflexivity].
  rewrite !convertToVsCodeLmMessages_A_spec, filter_hasPartsA_app.
  unfold Spec.systemMessage at 3. simpl. now rewrite app_assoc.
Qed.

(** X19.  The OpenAI converter works message by message too: the conversion
    of a concatenation returns the concatenation of the conversions, and its
    log is the log of the first followed by what the second adds. *)
Theorem openai_conversion_is_per_message
    (JSON_parse : string -> Res json)
    (a b : list OpenAITypes.ChatMessage) (log : Log) :
  exists outA logA outB logB,
    OpenAIHandler.convertToVsCodeLmMessages JSON_parse a log = (Ok outA, logA) /\
    OpenAIHandler.convertToVsCodeLmMessages JSON_parse b logA = (Ok outB, logB) /\
    OpenAIHandler.convertToVsCodeLmMessages JSON_parse (a ++ b) log =
      (Ok (outA ++ outB), logB).
Proof.
  eexists; eexists; eexists; eexists.
  rewrite !convertToVsCodeLmMessages_spec.
  split; [reflexivity|]. split; [reflexivity|].
  unfold Spec.decodeWarnings. now rewrite filter_app, map_app, flat_map_app, app_assoc.
Qed.

(** X20.  The legacy completion endpoint hands the backend exactly one user
    message holding the prompt as its only text part, or no message at all
    when the prompt is empty, and answers with the chat completion built from
    that run for the given model; when the run throws, it throws the same
    message and returns no answer. *)
Theorem completion_is_one_user_turn
    (JSON_parse : string -> Res json)
    (prompt mdl : string) (handler : Types.Backend)
    (requestId uuid : string) (now : Z) (log : Log) :
  let run := Types.createMessage handler
               (if truthy prompt then [userTurn prompt] else []) in
  fst (OpenAICompletion.handleCompletion JSON_parse prompt mdl handler requestId uuid now
         log) =
  match Types.failure run with
  | None =>
      Ok (OpenAIHandler.buildResponse uuid now mdl
            (fold_left OpenAIHandler.collect (Types.chunks run)
               {| OpenAIHandler.accumulatedText := ""; OpenAIHandler.toolCalls := [];
                  OpenAIHandler.inputTokens := 0; OpenAIHandler.outputTokens := 0 |}))
  | Some e => Throw e
  end.
Proof.
  intros run. unfold run.
  unfold OpenAICompletion.handleCompletion, OpenAIHandler.handleChatCompletion, bind.
  cbn [OpenAICompletion.chatRequestOf OpenAITypes.frequency_penalty
       OpenAITypes.presence_penalty OpenAITypes.messages OpenAITypes.model
       OpenAIHandler.isSome when ret].
  rewrite convertToVsCodeLmMessages_spec.
  unfold Spec.decodeWarnings, Spec.hasParts, Spec.unifiedMessage, Spec.unifiedParts,
    Spec.toolCallsOf, OpenAIHandler.initialParts. simpl.
  destruct (truthy prompt) eqn:Hp; simpl; rewrite ?app_nil_r;
    unfold try_catch, userTurn, VsCode.newMessage; rewrite ?Hp, ?app_nil_r.
  - change (OpenAIHandler.mapRole "user") with VsCode.User.
    destruct (Types.failure (Types.createMessage handler _)) as [e|]; reflexivity.
  - destruct (Types.failure (Types.createMessage handler [])) as [e|]; reflexivity.
Qed.

(** X21.  When the backend run throws, whatever it yielded before, both
    non-streaming handlers throw the same message and return no answer; each
    keeps the log written so far, and the last entry it writes is its own
    error entry, which carries the request id and the thrown message. *)
Theorem non_streaming_failure_is_rethrown
    (JSON_parse : string -> Res json)
    (orequest : OpenAITypes.ChatCompletionRequest)
    (arequest : AnthropicTypes.MessagesRequest)
    (evs : list Types.StreamChunk) (e requestId uuid : string) (now : Z) (log : Log) :
  (exists earlier,
     OpenAIHandler.handleChatCompletion JSON_parse orequest
       (Types.replay (Types.failed evs e)) requestId uuid now log =
     (Throw e,
      log ++ earlier ++ [errorEntry "OpenAI chat completion error" requestId e])) /\
  (exists earlier,
     AnthropicHandler.handleMessages arequest (Types.replay (Types.failed evs e))
       requestId uuid log =
     (Throw e,
      log ++ earlier ++ [errorEntry "Anthropic messages request error" requestId e])).
Proof.
  split; [|exists []; reflexivity].
  exists ((if OpenAIHandler.isSome (OpenAITypes.frequency_penalty orequest)
           then [{| level := warn_level;
                    message := "frequency_penalty is not supported by VS Code LM";
                    context := [("requestId", requestId)] |}]
           else []) ++
          (if OpenAIHandler.isSome (OpenAITypes.presence_penalty orequest)
           then [{| level := warn_level;
                    message := "presence_penalty is not supported by VS Code LM";
                    context := [("requestId", requestId)] |}]
           else []) ++
          Spec.decodeWarnings JSON_parse (OpenAITypes.messages orequest)).
  unfold OpenAIHandler.handleChatCompletion, bind, when, try_catch, warn, ret, throw,
    Logger.error, errorEntry.
  destruct (OpenAITypes.frequency_penalty orequest),
    (OpenAITypes.presence_penalty orequest);
    cbn [OpenAIHandler.isSome]; rewrite convertToVsCodeLmMessages_spec;
    cbn [Types.replay Types.createMessage Types.failed Types.failure Types.chunks app];
    rewrite <- ?app_assoc; reflexivity.
Qed.

(** ** Middleware *)

Section AuthFacts.
Import Http Auth.

Lemma sameKey_some (a b : string) : sameKey (Some a) (Some b) = true <-> Some a = Some b.
Proof.
  simpl. rewrite String.eqb_eq. split; [now intros -> | now intros [= ->]].
Qed.

End AuthFacts.

(** X22.  With authentication on and a key configured, a request outside
    [/health] passes exactly when the key it presents is the configured one:
    the [x-api-key] header on a [/messages] path, the text after [Bearer ] of
    the [authorization] header on any other path. *)
Theorem auth_accepts_exactly_the_configured_key
    (config : Auth.AuthConfig) (req : Http.Request) (log : Log) (key : string) :
  Auth.enableAuth config = true ->
  Auth.apiKey config = Some key ->
  truthy key = true ->
  Http.path req <> "/health" ->
  (fst (Auth.authMiddleware config req log) = Ok Http.Next <->
   Auth.providedKeyOf req = Some key).
Proof.
  intros He Hk Ht Hp.
  unfold Auth.authMiddleware. rewrite He, Hk. simpl negb. cbv iota.
  apply String.eqb_neq in Hp. rewrite Hp.
  destruct (Auth.providedKeyOf req) as [k|]; simpl.
  - destruct (truthy k) eqn:Tk; simpl.
    + rewrite Ht. simpl. destruct (String.eqb k key) eqn:E; simpl.
      * apply String.eqb_eq in E. subst. tauto.
      * apply String.eqb_neq in E. unfold bind, warn, ret.
        destruct (Http.isAnthropicPath req); simpl; split; try discriminate;
          intros [= ->]; congruence.
    + unfold bind, warn, ret.
      destruct (Http.isAnthropicPath req); simpl; split; try discriminate;
        intros [= ->]; congruence.
  - unfold bind, warn, ret.
    destruct (Http.isAnthropicPath req); simpl; split; discriminate.
Qed.

Lemma auth_accepts_exactly_the_configured_key_witness :
  Auth.enableAuth keyedConfig = true /\
  Auth.apiKey keyedConfig = Some "secret" /\
  (fst (Auth.authMiddleware keyedConfig openaiCall []) = Ok Http.Next <->
   Auth.providedKeyOf openaiCall = Some "secret").
Proof.
  split; [reflexivity|]. split; [reflexivity|].
  apply (auth_accepts_exactly_the_configured_key keyedConfig openaiCall [] "secret");
    [reflexivity | reflexivity | reflexivity | discriminate].
Defined.

(** X23.  With authentication on but no key configured, every request that
    presents a non-empty key passes, whatever the key, and nothing is logged. *)
Theorem auth_without_configured_key_accepts_any_key
    (config : Auth.AuthConfig) (req : Http.Request) (log : Log) :
  Auth.truthyKey (Auth.apiKey config) = false ->
  Auth.truthyKey (Auth.providedKeyOf req) = true ->
  Auth.authMiddleware config req log = (Ok Http.Next, log).
Proof.
  intros Hk Hp. unfold Auth.authMiddleware.
  destruct (Auth.enableAuth config); [|reflexivity]. simpl negb. cbv iota.
  destruct (String.eqb (Http.path req) "/health"); [reflexivity|].
  rewrite Hp, Hk. reflexivity.
Qed.

Lemma auth_without_configured_key_accepts_any_key_witness :
  Auth.truthyKey (Auth.apiKey keylessConfig) = false /\
  Auth.truthyKey (Auth.providedKeyOf anthropicCall) = true /\
  Auth.authMiddleware keylessConfig anthropicCall [] = (Ok Http.Next, []).
Proof.
  split; [reflexivity|]. split; [reflexivity|].
  apply (auth_without_configured_key_accepts_any_key keylessConfig anthropicCall []);
    reflexivity.
Defined.

(** X24.  The authentication middleware never throws.  When it lets a request
    pass it logs nothing; when it answers itself, authentication is on, the
    path is not [/health], the status is 401, the body has the Anthropic shape
    exactly on a [/messages] path, and one warning is logged. *)
Theorem auth_rejections_are_401
    (config : Auth.AuthConfig) (req : Http.Request) (log : Log) :
  match Auth.authMiddleware config req log with
  | (Ok Http.Next, log') => log' = log
  | (Ok (Http.Respond status b), log') =>
      status = 401 /\
      Http.isAnthropicShaped b = Http.isAnthropicPath req /\
      Samples3.errorTypeOf b = "authentication_error" /\
      Auth.enableAuth config = true /\
      Http.path req <> "/health" /\
      exists entry, log' = log ++ [entry] /\ level entry = warn_level
  | (Throw _, _) => False
  end.
Proof.
  unfold Auth.authMiddleware.
  destruct (Auth.enableAuth config); [|reflexivity]. simpl negb. cbv iota.
  destruct (String.eqb (Http.path req) "/health") eqn:Hp; [reflexivity|].
  apply String.eqb_neq in Hp.
  destruct (negb (Auth.truthyKey (Auth.providedKeyOf req))).
  - unfold bind, warn, ret. destruct (Http.isAnthropicPath req); simpl;
      repeat split; try exact Hp; eexists; split; reflexivity.
  - destruct (Auth.truthyKey (Auth.apiKey config) &&
              negb (Auth.sameKey (Auth.providedKeyOf req) (Auth.apiKey config)));
      [|reflexivity].
    unfold bind, warn, ret. destruct (Http.isAnthropicPath req); simpl;
      repeat split; try exact Hp; eexists; split; reflexivity.
Qed.

(** X25.  The rate limiter counts a key in one bucket whichever header
    carries it: a request with [x-api-key: K] and a request with
    [authorization: Bearer K] and no [x-api-key] both get the key [key:K]. *)
Theorem rate_limit_key_is_header_independent
    (key : string) (req1 req2 : Http.Request) :
  truthy key = true ->
  Http.headers req1 "x-api-key" = Some key ->
  Http.headers req2 "x-api-key" = None ->
  Http.headers req2 "authorization" = Some ("Bearer " ++ key)%string ->
  RateLimit.keyGenerator req1 = ("key:" ++ key)%string /\
  RateLimit.keyGenerator req2 = ("key:" ++ key)%string.
Proof.
  intros Ht H1 H2 H3. unfold RateLimit.keyGenerator, RateLimit.orElse.
  rewrite H1, H2, H3, Ht. simpl. rewrite Ht.
  split; [reflexivity|].
  destruct key; [discriminate | reflexivity].
Qed.

Lemma rate_limit_key_is_header_independent_witness :
  truthy "secret" = true /\
  RateLimit.keyGenerator anthropicCall = "key:secret" /\
  RateLimit.keyGenerator openaiCall = "key:secret".
Proof.
  split; [reflexivity|].
  apply (rate_limit_key_is_header_independent "secret" anthropicCall openaiCall);
    reflexivity.
Defined.

(** X26.  The error handler never touches a response that has started.
    Otherwise it answers once, with a status among 400, 401, 403, 404, 429,
    499, 500 and 503, the error's message (a default text when it is empty),
    the Anthropic shape exactly on a [/messages] path, and the type
    [api_error] exactly for status 500; the message the backend adapter throws
    on cancellation gives 499. *)
Theorem error_handler_answer
    (err : string) (req : Http.Request) (res : Http.HttpResponse) (log : Log) :
  exists res',
    fst (ErrorHandler.errorHandler err req res log) = Ok res' /\
    (if Http.headersSent res then res' = res
     else
       Http.headersSent res' = true /\
       Http.statusCode res' = ErrorHandler.getStatusCode err /\
       In (Http.statusCode res') Samples3.errorStatuses /\
       exists b,
         Http.body res' = Some b /\
         Http.isAnthropicShaped b = Http.isAnthropicPath req /\
         Samples3.errorMessageOf b = ErrorHandler.messageOrDefault err /\
         Samples3.errorTypeOf b =
           (if Http.statusCode res' =? 500 then "api_error" else "invalid_request_error")) /\
    ErrorHandler.getStatusCode
      (VsCodeLmHandler.rethrown VsCodeLmHandler.CancellationError) = 499.
Proof.
  assert (Hst : In (ErrorHandler.getStatusCode err) Samples3.errorStatuses).
  { unfold ErrorHandler.getStatusCode, Samples3.errorStatuses.
    repeat match goal with
           | |- context [if ?c then _ else _] => destruct c
           end; simpl; tauto. }
  unfold ErrorHandler.errorHandler, bind, Logger.error, ret.
  destruct (Http.headersSent res) eqn:Hs.
  - exists res. simpl. repeat split.
  - destruct (Http.isAnthropicPath req) eqn:Ha; eexists; simpl;
      (split; [reflexivity|]); (split; [|vm_compute; reflexivity]);
      repeat split; try exact Hst; eexists; repeat split.
Qed.

Section ValidatorFacts.
Import Http Validator.

Lemma check_nil (failed : bool) (message : string) :
  check failed message = [] <-> failed = false.
Proof. destruct failed; simpl; split; congruence. Qed.

Lemma optional_within (v : Value) (lo hi : Z) :
  negb (isUndefined v) && outside v lo hi = false <-> optional v (numberWithin v lo hi).
Proof.
  unfold optional, numberWithin. split.
  - intros H. destruct v as [|x|s|n|t]; simpl in H; try discriminate; [now left|].
    apply orb_false_iff in H. right. exists x. tauto.
  - intros [->|(x & -> & H1 & H2)]; [reflexivity|]. simpl. now rewrite H1, H2.
Qed.

Lemma optional_atLeast (v : Value) (lo : Z) :
  negb (isUndefined v) && below v lo = false <-> optional v (numberAtLeast v lo).
Proof.
  unfold optional, numberAtLeast. split.
  - intros H. destruct v as [|x|s|n|t]; simpl in H; try discriminate; [now left|].
    right. exists x. tauto.
  - intros [->|(x & -> & H1)]; [reflexivity|]. simpl. exact H1.
Qed.

Lemma messagesErrors_nil (v : Value) : messagesErrors v = [] <-> nonEmptyArray v.
Proof.
  unfold nonEmptyArray. split.
  - intros H. destruct v as [|x|s|n|t]; simpl in H; try discriminate.
    destruct n; [discriminate|]. now exists n.
  - intros [k ->]. reflexivity.
Qed.

Lemma modelErrors_nil (v : Value) : modelErrors v = [] <-> nonEmptyString v.
Proof.
  unfold modelErrors, nonEmptyString. rewrite check_nil. split.
  - intros H. apply orb_false_iff in H. destruct H as [H1 H2].
    destruct v as [|x|s|n|t]; simpl in *; try discriminate.
    destruct s as [|c r]; [discriminate|]. now exists c, r.
  - intros (c & r & ->). reflexivity.
Qed.

Lemma maxTokensErrors_nil (v : Value) :
  maxTokensErrors v = [] <-> numberWithin v 1 4096.
Proof.
  unfold maxTokensErrors, numberWithin. split.
  - intros H. destruct (negb (truthyValue v)) eqn:T; [discriminate|].
    apply check_nil in H.
    destruct v as [|x|s|n|t]; simpl in H; try discriminate.
    apply orb_false_iff in H. exists x. tauto.
  - intros (x & -> & H1 & H2).
    assert (T : truthyValue (VNumber x) = true).
    { destruct x as [p q| |]; simpl in *; try reflexivity.
      apply negb_true_iff. apply Z.eqb_neq. apply Z.ltb_ge in H1. lia. }
    rewrite T. simpl. now rewrite H1, H2.
Qed.

Lemma no_errors_iff (errors : list string) : (0 <? length errors) = false <-> errors = [].
Proof. destruct errors; cbn; split; intros H; try reflexivity; discriminate H. Qed.

Lemma app_nil_iff {A} (a b : list A) : a ++ b = [] <-> a = [] /\ b = [].
Proof.
  split; [apply app_eq_nil | intros [-> ->]; reflexivity].
Qed.

End ValidatorFacts.

(** X27.  The OpenAI validator lets a body pass exactly when [messages] is a
    non-empty array, [model] a non-empty string, and each of [temperature]
    (0 to 2), [max_tokens] (at least 1), [top_p] (0 to 1) and [n] (at least 1)
    is absent or a number in its range; any other body is answered with
    status 400 in the OpenAI error shape. *)
Theorem openai_validation_guarantee (b : Validator.OpenAIBody) :
  (Validator.validateOpenAIRequest b = Http.Next <-> Samples3.validOpenAIBody b) /\
  match Validator.validateOpenAIRequest b with
  | Http.Next => True
  | Http.Respond status body =>
      status = 400 /\ Http.isAnthropicShaped body = false /\
      Samples3.errorTypeOf body = "invalid_request_error"
  end.
Proof.
  split.
  - unfold Validator.validateOpenAIRequest, Samples3.validOpenAIBody.
    destruct (0 <? length (Validator.openAIErrors b)) eqn:E.
    + split; [discriminate|]. intros H. exfalso.
      assert (Hnil : Validator.openAIErrors b = []).
      { unfold Validator.openAIErrors. rewrite !app_nil_iff, !check_nil.
        rewrite messagesErrors_nil, modelErrors_nil.
        rewrite !optional_within, !optional_atLeast. exact H. }
      rewrite Hnil in E. discriminate.
    + split; [|reflexivity]. intros _.
      apply no_errors_iff in E. unfold Validator.openAIErrors in E.
      rewrite !app_nil_iff, !check_nil in E.
      rewrite messagesErrors_nil, modelErrors_nil in E.
      rewrite !optional_within, !optional_atLeast in E. exact E.
  - unfold Validator.validateOpenAIRequest.
    destruct (0 <? length (Validator.openAIErrors b)); [repeat split | exact I].
Qed.

(** X28.  The Anthropic validator lets a body pass exactly when [model] is a
    non-empty string, [messages] a non-empty array, [max_tokens] a number from
    1 to 4096, and each of [temperature] (0 to 1), [top_p] (0 to 1) and
    [top_k] (0 to 500) is absent or a number in its range; any other body is
    answered with status 400 in the Anthropic error shape. *)
Theorem anthropic_validation_guarantee (b : Validator.AnthropicBody) :
  (Validator.validateAnthropicRequest b = Http.Next <-> Samples3.validAnthropicBody b) /\
  match Validator.validateAnthropicRequest b with
  | Http.Next => True
  | Http.Respond status body =>
      status = 400 /\ Http.isAnthropicShaped body = true /\
      Samples3.errorTypeOf body = "invalid_request_error"
  end.
Proof.
  split.
  - unfold Validator.validateAnthropicRequest, Samples3.validAnthropicBody.
    destruct (0 <? length (Validator.anthropicErrors b)) eqn:E.
    + split; [discriminate|]. intros H. exfalso.
      assert (Hnil : Validator.anthropicErrors b = []).
      { unfold Validator.anthropicErrors. rewrite !app_nil_iff, !check_nil.
        rewrite messagesErrors_nil, modelErrors_nil, maxTokensErrors_nil.
        rewrite !optional_within. exact H. }
      rewrite Hnil in E. discriminate.
    + split; [|reflexivity]. intros _.
      apply no_errors_iff in E. unfold Validator.anthropicErrors in E.
      rewrite !app_nil_iff, !check_nil in E.
      rewrite messagesErrors_nil, modelErrors_nil, maxTokensErrors_nil in E.
      rewrite !optional_within in E. exact E.
  - unfold Validator.validateAnthropicRequest.
    destruct (0 <? length (Validator.anthropicErrors b)); [repeat split | exact I].
Qed.
